(** * Sales comparison application: shallow embedding and verified properties

    The development follows the source:
    - [Pandas]: the fragment of the data-frame library the application
      relies on (timestamps, float division, grouping, quantile binning),
      written after the library's documented behaviour;
    - [DataProcessing]: [src/data_processing.py] (loading and cleaning);
    - [Visualizations]: [src/visualizations.py] (filters, growth tables,
      RFM scoring, the four panels with their charts and the failure of a
      table to render);
    - [Main]: the construction of the filter dictionary in [main.py].

    Numbers that the program stores as binary floats are modelled as
    rationals; the special results of a float division (infinities and
    not-a-number) are kept explicit in [Pandas.float], because the growth
    columns depend on them. Additions of rationals are exact, additions
    of binary floats are not: a statement that compares sums taken in
    different groupings, or tests a sum for equality, is made for whole
    amounts of bounded size ([whole_amounts]), for which every order of
    float additions is exact ([float_sum_exact]). Rounding to two decimals
    is a parameter of the loader, like the other library coercions.

    The panels are modelled for a configuration that carries the two
    chart colours, as the built-in default configuration does. *)

From Stdlib Require Import ZArith QArith Qround Qabs List String Ascii Bool.
From Stdlib Require Import Lia Lqa.
From Stdlib Require Import Permutation Sorted DecimalString.
Import ListNotations.

Set Implicit Arguments.

(* ================================================================== *)
(** * The data-frame primitives used by the application *)
(* ================================================================== *)

Module Pandas.

(** ** Timestamps ([datetime64[ns]]): nanoseconds since 1970-01-01 *)

Definition Timestamp := Z.

Definition ns_per_day : Z := 86400000000000.

(** [Timedelta.days] of [later - earlier]: floor division. *)
Definition timedelta_days (later earlier : Timestamp) : Z :=
  ((later - earlier) / ns_per_day)%Z.

(** Calendar day number of a timestamp ([dt.date]). *)
Definition dt_date (t : Timestamp) : Z := (t / ns_per_day)%Z.

(** Month of the proleptic Gregorian calendar from the day within the
    400-year era that starts on 1 March. *)
Definition month_of_doe (doe : Z) : Z :=
  (let yoe := (doe - doe / 1460 + doe / 36524 - doe / 146096) / 365 in
   let doy := doe - (365 * yoe + yoe / 4 - yoe / 100) in
   let mp := (5 * doy + 2) / 153 in
   if mp <? 10 then mp + 3 else mp - 9)%Z.

(** [dt.month]. *)
Definition dt_month (t : Timestamp) : Z :=
  month_of_doe ((dt_date t + 719468) mod 146097)%Z.

(** [Series.max] on a column of timestamps; [None] is [NaT]. *)
Definition max_timestamp (l : list Timestamp) : option Timestamp :=
  match l with
  | [] => None
  | t :: rest => Some (fold_left Z.max rest t)
  end.

(** ** Floats: rationals plus the special values of IEEE division *)

Inductive float : Type :=
| Fin (q : Q)
| PInf
| NInf
| NaN.

(** Python truthiness of a number: false exactly at zero. *)
Definition truthy (q : Q) : bool := negb (Qeq_bool q 0).

Definition Qlt_bool (a b : Q) : bool := negb (Qle_bool b a).

(** Element-wise division of two numeric columns: a zero divisor does
    not raise, it yields an infinity or not-a-number. The sign of a zero
    divisor is not tracked; the application replaces both infinities
    alike. *)
Definition fdiv (a b : Q) : float :=
  if Qeq_bool b 0 then
    if Qeq_bool a 0 then NaN
    else if Qlt_bool 0 a then PInf else NInf
  else Fin (a / b).

(** Multiplication of a float by a positive finite constant. *)
Definition fscale (x : float) (k : Q) : float :=
  match x with
  | Fin q => Fin (q * k)
  | other => other
  end.

(** [Series.replace([inf, -inf], v)]. *)
Definition replace_inf (x : float) (v : Q) : float :=
  match x with
  | PInf | NInf => Fin v
  | other => other
  end.

(** [Series.sum] and the grouped [sum] of a numeric column, without the
    rounding of binary floats: the value the program computes whenever
    its additions are exact. *)
Definition sum (l : list Q) : Q := fold_right Qplus 0 l.

Definition sumZ (l : list Z) : Z := fold_right Z.add 0%Z l.

(** ** Membership tests *)

Definition isin_Z (x : Z) (l : list Z) : bool := existsb (Z.eqb x) l.

Definition isin_str (x : string) (l : list string) : bool :=
  existsb (String.eqb x) l.

(** A missing value is a member of no list of strings. *)
Definition isin_opt (x : option string) (l : list string) : bool :=
  match x with
  | Some s => isin_str s l
  | None => false
  end.

(** ** Sorted distinct group keys *)

(** Insertion into a list kept in the order [leb]. *)
Fixpoint insert_sorted {A : Type} (leb : A -> A -> bool) (x : A) (l : list A)
  : list A :=
  match l with
  | [] => [x]
  | y :: rest =>
      if leb x y then x :: y :: rest else y :: insert_sorted leb x rest
  end.

(** [sort_values] of a column under the order [leb]. *)
Definition sort_by {A : Type} (leb : A -> A -> bool) (l : list A) : list A :=
  fold_right (insert_sorted leb) [] l.

(** Keys of a [groupby] or of an outer [merge]: each distinct key once,
    in lexicographic order. *)
Definition group_keys (l : list string) : list string :=
  sort_by String.leb (nodup string_dec l).

Definition pair_leb (a b : string * string) : bool :=
  match String.compare (fst a) (fst b) with
  | Lt => true
  | Eq => String.leb (snd a) (snd b)
  | Gt => false
  end.

Definition pair_dec (a b : string * string) : {a = b} + {a <> b}.
Proof. decide equality; apply string_dec. Defined.

Definition pair_eqb (a b : string * string) : bool :=
  String.eqb (fst a) (fst b) && String.eqb (snd a) (snd b).

Definition group_keys2 (l : list (string * string)) : list (string * string) :=
  sort_by pair_leb (nodup pair_dec l).

(** ['first'] aggregation: first non-missing value of the group. *)
Fixpoint first_valid (l : list (option string)) : option string :=
  match l with
  | [] => None
  | Some s :: _ => Some s
  | None :: rest => first_valid rest
  end.

(** ** Quantile binning ([qcut]) *)

(** [Series.quantile(q)] with linear interpolation, on the sorted
    values. *)
Definition quantile (sorted : list Q) (q : Q) : Q :=
  let n := Z.of_nat (List.length sorted) in
  let h := q * inject_Z (n - 1) in
  let lo := Qfloor h in
  let hi := Z.min (lo + 1) (n - 1) in
  let a := nth (Z.to_nat lo) sorted 0 in
  let b := nth (Z.to_nat hi) sorted 0 in
  a + (b - a) * (h - inject_Z lo).

(** [numpy.linspace(0, 1, 5)]. *)
Definition quartiles : list Q := [0; 1 # 4; 1 # 2; 3 # 4; 1].

Definition quantile_edges (xs : list Q) : list Q :=
  map (quantile (sort_by Qle_bool xs)) quartiles.

(** [algos.unique]: distinct values in order of first appearance. *)
Fixpoint unique_from (seen l : list Q) : list Q :=
  match l with
  | [] => []
  | x :: rest =>
      if existsb (Qeq_bool x) seen then unique_from seen rest
      else x :: unique_from (x :: seen) rest
  end.

Definition unique (l : list Q) : list Q := unique_from [] l.

(** [Series.nunique]. *)
Definition nunique (l : list Q) : nat := List.length (unique l).

(** [bins.searchsorted(x, side='left')]: index of the first edge that is
    not below [x]. *)
Fixpoint searchsorted_left (bins : list Q) (x : Q) : nat :=
  match bins with
  | [] => O
  | b :: rest => if Qlt_bool b x then S (searchsorted_left rest x) else O
  end.

Inductive exn : Type :=
| ValueError (msg : string)
| OtherError (msg : string).

(** [str(e)]. *)
Definition exn_message (e : exn) : string :=
  match e with ValueError m | OtherError m => m end.

Fixpoint has_duplicates (l : list Z) : bool :=
  match l with
  | [] => false
  | x :: rest => existsb (Z.eqb x) rest || has_duplicates rest
  end.

(** Bin index of one value, with [include_lowest=True]; [O] and
    [length bins] mark a value outside every bin. *)
Definition bin_id (bins : list Q) (x : Q) : nat :=
  match bins with
  | b0 :: _ => if Qeq_bool x b0 then 1%nat else searchsorted_left bins x
  | [] => O
  end.

(** Label of one value; [None] is a missing category. *)
Definition cut_label (bins : list Q) (labels : list Z) (x : Q) : option Z :=
  let id := bin_id bins x in
  if Nat.eqb id 0 || Nat.eqb id (List.length bins) then None
  else nth_error labels (id - 1).

(** [_bins_to_cuts(x, bins, labels=labels, include_lowest=True,
    duplicates='drop')]. *)
Definition bins_to_cuts (xs bins : list Q) (labels : list Z)
  : exn + list (option Z) :=
  let unique_bins := unique bins in
  let bins :=
    if Nat.ltb (List.length unique_bins) (List.length bins)
       && negb (Nat.eqb (List.length bins) 2)
    then unique_bins else bins in
  if has_duplicates labels then
    inl (ValueError "labels must be unique if ordered=True; pass ordered=False for duplicate labels")
  else if negb (Nat.eqb (List.length labels) (List.length bins - 1)) then
    inl (ValueError "Bin labels must be one fewer than the number of bin edges")
  else inr (map (cut_label bins labels) xs).

(** [pd.qcut(x, q=4, labels=labels, duplicates='drop')]. *)
Definition qcut4 (xs : list Q) (labels : list Z) : exn + list (option Z) :=
  bins_to_cuts xs (quantile_edges xs) labels.

(** ** Month keys, periods and first-occurrence de-duplication *)

(** Keys of [groupby(dt.month)]: each month once, ascending. *)
Definition group_months (l : list Z) : list Z :=
  sort_by Z.leb (nodup Z.eq_dec l).

Definition month_key_leb (a b : Z * string) : bool :=
  if (fst a <? fst b)%Z then true
  else if (fst a =? fst b)%Z then String.leb (snd a) (snd b)
       else false.

Definition month_key_dec (a b : Z * string) : {a = b} + {a <> b}.
Proof. decide equality; [apply string_dec | apply Z.eq_dec]. Defined.

Definition month_key_eqb (a b : Z * string) : bool :=
  Z.eqb (fst a) (fst b) && String.eqb (snd a) (snd b).

(** Keys of [groupby([dt.month, column])]: each pair once, by month and
    then by key. *)
Definition group_month_keys (l : list (Z * string)) : list (Z * string) :=
  sort_by month_key_leb (nodup month_key_dec l).

(** [drop_duplicates]: the first row of each key, in order of first
    appearance. *)
Fixpoint drop_duplicates_from {A K : Type} (eqb : K -> K -> bool)
         (key : A -> K) (seen : list K) (l : list A) : list A :=
  match l with
  | [] => []
  | x :: rest =>
      if existsb (eqb (key x)) seen
      then drop_duplicates_from eqb key seen rest
      else x :: drop_duplicates_from eqb key (key x :: seen) rest
  end.

Definition drop_duplicates {A K : Type} (eqb : K -> K -> bool)
           (key : A -> K) (l : list A) : list A :=
  drop_duplicates_from eqb key [] l.

(** [dropna] on a column. *)
Definition dropna {A : Type} (l : list (option A)) : list A :=
  flat_map (fun x => match x with Some a => [a] | None => [] end) l.

(** Equality of two cells of a text column; missing equals missing for
    [drop_duplicates]. *)
Definition opt_eqb (a b : option string) : bool :=
  match a, b with
  | Some x, Some y => String.eqb x y
  | None, None => true
  | _, _ => false
  end.

(** Calendar year of a day number, and [dt.to_period('M')]. *)
Definition year_of_days (days : Z) : Z :=
  (let z := days + 719468 in
   let era := z / 146097 in
   let doe := z mod 146097 in
   let yoe := (doe - doe / 1460 + doe / 36524 - doe / 146096) / 365 in
   let doy := doe - (365 * yoe + yoe / 4 - yoe / 100) in
   let mp := (5 * doy + 2) / 153 in
   yoe + era * 400 + (if mp <? 10 then 0 else 1))%Z.

Definition to_period_M (t : Timestamp) : Z * Z :=
  (year_of_days (dt_date t), dt_month t).

Definition period_dec (a b : Z * Z) : {a = b} + {a <> b}.
Proof. decide equality; apply Z.eq_dec. Defined.

End Pandas.

(* ================================================================== *)
(** * [src/data_processing.py] *)
(* ================================================================== *)

Module DataProcessing.
Import Pandas.

(** One cleaned billing line; the fields are the eleven columns. *)
Record Transaction : Type := mkTransaction {
  Billing_Date : Timestamp;
  Customer : string;
  Name : option string;
  Material : string;
  Item_Description : option string;
  So_Luong : Q;
  Don_Gia : Q;
  DS_Da_Tru_CK : Q;
  Program : option string;
  Product_Hierarchy : option string;
  Ten_TDV : option string
}.

Definition DataFrame := list Transaction.

(** [df.empty]. *)
Definition empty {A : Type} (df : list A) : bool :=
  match df with [] => true | _ :: _ => false end.

Definition required_columns : list string :=
  ["Billing Date"; "Customer"; "Name"; "Material"; "Item Description";
   "Số Lượng"; "Đơn Giá"; "DS Ðã Trừ CK"; "Program"; "Product Hierarchy";
   "Tên TDV"]%string.

(** ** Identifier normalization: the regular expression [\.0+$] replaced by
    the empty string *)

Definition is_char (c d : ascii) : bool := Ascii.eqb c d.

Definition newline : ascii := "010"%char.

(** [0*$] at the start of [s]: zeros up to the end of the string or up to
    a final newline; the result is what the match leaves unconsumed. *)
Fixpoint zeros_to_end (s : string) : option string :=
  match s with
  | EmptyString => Some EmptyString
  | String c rest =>
      if is_char c "0" then zeros_to_end rest
      else if is_char c newline && String.eqb rest EmptyString then Some s
      else None
  end.

(** The pattern [\.0+$] tried at the start of [s]. *)
Definition match_here (s : string) : option string :=
  match s with
  | String c (String d rest) =>
      if is_char c "." && is_char d "0" then zeros_to_end rest else None
  | _ => None
  end.

(** Leftmost match replaced by the empty string; the scan moves one
    character to the right while the pattern does not match. *)
Fixpoint normalize_id (s : string) : string :=
  match s with
  | EmptyString => EmptyString
  | String c rest =>
      match match_here (String c rest) with
      | Some after => after
      | None => String c (normalize_id rest)
      end
  end.

(** ** Loading *)

Inductive message : Type :=
| MissingColumns (year_label : string) (missing_cols : list string)
| InvalidDates (year_label : string) (count : nat) (index : list nat)
| InvalidNumeric (year_label : string) (count : nat) (index : list nat)
| ProcessingFailed (year_label : string) (cause : string).

Inductive event : Type :=
| LogError (m : message)
| StError (m : message)
| StWarning (m : message).

Section Load.

(** Spreadsheet cells are opaque; the library coercions applied to them
    are taken as given. *)
Variable Cell : Type.
Variable to_datetime : Cell -> option Timestamp.
Variable to_numeric : Cell -> option Q.
Variable astype_str : Cell -> string.
Variable text_of : Cell -> option string.

(** [Series.round(2)] on the amount column: the library rounds the binary
    float, and is taken as given too. *)
Variable round2 : Q -> Q.

(** Result of [pd.read_excel]: the column names and the rows. *)
Record RawTable : Type := mkRawTable {
  columns : list string;
  rows : list (string -> Cell)
}.

Definition missing_columns (raw : RawTable) : list string :=
  filter (fun col => negb (isin_str col (columns raw))) required_columns.

(** Rows with their original positions and parsed dates. *)
Definition with_dates (raw : RawTable)
  : list (nat * (string -> Cell) * option Timestamp) :=
  map (fun ir => (fst ir, snd ir, to_datetime (snd ir "Billing Date"%string)))
      (combine (seq 0 (List.length (rows raw))) (rows raw)).

Definition numeric_ok (r : string -> Cell) : bool :=
  match to_numeric (r "Số Lượng"%string),
        to_numeric (r "Đơn Giá"%string),
        to_numeric (r "DS Ðã Trừ CK"%string) with
  | Some _, Some _, Some _ => true
  | _, _, _ => false
  end.

Definition clean_row (r : string -> Cell) (d : Timestamp)
  : option Transaction :=
  match to_numeric (r "Số Lượng"%string),
        to_numeric (r "Đơn Giá"%string),
        to_numeric (r "DS Ðã Trừ CK"%string) with
  | Some qty, Some price, Some amount =>
      Some {| Billing_Date := d;
              Customer := normalize_id (astype_str (r "Customer"%string));
              Name := text_of (r "Name"%string);
              Material := normalize_id (astype_str (r "Material"%string));
              Item_Description := text_of (r "Item Description"%string);
              So_Luong := qty;
              Don_Gia := price;
              DS_Da_Tru_CK := round2 amount;
              Program := text_of (r "Program"%string);
              Product_Hierarchy := text_of (r "Product Hierarchy"%string);
              Ten_TDV := text_of (r "Tên TDV"%string) |}
  | _, _, _ => None
  end.

Definition load_and_validate_data (read : exn + RawTable)
           (year_label : string) : list event * option DataFrame :=
  match read with
  | inl e =>
      let m := ProcessingFailed year_label (exn_message e) in
      ([LogError m; StError m], None)
  | inr raw =>
      let missing_cols := missing_columns raw in
      if negb (empty missing_cols) then
        let m := MissingColumns year_label missing_cols in
        ([LogError m; StError m], None)
      else
        let dated := with_dates raw in
        let invalid_dates :=
          filter (fun x => match snd x with None => true | Some _ => false end)
                 dated in
        let ev_dates :=
          if negb (empty invalid_dates) then
            let m := InvalidDates year_label (List.length invalid_dates)
                                  (map (fun x => fst (fst x)) invalid_dates) in
            [LogError m; StWarning m]
          else [] in
        let kept :=
          flat_map (fun x => match snd x with
                             | Some d => [(fst (fst x), snd (fst x), d)]
                             | None => []
                             end) dated in
        let invalid_numeric :=
          filter (fun x => negb (numeric_ok (snd (fst x)))) kept in
        let ev_numeric :=
          if negb (empty invalid_numeric) then
            let m := InvalidNumeric year_label (List.length invalid_numeric)
                                    (map (fun x => fst (fst x)) invalid_numeric) in
            [LogError m; StWarning m]
          else [] in
        let df :=
          flat_map (fun x => match clean_row (snd (fst x)) (snd x) with
                             | Some t => [t]
                             | None => []
                             end) kept in
        (ev_dates ++ ev_numeric, Some df)
  end.

End Load.

End DataProcessing.

(* ================================================================== *)
(** * [src/visualizations.py] *)
(* ================================================================== *)

Module Visualizations.
Import Pandas DataProcessing.

(** The [filters] dictionary. *)
Record Filters : Type := mkFilters {
  months : list Z;
  customers : list string;
  materials : list string;
  tdvs : list string
}.

(** ** Row filtering *)

(** The filtering prologue of [plot_overview], [plot_product_analysis]
    and [plot_customer_analysis]: months always, the other three only
    when their list is non-empty. *)
Definition apply_filters (df : DataFrame) (filters : Filters) : DataFrame :=
  let df := filter (fun r => isin_Z (dt_month (Billing_Date r)) (months filters)) df in
  let df := if negb (empty (customers filters))
            then filter (fun r => isin_str (Customer r) (customers filters)) df
            else df in
  let df := if negb (empty (materials filters))
            then filter (fun r => isin_str (Material r) (materials filters)) df
            else df in
  if negb (empty (tdvs filters))
  then filter (fun r => isin_opt (Ten_TDV r) (tdvs filters)) df
  else df.

(** The prologue of [plot_tdv_analysis]: same tests, sales reps first. *)
Definition apply_filters_tdv (df : DataFrame) (filters : Filters) : DataFrame :=
  let df := filter (fun r => isin_Z (dt_month (Billing_Date r)) (months filters)) df in
  let df := if negb (empty (tdvs filters))
            then filter (fun r => isin_opt (Ten_TDV r) (tdvs filters)) df
            else df in
  let df := if negb (empty (materials filters))
            then filter (fun r => isin_str (Material r) (materials filters)) df
            else df in
  if negb (empty (customers filters))
  then filter (fun r => isin_str (Customer r) (customers filters)) df
  else df.

(** ** Growth tables *)

(** The guarded expression [(curr - prev) / prev * 100 if prev else 0],
    used for the headline growth and for every totals row. *)
Definition guarded_growth (prev curr : Q) : Q :=
  if truthy prev then (curr - prev) / prev * 100 else 0.

(** The column expression
    [((curr - prev) / prev * 100).replace([inf, -inf], 0)]. *)
Definition column_growth (prev curr : Q) : float :=
  replace_inf (fscale (fdiv (curr - prev) prev) 100) 0.

(** One group of [groupby(key).agg({amount: 'sum', label: 'first'})]. *)
Record Grouped : Type := mkGrouped {
  g_key : string;
  g_amount : Q;
  g_label : option string
}.

Definition group_sales (key : Transaction -> string)
           (label : Transaction -> option string) (df : DataFrame)
  : list Grouped :=
  if negb (empty df) then
    map (fun k =>
           let g := filter (fun r => String.eqb (key r) k) df in
           {| g_key := k;
              g_amount := sum (map DS_Da_Tru_CK g);
              g_label := first_valid (map label g) |})
        (group_keys (map key df))
  else [].

(** A table cell that holds text or a number. *)
Inductive cell : Type :=
| Text (s : string)
| Num (x : float).

Definition lookup (k : string) (side : list Grouped) : option Grouped :=
  find (fun g => String.eqb (g_key g) k) side.

(** [fillna(0)] on a label and on an amount of the merged frame. *)
Definition label_or_zero (g : option Grouped) : cell :=
  match g with
  | Some {| g_label := Some s |} => Text s
  | _ => Num (Fin 0)
  end.

Definition amount_or_zero (g : option Grouped) : Q :=
  match g with
  | Some r => g_amount r
  | None => 0
  end.

(** A row of [prev.merge(curr, on=key, how='outer').fillna(0)] with its
    growth column. *)
Record MergedRow : Type := mkMergedRow {
  m_key : string;
  m_label_prev : cell;
  m_prev : Q;
  m_label_curr : cell;
  m_curr : Q;
  m_growth : float
}.

Definition merge_outer (prev curr : list Grouped) : list MergedRow :=
  map (fun k =>
         let p := lookup k prev in
         let c := lookup k curr in
         {| m_key := k;
            m_label_prev := label_or_zero p;
            m_prev := amount_or_zero p;
            m_label_curr := label_or_zero c;
            m_curr := amount_or_zero c;
            m_growth := column_growth (amount_or_zero p) (amount_or_zero c) |})
      (group_keys (map g_key prev ++ map g_key curr)).

(** A row of the displayed table. *)
Record TableRow : Type := mkTableRow {
  entity : string;
  label_prev : cell;
  amount_prev : Q;
  label_curr : cell;
  amount_curr : Q;
  growth_pct : cell
}.

(** The final [fillna('')] on a growth cell. *)
Definition blank_if_nan (x : float) : cell :=
  match x with
  | NaN => Text EmptyString
  | other => Num other
  end.

Definition shown_row (m : MergedRow) : TableRow :=
  {| entity := m_key m;
     label_prev := m_label_prev m;
     amount_prev := m_prev m;
     label_curr := m_label_curr m;
     amount_curr := m_curr m;
     growth_pct := blank_if_nan (m_growth m) |}.

Definition total_row (merged : list MergedRow) : TableRow :=
  {| entity := EmptyString;
     label_prev := Text EmptyString;
     amount_prev := sum (map m_prev merged);
     label_curr := Text EmptyString;
     amount_curr := sum (map m_curr merged);
     growth_pct :=
       Num (Fin (guarded_growth (sum (map m_prev merged))
                                (sum (map m_curr merged)))) |}.

(** [pd.concat([merged[...], total_row]).fillna('')]. *)
Definition sales_table (key : Transaction -> string)
           (label : Transaction -> option string)
           (prev_filtered curr_filtered : DataFrame) : list TableRow :=
  let merged := merge_outer (group_sales key label prev_filtered)
                            (group_sales key label curr_filtered) in
  map shown_row merged ++ [total_row merged].

Definition customer_table : DataFrame -> DataFrame -> list TableRow :=
  sales_table Customer Name.

Definition product_table : DataFrame -> DataFrame -> list TableRow :=
  sales_table Material Item_Description.

(** ** RFM scoring: [calculate_rfm] *)

(** One row of the grouped frame, before scoring. *)
Record RfmGroup : Type := mkRfmGroup {
  rg_Customer : string;
  rg_Name : string;
  rg_Recency : Z;
  rg_Frequency : Z;
  rg_Monetary : Q
}.

(** One row of the frame [calculate_rfm] returns. *)
Record RfmRecord : Type := mkRfmRecord {
  r_Customer : string;
  r_Name : string;
  Recency : Z;
  Frequency : Z;
  Monetary : Q;
  Recency_Score : option Z;
  Frequency_Score : option Z;
  Monetary_Score : option Z;
  RFM_Segment : string
}.

(** Rows that take part in [groupby(['Customer', 'Name'])]: a row whose
    name is missing belongs to no group. *)
Definition named_rows (df : DataFrame) : list (string * string * Transaction) :=
  flat_map (fun r => match Name r with
                     | Some n => [(Customer r, n, r)]
                     | None => []
                     end) df.

Definition rfm_groups (df : DataFrame) (latest_date : Timestamp)
  : list RfmGroup :=
  let named := named_rows df in
  map (fun k =>
         let g := map snd (filter (fun x => pair_eqb (fst x) k) named) in
         {| rg_Customer := fst k;
            rg_Name := snd k;
            rg_Recency :=
              match max_timestamp (map Billing_Date g) with
              | Some latest_purchase => timedelta_days latest_date latest_purchase
              | None => 0%Z
              end;
            rg_Frequency := Z.of_nat (List.length g);
            rg_Monetary := sum (map DS_Da_Tru_CK g) |})
      (group_keys2 (map fst named)).

Definition recency_labels : list Z := [4; 3; 2; 1]%Z.
Definition direct_labels : list Z := [1; 2; 3; 4]%Z.

(** One iteration of the scoring loop: the constant 1 when the column has
    at most one distinct value, quartile labels otherwise. *)
Definition score_column (col : list Q) (labels : list Z)
  : exn + list (option Z) :=
  if Nat.leb (nunique col) 1 then inr (map (fun _ => Some 1%Z) col)
  else qcut4 col labels.

(** [astype(str)] of a score. *)
Definition score_str (s : option Z) : string :=
  match s with
  | Some z => NilZero.string_of_int (Z.to_int z)
  | None => "nan"
  end.

(** Row-wise assembly of the grouped frame with its three score columns. *)
Fixpoint assemble (gs : list RfmGroup) (rs fs ms : list (option Z))
  : list RfmRecord :=
  match gs, rs, fs, ms with
  | g :: gs', r :: rs', f :: fs', m :: ms' =>
      {| r_Customer := rg_Customer g;
         r_Name := rg_Name g;
         Recency := rg_Recency g;
         Frequency := rg_Frequency g;
         Monetary := rg_Monetary g;
         Recency_Score := r;
         Frequency_Score := f;
         Monetary_Score := m;
         RFM_Segment := score_str r ++ score_str f ++ score_str m |}
      :: assemble gs' rs' fs' ms'
  | _, _, _, _ => []
  end.

(** The body of the [try] block, after the input check. *)
Definition score_groups (gs : list RfmGroup) : exn + list RfmRecord :=
  match score_column (map (fun g => inject_Z (rg_Recency g)) gs) recency_labels with
  | inl e => inl e
  | inr rs =>
      match score_column (map (fun g => inject_Z (rg_Frequency g)) gs) direct_labels with
      | inl e => inl e
      | inr fs =>
          match score_column (map rg_Monetary gs) direct_labels with
          | inl e => inl e
          | inr ms => inr (assemble gs rs fs ms)
          end
      end
  end.

(** What a panel emits, in order. [RfmCall] marks a call of
    [calculate_rfm] with its two arguments; the other constructors are the
    log line, the messages, the metrics and the tables put on screen. *)
Inductive output : Type :=
| Log (text : string)
| Error (text : string)
| Warning (text : string)
| RevenueMetric (total_curr growth : Q)
| OrdersMetric (num_orders_curr : nat) (delta : Z)
| SalesTable (title : string) (table : list TableRow)
| RfmCall (df : DataFrame) (latest_date : Timestamp)
| RfmTable (table : list (string * string * cell * Z * Q * string)).

(** [calculate_rfm(df, latest_date)]: the messages it emits and the value
    it returns ([None] on invalid input and on any exception). *)
Definition calculate_rfm (df : DataFrame) (latest_date : Timestamp)
  : list output * option (list RfmRecord) :=
  if empty df then ([Log "Invalid input data for RFM"], None)
  else
    match score_groups (rfm_groups df latest_date) with
    | inl e =>
        let text := ("Error calculating RFM: " ++ exn_message e)%string in
        ([Log text; Error text], None)
    | inr rfm => ([], Some rfm)
    end.

(** ** Rendering a table and failing *)

(** [st.dataframe(table.style.format({..., 'Tăng trưởng (%)': '{:.2f}%'}))]
    applies the format to every cell of the growth column. A blank cell is
    the empty string, on which the float format code raises. *)
Definition format_error_text : string :=
  "Unknown format code 'f' for object of type 'str'".

Definition formats (row : TableRow) : bool :=
  match growth_pct row with
  | Num _ => true
  | Text _ => false
  end.

Definition st_dataframe {O : Type} (table : list TableRow) (shown : O)
  : exn + list O :=
  if forallb formats table then inr [shown]
  else inl (ValueError format_error_text).

(** The body of a panel, [try: ... except Exception as e: ...]: the
    outputs of its steps up to the first step that raises, then what the
    handler emits for the exception's text. *)
Fixpoint run_steps {O : Type} (handler : string -> list O)
         (steps : list (exn + list O)) : list O :=
  match steps with
  | [] => []
  | inr outs :: rest => outs ++ run_steps handler rest
  | inl e :: _ => handler (exn_message e)
  end.

(** The handlers of the four panels: one line in the log, one error on
    screen. *)
Definition overview_failure (text : string) : list output :=
  [Log ("Error in plot_overview: " ++ text);
   Error ("Lỗi tab Tổng Quan: " ++ text)].

Definition product_failure (text : string) : list output :=
  [Log ("Error in plot_product_analysis: " ++ text);
   Error ("Lỗi tab Sản Phẩm: " ++ text)].

Definition customer_failure (text : string) : list output :=
  [Log ("Error in plot_customer_analysis: " ++ text);
   Error ("Lỗi tab Khách Hàng: " ++ text)].

(** ** The overview panel *)

Definition no_data_text : string :=
  "Không có dữ liệu sau khi lọc. Vui lòng kiểm tra bộ lọc.".

Definition order_dec (a b : string * Z) : {a = b} + {a <> b}.
Proof. decide equality; [apply Z.eq_dec | apply string_dec]. Defined.

(** Number of distinct (customer, calendar day) pairs. *)
Definition num_orders (df : DataFrame) : nat :=
  if negb (empty df) then
    List.length (nodup order_dec
                   (map (fun r => (Customer r, dt_date (Billing_Date r))) df))
  else O.

Definition total_amount (df : DataFrame) : Q :=
  if negb (empty df) then sum (map DS_Da_Tru_CK df) else 0.

(** Headline growth of the overview panel. *)
Definition headline_growth (prev_filtered curr_filtered : DataFrame) : Q :=
  guarded_growth (total_amount prev_filtered) (total_amount curr_filtered).

(** [plot_overview] up to its trend chart, which is [overview_chart]. *)
Definition plot_overview (df_prev df_curr : DataFrame) (filters : Filters)
  : list output :=
  let prev_filtered := apply_filters df_prev filters in
  let curr_filtered := apply_filters df_curr filters in
  if empty prev_filtered && empty curr_filtered then [Warning no_data_text]
  else
    run_steps overview_failure
      [inr [RevenueMetric (total_amount curr_filtered)
                          (headline_growth prev_filtered curr_filtered);
            OrdersMetric (num_orders curr_filtered)
                         (Z.of_nat (num_orders curr_filtered)
                          - Z.of_nat (num_orders prev_filtered))];
       st_dataframe (customer_table prev_filtered curr_filtered)
                    (SalesTable "Doanh số Khách hàng"
                                (customer_table prev_filtered curr_filtered));
       st_dataframe (product_table prev_filtered curr_filtered)
                    (SalesTable "Doanh số Sản phẩm"
                                (product_table prev_filtered curr_filtered))].

(** ** The product panel *)

(** [plot_product_analysis] up to its chart, which is [product_chart]. *)
Definition plot_product_analysis (df_prev df_curr : DataFrame)
           (filters : Filters) : list output :=
  let prev_filtered := apply_filters df_prev filters in
  let curr_filtered := apply_filters df_curr filters in
  if empty prev_filtered && empty curr_filtered then [Warning no_data_text]
  else
    run_steps product_failure
      [st_dataframe (product_table prev_filtered curr_filtered)
                    (SalesTable "Doanh số Sản phẩm"
                                (product_table prev_filtered curr_filtered))].

(** ** The customer panel *)

Definition select_customer_text : string :=
  "Vui lòng chọn ít nhất một khách hàng để tính RFM.".

(** The reference date handed to [calculate_rfm]; [now] is the wall
    clock. *)
Definition latest_date (df_prev df_curr : DataFrame) (now : Timestamp)
  : Timestamp :=
  if negb (empty df_curr) && negb (empty df_prev) then
    match max_timestamp (map Billing_Date df_curr),
          max_timestamp (map Billing_Date df_prev) with
    | Some c, Some p => if (c <? p)%Z then p else c
    | _, _ => now
    end
  else now.

Definition min_Z (l : list Z) : cell :=
  match l with
  | [] => Text EmptyString
  | z :: rest => Num (Fin (inject_Z (fold_left Z.min rest z)))
  end.

Definition first_or_blank (l : list string) : string :=
  match l with
  | [] => EmptyString
  | s :: _ => s
  end.

(** The regrouping by customer and the totals row of the RFM table. *)
Definition rfm_table (rfm : list RfmRecord)
  : list (string * string * cell * Z * Q * string) :=
  let grouped :=
    map (fun k =>
           let g := filter (fun r => String.eqb (r_Customer r) k) rfm in
           (k, first_or_blank (map r_Name g), min_Z (map Recency g),
            sumZ (map Frequency g), sum (map Monetary g),
            first_or_blank (map RFM_Segment g)))
        (group_keys (map r_Customer rfm)) in
  grouped ++
  [(EmptyString, EmptyString, Text EmptyString,
    sumZ (map (fun x => snd (fst (fst x))) grouped),
    sum (map (fun x => snd (fst x)) grouped), EmptyString)].

(** The RFM block of the customer panel. *)
Definition rfm_block (df_prev df_curr curr_filtered : DataFrame)
           (filters : Filters) (now : Timestamp) : list output :=
  if negb (empty (customers filters)) then
    if negb (empty curr_filtered) then
      let reference := latest_date df_prev df_curr now in
      let result := calculate_rfm curr_filtered reference in
      RfmCall curr_filtered reference :: fst result ++
      match snd result with
      | Some rfm => [RfmTable (rfm_table rfm)]
      | None => []
      end
    else []
  else [Warning select_customer_text].

(** [plot_customer_analysis] up to its chart, which is [customer_chart]. *)
Definition plot_customer_analysis (df_prev df_curr : DataFrame)
           (filters : Filters) (now : Timestamp) : list output :=
  let prev_filtered := apply_filters df_prev filters in
  let curr_filtered := apply_filters df_curr filters in
  if empty prev_filtered && empty curr_filtered then [Warning no_data_text]
  else
    run_steps customer_failure
      [st_dataframe (customer_table prev_filtered curr_filtered)
                    (SalesTable "Doanh số Khách hàng"
                                (customer_table prev_filtered curr_filtered));
       inr (rfm_block df_prev df_curr curr_filtered filters now)].

(** ** [get_summary_info] *)

(** One year's column of the summary frame, in row order. *)
Record SummaryColumn : Type := mkSummaryColumn {
  So_dong : nat;
  So_thang : nat;
  So_KH : nat;
  Tong_doanh_so : Q;
  So_san_pham : nat;
  So_TDV : nat
}.

Definition summary_column (df : DataFrame) : SummaryColumn :=
  {| So_dong := List.length df;
     So_thang :=
       List.length (nodup period_dec
                          (map (fun r => to_period_M (Billing_Date r)) df));
     So_KH := List.length (nodup string_dec (map Customer df));
     Tong_doanh_so := sum (map DS_Da_Tru_CK df);
     So_san_pham := List.length (nodup string_dec (map Material df));
     So_TDV := List.length (nodup string_dec (dropna (map Ten_TDV df))) |}.

(** The messages [get_summary_info] emits and the two columns
    (previous year, current year) it returns. *)
Definition get_summary_info (df_prev df_curr : DataFrame)
  : list output * option (SummaryColumn * SummaryColumn) :=
  if empty df_prev || empty df_curr
  then ([Log "Invalid input data for summary"], None)
  else ([], Some (summary_column df_prev, summary_column df_curr)).

(** ** The charts *)

Definition in_month (m : Z) (r : Transaction) : bool :=
  Z.eqb (dt_month (Billing_Date r)) m.

(** [df.groupby(df['Billing Date'].dt.month)[amount].sum().reset_index()]. *)
Definition trend_by_month (df : DataFrame) : list (Z * Q) :=
  if negb (empty df) then
    map (fun m => (m, sum (map DS_Da_Tru_CK (filter (in_month m) df))))
        (group_months (map (fun r => dt_month (Billing_Date r)) df))
  else [].

(** A bar trace: its legend name and its (month, amount) bars. *)
Record Trace : Type := mkTrace {
  trace_name : string;
  bars : list (Z * Q)
}.

Definition prev_year_name : string := "Năm Trước".
Definition curr_year_name : string := "Năm Nay".

(** The sales trend chart that ends [plot_overview]; [None] when the panel
    does not reach it: it returned early, or one of the two tables above
    the chart failed to render. *)
Definition overview_chart (df_prev df_curr : DataFrame) (filters : Filters)
  : option (list Trace) :=
  let prev_filtered := apply_filters df_prev filters in
  let curr_filtered := apply_filters df_curr filters in
  if empty prev_filtered && empty curr_filtered then None
  else if forallb formats (customer_table prev_filtered curr_filtered)
          && forallb formats (product_table prev_filtered curr_filtered)
  then
    let trend_prev := trend_by_month prev_filtered in
    let trend_curr := trend_by_month curr_filtered in
    Some ((if negb (empty trend_prev)
           then [mkTrace prev_year_name trend_prev] else [])
          ++ (if negb (empty trend_curr)
              then [mkTrace curr_year_name trend_curr] else []))
  else None.

(** Rows that take part in [groupby([dt.month, key])]: a row whose key is
    missing belongs to no group. *)
Definition keyed_rows (key : Transaction -> option string) (df : DataFrame)
  : list (Z * string * Transaction) :=
  flat_map (fun r => match key r with
                     | Some k => [(dt_month (Billing_Date r), k, r)]
                     | None => []
                     end) df.

(** [df.groupby([df['Billing Date'].dt.month, key])[amount].sum()
    .reset_index()]. *)
Definition trend_by_month_and (key : Transaction -> option string)
           (df : DataFrame) : list (Z * string * Q) :=
  if negb (empty df) then
    let rows := keyed_rows key df in
    map (fun k =>
           (k, sum (map DS_Da_Tru_CK
                        (map snd (filter (fun x => month_key_eqb (fst x) k)
                                         rows)))))
        (group_month_keys (map fst rows))
  else [].

(** [trend[trend[key] == k]] as the bars of a trace. *)
Definition bars_of (k : string) (trend : list (Z * string * Q))
  : list (Z * Q) :=
  map (fun x => (fst (fst x), snd x))
      (filter (fun x => String.eqb (snd (fst x)) k) trend).

Definition prev_year_suffix : string := " (Năm Trước)".
Definition curr_year_suffix : string := " (Năm Nay)".

(** The loop that adds up to two traces per selected key. *)
Definition key_traces (name_of : string -> string) (selection : list string)
           (trend_prev trend_curr : list (Z * string * Q)) : list Trace :=
  flat_map (fun k =>
              let prev_data := bars_of k trend_prev in
              let curr_data := bars_of k trend_curr in
              (if negb (empty prev_data)
               then [mkTrace (name_of k ++ prev_year_suffix) prev_data]
               else [])
              ++ (if negb (empty curr_data)
                  then [mkTrace (name_of k ++ curr_year_suffix) curr_data]
                  else []))
           selection.

(** The legend name of a key: the label of its first row in the current
    dataset, the key itself when it has no row there. A missing label is
    formatted as [nan]. *)
Definition display_name (key : Transaction -> string)
           (label : Transaction -> option string) (df_curr : DataFrame)
           (k : string) : string :=
  match filter (fun r => String.eqb (key r) k) df_curr with
  | r :: _ => match label r with
              | Some s => s
              | None => "nan"
              end
  | [] => k
  end.

(** The chart that ends [plot_customer_analysis]; [None] when none is
    drawn: the panel returned early, the customer table above it failed
    to render, no customer is selected, or no row is left. *)
Definition customer_chart (df_prev df_curr : DataFrame) (filters : Filters)
  : option (list Trace) :=
  let prev_filtered := apply_filters df_prev filters in
  let curr_filtered := apply_filters df_curr filters in
  if empty prev_filtered && empty curr_filtered then None
  else if negb (forallb formats (customer_table prev_filtered curr_filtered))
  then None
  else if negb (empty (customers filters)) then
    let prev_filtered :=
      filter (fun r => isin_str (Customer r) (customers filters))
             prev_filtered in
    let curr_filtered :=
      filter (fun r => isin_str (Customer r) (customers filters))
             curr_filtered in
    if negb (empty prev_filtered) || negb (empty curr_filtered) then
      Some (key_traces (display_name Customer Name df_curr)
                       (customers filters)
                       (trend_by_month_and (fun r => Some (Customer r))
                                           prev_filtered)
                       (trend_by_month_and (fun r => Some (Customer r))
                                           curr_filtered))
    else None
  else None.

(** The chart that ends [plot_product_analysis], likewise. *)
Definition product_chart (df_prev df_curr : DataFrame) (filters : Filters)
  : option (list Trace) :=
  let prev_filtered := apply_filters df_prev filters in
  let curr_filtered := apply_filters df_curr filters in
  if empty prev_filtered && empty curr_filtered then None
  else if negb (forallb formats (product_table prev_filtered curr_filtered))
  then None
  else if negb (empty (materials filters)) then
    let prev_filtered :=
      filter (fun r => isin_str (Material r) (materials filters))
             prev_filtered in
    let curr_filtered :=
      filter (fun r => isin_str (Material r) (materials filters))
             curr_filtered in
    if negb (empty prev_filtered) || negb (empty curr_filtered) then
      Some (key_traces (display_name Material Item_Description df_curr)
                       (materials filters)
                       (trend_by_month_and (fun r => Some (Material r))
                                           prev_filtered)
                       (trend_by_month_and (fun r => Some (Material r))
                                           curr_filtered))
    else None
  else None.

(** ** The sales rep panel: [plot_tdv_analysis] *)

(** [df['Tên TDV'] == tdv]: false on a missing rep. *)
Definition rep_is (tdv : string) (r : Transaction) : bool :=
  match Ten_TDV r with
  | Some t => String.eqb t tdv
  | None => false
  end.

(** [df.groupby('Tên TDV')[amount].sum().reset_index()], the slices of a
    pie. *)
Definition tdv_sales (df : DataFrame) : list (string * Q) :=
  if negb (empty df) then
    map (fun k => (k, sum (map DS_Da_Tru_CK (filter (rep_is k) df))))
        (group_keys (dropna (map Ten_TDV df)))
  else [].

(** The customer table of one sales rep. *)
Definition rep_customer_table (tdv : string)
           (prev_filtered curr_filtered : DataFrame) : list TableRow :=
  let customer_prev :=
    if negb (empty prev_filtered)
    then group_sales Customer Name (filter (rep_is tdv) prev_filtered)
    else [] in
  let customer_curr :=
    if negb (empty curr_filtered)
    then group_sales Customer Name (filter (rep_is tdv) curr_filtered)
    else [] in
  let merged := merge_outer customer_prev customer_curr in
  map shown_row merged ++ [total_row merged].

Inductive tdv_output : Type :=
| TdvWarning (text : string)
| TdvPies (slices_prev slices_curr : list (string * Q))
| TdvChart (traces : list Trace)
| TdvTable (tdv : string) (table : list TableRow)
| TdvLog (text : string)
| TdvError (text : string).

Definition tdv_failure (text : string) : list tdv_output :=
  [TdvLog ("Error in plot_tdv_analysis: " ++ text);
   TdvError ("Lỗi tab TDV: " ++ text)].

(** The pies and the monthly chart come first; the loop over the selected
    reps then renders one table after the other, and ends at the first one
    that fails to render. *)
Definition plot_tdv_analysis (df_prev df_curr : DataFrame) (filters : Filters)
  : list tdv_output :=
  let prev_filtered := apply_filters_tdv df_prev filters in
  let curr_filtered := apply_filters_tdv df_curr filters in
  if empty prev_filtered && empty curr_filtered then [TdvWarning no_data_text]
  else
    run_steps tdv_failure
      (inr [TdvPies (tdv_sales prev_filtered) (tdv_sales curr_filtered);
            TdvChart (key_traces (fun tdv => tdv)
                                 (if negb (empty df_curr) then tdvs filters
                                  else [])
                                 (trend_by_month_and Ten_TDV prev_filtered)
                                 (trend_by_month_and Ten_TDV curr_filtered))]
       :: (if negb (empty (tdvs filters))
           then map (fun tdv =>
                       st_dataframe
                         (rep_customer_table tdv prev_filtered curr_filtered)
                         (TdvTable tdv (rep_customer_table tdv prev_filtered
                                                           curr_filtered)))
                    (tdvs filters)
           else [])).

End Visualizations.

(* ================================================================== *)
(** * [main.py]: the filter dictionary *)
(* ================================================================== *)

Module Main.
Import Pandas DataProcessing Visualizations.

(** [list(range(1, 13))]. *)
Definition all_months : list Z := [1; 2; 3; 4; 5; 6; 7; 8; 9; 10; 11; 12]%Z.

(** The dictionary built from the four sidebar selections;
    [selected_months or months] falls back to every month. *)
Definition make_filters (selected_months : list Z)
           (selected_customers selected_materials selected_tdvs : list string)
  : Filters :=
  {| months := if negb (empty selected_months) then selected_months
               else all_months;
     customers := selected_customers;
     materials := selected_materials;
     tdvs := selected_tdvs |}.

(** ** The sidebar options *)

(** [pd.concat([...]).drop_duplicates(subset=[key])]: one row per key, the
    first one, previous year first. *)
Definition option_rows (key : Transaction -> string)
           (df_prev df_curr : DataFrame) : list Transaction :=
  drop_duplicates String.eqb key (df_prev ++ df_curr).

(** The display text of an option: key, a dash, and the label or a
    placeholder. *)
Definition option_label (key : Transaction -> string)
           (label : Transaction -> option string) (placeholder : string)
           (r : Transaction) : string :=
  (key r ++ " - " ++ match label r with
                     | Some s => s
                     | None => placeholder
                     end)%string.

Definition no_name : string := "Không có tên".
Definition no_description : string := "Không có mô tả".

Definition customer_options (df_prev df_curr : DataFrame) : list string :=
  map (option_label Customer Name no_name)
      (option_rows Customer df_prev df_curr).

(** The customer codes behind the chosen display texts. *)
Definition selected_customers (df_prev df_curr : DataFrame)
           (selected_customer_display : list string) : list string :=
  map Customer
      (filter (fun r => isin_str (option_label Customer Name no_name r)
                                 selected_customer_display)
              (option_rows Customer df_prev df_curr)).

Definition material_options (df_prev df_curr : DataFrame) : list string :=
  map (option_label Material Item_Description no_description)
      (option_rows Material df_prev df_curr).

Definition selected_materials (df_prev df_curr : DataFrame)
           (selected_material_display : list string) : list string :=
  map Material
      (filter (fun r => isin_str (option_label Material Item_Description
                                               no_description r)
                                 selected_material_display)
              (option_rows Material df_prev df_curr)).

(** [sorted(pd.concat([...]).drop_duplicates().dropna().tolist())]. *)
Definition tdv_options (df_prev df_curr : DataFrame) : list string :=
  sort_by String.leb
          (dropna (drop_duplicates opt_eqb (fun x => x)
                                   (map Ten_TDV (df_prev ++ df_curr)))).

(** The dictionary of a sidebar nobody has touched: every month, no
    customer, no product, every sales rep. *)
Definition default_filters (df_prev df_curr : DataFrame) : Filters :=
  make_filters all_months [] [] (tdv_options df_prev df_curr).

End Main.

(* ================================================================== *)
(** * Verified properties *)
(* ================================================================== *)

Import Pandas DataProcessing Visualizations Main.

(** Sample billing lines used by the concrete instances below. *)
Definition day (d : Z) : Timestamp := (d * ns_per_day)%Z.

Definition sale (d : Z) (customer name material : string) (amount : Q)
  : Transaction :=
  {| Billing_Date := day d; Customer := customer; Name := Some name;
     Material := material; Item_Description := Some "item"%string;
     So_Luong := 1; Don_Gia := amount; DS_Da_Tru_CK := amount;
     Program := None; Product_Hierarchy := None;
     Ten_TDV := Some "rep"%string |}.

(** The reference date as the specification words it: the later of the two
    datasets' maximum billing dates as soon as one dataset has a row, the
    wall clock when both are empty. *)
Definition spec_reference_date (df_prev df_curr : DataFrame) (now : Timestamp)
  : Timestamp :=
  match max_timestamp (map Billing_Date (df_curr ++ df_prev)) with
  | Some latest => latest
  | None => now
  end.

(** Number of occurrences of a character in a string, and the string of
    [k] zeros: the vocabulary of the normalization statements. *)
Fixpoint count_char (c : ascii) (s : string) : nat :=
  match s with
  | EmptyString => O
  | String d rest => (if Ascii.eqb d c then 1 else 0) + count_char c rest
  end.

Fixpoint zeros (k : nat) : string :=
  match k with
  | O => EmptyString
  | S k' => String "0" (zeros k')
  end.

(** A tail the pattern matches: a dot and one or more zeros, at the end
    of the string or before a final newline. A string has stacked tails
    when what is left after removing its tail ends in a tail again. *)
Definition line_end (e : string) : Prop :=
  e = EmptyString \/ e = String newline EmptyString.

Definition has_tail (s : string) : Prop :=
  exists p k e,
    line_end e /\ s = (p ++ String "." (zeros (S k)) ++ e)%string.

Definition stacked_tails (s : string) : Prop :=
  exists p k e,
    line_end e /\ s = (p ++ String "." (zeros (S k)) ++ e)%string
    /\ has_tail (p ++ e).


(** A displayed table is its data rows followed by the totals row. *)
Definition data_rows (table : list TableRow) : list TableRow :=
  removelast table.

Definition totals (table : list TableRow) : TableRow :=
  last table (total_row []).

(** The three metric columns the scoring loop bins, in loop order. *)
Definition metric_columns (gs : list RfmGroup) : list (list Q) :=
  [map (fun g => inject_Z (rg_Recency g)) gs;
   map (fun g => inject_Z (rg_Frequency g)) gs;
   map rg_Monetary gs].

(** The text of the exception raised when labels and bins disagree. *)
Definition labels_mismatch : string :=
  "Bin labels must be one fewer than the number of bin edges".

(** The message [calculate_rfm] logs and shows when binning raises. *)
Definition rfm_error_text : string :=
  ("Error calculating RFM: " ++ labels_mismatch)%string.

(** Four customers; the last one has two billing lines. *)
Definition tied_frequencies : DataFrame :=
  [sale 1 "A" "a" "M" 1; sale 2 "B" "b" "M" 1; sale 3 "C" "c" "M" 1;
   sale 4 "D" "d" "M" 1; sale 4 "D" "d" "M" 1].

(** Five customers with one billing line each, on five different days. *)
Definition five_customers : DataFrame :=
  [sale 1 "A" "a" "M" 1; sale 2 "B" "b" "M" 1; sale 3 "C" "c" "M" 1;
   sale 4 "D" "d" "M" 1; sale 5 "E" "e" "M" 1].

Definition five_customers_rfm : list RfmRecord :=
  match snd (calculate_rfm five_customers (day 10)) with
  | Some rfm => rfm
  | None => []
  end.

Definition no_record : RfmRecord :=
  {| r_Customer := EmptyString; r_Name := EmptyString; Recency := 0;
     Frequency := 0; Monetary := 0; Recency_Score := None;
     Frequency_Score := None; Monetary_Score := None;
     RFM_Segment := EmptyString |}.

(** The test a row passes to survive the filtering prologue, as one
    predicate. *)
Definition keeps (filters : Filters) (r : Transaction) : bool :=
  isin_Z (dt_month (Billing_Date r)) (months filters)
  && (empty (customers filters) || isin_str (Customer r) (customers filters))
  && (empty (materials filters) || isin_str (Material r) (materials filters))
  && (empty (tdvs filters) || isin_opt (Ten_TDV r) (tdvs filters)).

(** Vocabulary for the loader: the rows dropped according to the warnings,
    the per-row outcome of cleaning, and the positions of the rows that
    satisfy a test. *)
Definition dropped_count (events : list event) : nat :=
  fold_right (fun e n =>
                match e with
                | StWarning (InvalidDates _ c _)
                | StWarning (InvalidNumeric _ c _) => (c + n)%nat
                | _ => n
                end) O events.

Section LoaderVocabulary.

Variable Cell : Type.
Variable to_datetime : Cell -> option Timestamp.
Variable to_numeric : Cell -> option Q.
Variable astype_str : Cell -> string.
Variable text_of : Cell -> option string.
Variable round2 : Q -> Q.

Definition date_ok (r : string -> Cell) : bool :=
  match to_datetime (r "Billing Date"%string) with
  | Some _ => true
  | None => false
  end.

Definition cleaned (r : string -> Cell) : list Transaction :=
  match to_datetime (r "Billing Date"%string) with
  | Some d =>
      match clean_row to_numeric astype_str text_of round2 r d with
      | Some t => [t]
      | None => []
      end
  | None => []
  end.

Definition positions_where (p : (string -> Cell) -> bool)
           (rows : list (string -> Cell)) : list nat :=
  map fst (filter (fun ir => p (snd ir))
                  (combine (seq 0 (List.length rows)) rows)).

Definition date_warning (year_label : string) (positions : list nat)
  : list event :=
  if negb (empty positions) then
    [LogError (InvalidDates year_label (List.length positions) positions);
     StWarning (InvalidDates year_label (List.length positions) positions)]
  else [].

Definition numeric_warning (year_label : string) (positions : list nat)
  : list event :=
  if negb (empty positions) then
    [LogError (InvalidNumeric year_label (List.length positions) positions);
     StWarning (InvalidNumeric year_label (List.length positions) positions)]
  else [].

End LoaderVocabulary.

(** A three-row sheet with every required column: the second row has an
    unreadable date and unreadable numbers, the third a readable date and
    an unreadable amount. Cells are strings. *)
Definition sample_to_datetime (c : string) : option Timestamp :=
  if String.eqb c "n/a" then None else Some (day 19737).

Definition sample_to_numeric (c : string) : option Q :=
  if String.eqb c "n/a" then None else Some (12345 # 1000).

Definition sample_row (date amount : string) : string -> string :=
  fun col =>
    if String.eqb col "Billing Date" then date
    else if String.eqb col "DS Ðã Trừ CK" then amount
    else "7.0"%string.

Definition sample_table : RawTable string :=
  {| columns := required_columns;
     rows := [sample_row "15/01/2024" "12.345"; sample_row "n/a" "n/a";
              sample_row "15/01/2024" "n/a"] |}.

Definition sample_load : list event * option DataFrame :=
  load_and_validate_data sample_to_datetime sample_to_numeric
                         (fun c => c) (fun c => Some c) (fun q => q)
                         (inr sample_table) "Năm Nay".

(** Vocabulary for the scored frame: the score the loop assigns to one value
    of a column, the record built from a group and its three scores, and
    the three columns of the grouped frame. *)
Definition score_of (col : list Q) (labels : list Z) (x : Q) : option Z :=
  if Nat.leb (nunique col) 1 then Some 1%Z
  else cut_label (quantile_edges col) labels x.

Definition scored (g : RfmGroup) (r f m : option Z) : RfmRecord :=
  {| r_Customer := rg_Customer g;
     r_Name := rg_Name g;
     Recency := rg_Recency g;
     Frequency := rg_Frequency g;
     Monetary := rg_Monetary g;
     Recency_Score := r;
     Frequency_Score := f;
     Monetary_Score := m;
     RFM_Segment := (score_str r ++ score_str f ++ score_str m)%string |}.

Definition recency_column (gs : list RfmGroup) : list Q :=
  map (fun g => inject_Z (rg_Recency g)) gs.

Definition frequency_column (gs : list RfmGroup) : list Q :=
  map (fun g => inject_Z (rg_Frequency g)) gs.

Definition monetary_column (gs : list RfmGroup) : list Q :=
  map rg_Monetary gs.

(** Five customers with one billing line each and five different
    amounts. *)
Definition graded_customers : DataFrame :=
  [sale 1 "A" "a" "M" 10; sale 2 "B" "b" "M" 20; sale 3 "C" "c" "M" 30;
   sale 4 "D" "d" "M" 40; sale 5 "E" "e" "M" 50].

Definition graded_customers_rfm : list RfmRecord :=
  match snd (calculate_rfm graded_customers (day 10)) with
  | Some rfm => rfm
  | None => []
  end.

(** A sidebar selection of two customers, every month, and a previous
    year of one billing line. *)
Definition two_customers_selected : Filters :=
  make_filters [] ["A"%string; "B"%string] [] [].

Definition one_previous_sale : DataFrame := [sale 8 "Z" "z" "M" 1].

(** Two billing lines of one customer. *)
Definition one_customer : DataFrame :=
  [sale 1 "A" "a" "M" 10; sale 3 "A" "a" "N" 5].

(** Rows that carry a customer name. *)
Definition has_name (r : Transaction) : bool :=
  match Name r with
  | Some _ => true
  | None => false
  end.

(** Columns of a row of the displayed RFM table. *)
Definition rfm_row : Type := (string * string * cell * Z * Q * string)%type.

Definition row_customer (x : rfm_row) : string :=
  fst (fst (fst (fst (fst x)))).

Definition row_frequency (x : rfm_row) : Z := snd (fst (fst x)).

Definition row_monetary (x : rfm_row) : Q := snd (fst x).

(** The RFM table of the two selected customers. *)
Definition two_customers_table : list rfm_row :=
  match snd (calculate_rfm (apply_filters graded_customers
                                          two_customers_selected) (day 8)) with
  | Some rfm => rfm_table rfm
  | None => []
  end.

(** The overview chart of the two selected customers. *)
Definition two_customers_chart : list Trace :=
  match overview_chart one_previous_sale graded_customers
                       two_customers_selected with
  | Some traces => traces
  | None => []
  end.

(** Rows whose (possibly missing) key is [k]. *)
Definition key_is (key : Transaction -> option string) (k : string)
           (r : Transaction) : bool :=
  match key r with
  | Some t => String.eqb t k
  | None => false
  end.

(** What a trace of a per-key chart shows: under the legend [name], the
    months in which the rows of [df] that satisfy [mine] were billed, in
    ascending order, each with the grouped sum of the amounts of those
    rows billed in that month. *)
Definition trace_for (name : string) (mine : Transaction -> bool)
           (df : DataFrame) (t : Trace) : Prop :=
  trace_name t = name
  /\ bars t <> []
  /\ StronglySorted Z.lt (map fst (bars t))
  /\ (forall m, In m (map fst (bars t)) <->
                exists r, In r df /\ mine r = true
                          /\ dt_month (Billing_Date r) = m)
  /\ (forall m v, In (m, v) (bars t) ->
                  v = sum (map DS_Da_Tru_CK
                               (filter (fun r => mine r && in_month m r) df))).

(** Sample selections for the per-key charts. *)
Definition two_products_selected : Filters :=
  make_filters [] [] ["M"%string] [].

Definition two_years : DataFrame :=
  [sale 1 "A" "a" "M" 10; sale 40 "A" "a" "M" 20; sale 41 "B" "b" "N" 5].

Definition customer_chart_sample : list Trace :=
  match customer_chart one_previous_sale two_years two_customers_selected with
  | Some traces => traces
  | None => []
  end.

Definition product_chart_sample : list Trace :=
  match product_chart one_previous_sale two_years two_products_selected with
  | Some traces => traces
  | None => []
  end.

(** Rows that carry a sales rep. *)
Definition has_rep (r : Transaction) : bool :=
  match Ten_TDV r with
  | Some _ => true
  | None => false
  end.

(** The per-rep tables among the outputs of the sales rep panel. *)
Definition rep_tables (outs : list tdv_output)
  : list (string * list TableRow) :=
  flat_map (fun o => match o with
                     | TdvTable tdv table => [(tdv, table)]
                     | _ => []
                     end) outs.

(** Whether the customer table of sales rep [tdv] renders. *)
Definition rep_table_renders (df_prev df_curr : DataFrame) (filters : Filters)
           (tdv : string) : bool :=
  forallb formats (rep_customer_table tdv (apply_filters_tdv df_prev filters)
                                      (apply_filters_tdv df_curr filters)).

(** A billing line without a sales rep, and a dataset that has one. *)
Definition sale_without_rep (d : Z) (customer name material : string)
           (amount : Q) : Transaction :=
  {| Billing_Date := day d; Customer := customer; Name := Some name;
     Material := material; Item_Description := Some "item"%string;
     So_Luong := 1; Don_Gia := amount; DS_Da_Tru_CK := amount;
     Program := None; Product_Hierarchy := None; Ten_TDV := None |}.

Definition sale_by (rep : string) (d : Z) (customer name material : string)
           (amount : Q) : Transaction :=
  {| Billing_Date := day d; Customer := customer; Name := Some name;
     Material := material; Item_Description := Some "item"%string;
     So_Luong := 1; Don_Gia := amount; DS_Da_Tru_CK := amount;
     Program := None; Product_Hierarchy := None; Ten_TDV := Some rep |}.

Definition mixed_reps : DataFrame :=
  [sale_by "u" 1 "A" "a" "M" 10; sale_without_rep 2 "B" "b" "M" 7;
   sale_by "v" 40 "A" "a" "N" 20; sale_by "u" 41 "C" "c" "N" 5].

Definition two_reps_selected : Filters :=
  make_filters [] [] [] ["u"%string; "v"%string].

(** The message [get_summary_info] logs on an empty dataset, and the
    sidebar with every selection cleared. *)
Definition summary_error_text : string := "Invalid input data for summary".

Definition cleared_filters : Filters := make_filters [] [] [] [].

Definition no_trace : Trace := mkTrace EmptyString [].

(** The one-character string of a decimal digit. *)
Definition digit (z : Z) : string :=
  String (ascii_of_nat (48 + Z.to_nat z)) EmptyString.

(** ** Amounts that binary floats add without rounding *)

Definition whole (q : Q) : Prop := exists z : Z, q == inject_Z z.

(** A column of whole numbers whose absolute values add up to at most
    2^50, well inside the 53 bits of a binary float: every partial sum,
    and every quartile point between two of them, is a float. *)
Definition exactly_summable (l : list Q) : Prop :=
  (forall q, In q l -> whole q) /\ sum (map Qabs l) <= inject_Z (2 ^ 50).

Definition whole_amounts (df : DataFrame) : Prop :=
  exactly_summable (map DS_Da_Tru_CK df).

Section FloatAddition.

(** Rounding to the nearest binary float. *)
Variable rnd : Q -> Q.

(** [float_sum l v]: [v] is what adding up the floats of [l] gives in
    some order and some bracketing, every addition rounded. The pairwise
    reduction behind [Series.sum] and the running sum of a [groupby] are
    two such ways. *)
Inductive float_sum : list Q -> Q -> Prop :=
| float_sum_nil : float_sum [] 0
| float_sum_one (x : Q) : float_sum [x] x
| float_sum_add (l1 l2 : list Q) (v1 v2 : Q) :
    float_sum l1 v1 -> float_sum l2 v2 ->
    float_sum (l1 ++ l2) (rnd (v1 + v2))
| float_sum_perm (l l' : list Q) (v : Q) :
    Permutation l l' -> float_sum l v -> float_sum l' v.

End FloatAddition.

(** The longest prefix of a list whose elements pass a test. *)
Fixpoint take_while {A : Type} (p : A -> bool) (l : list A) : list A :=
  match l with
  | [] => []
  | x :: rest => if p x then x :: take_while p rest else []
  end.

(** Datasets with one sales rep each: rep [u] sold in the previous year
    only, rep [v] in the current year only. *)
Definition only_rep_u : DataFrame := [sale_by "u" 1 "A" "a" "M" 10].
Definition only_rep_v : DataFrame := [sale_by "v" 2 "B" "b" "M" 7].

(** Two reps in one year. *)
Definition reps_u_and_v : DataFrame :=
  [sale_by "u" 1 "A" "a" "M" 10; sale_by "v" 2 "B" "b" "M" 7].

(** A previous and a current year of whole amounts. *)
Definition year_before : DataFrame := [sale 100 "A" "a" "M" 100].
Definition year_after : DataFrame :=
  [sale 200 "A" "a" "M" 120; sale 200 "B" "b" "N" 7].

(** Settles [whole_amounts] of a sample by evaluation. *)
Ltac whole_amounts_by_evaluation :=
  split;
  [ let q := fresh "q" in
    let Hq := fresh "Hq" in
    intros q Hq; vm_compute in Hq;
    repeat (destruct Hq as [<-|Hq]; [eexists; reflexivity|]);
    contradiction
  | vm_compute; discriminate ].

(** ** Calendar *)

Section Calendar.
Local Open Scope Z_scope.

Lemma day_of_year_range doe :
  0 <= doe < 146097 ->
  let yoe := (doe - doe / 1460 + doe / 36524 - doe / 146096) / 365 in
  0 <= doe - (365 * yoe + yoe / 4 - yoe / 100) <= 365.
Proof.
  intros H. cbv zeta.
  set (a := doe / 1460). set (b := doe / 36524). set (c := doe / 146096).
  set (yoe := (doe - a + b - c) / 365).
  set (d := yoe / 4). set (e := yoe / 100).
  assert (Ha : 1460 * a <= doe < 1460 * a + 1460)
    by (subst a; pose proof (Z.div_mod doe 1460);
        pose proof (Z.mod_pos_bound doe 1460); lia).
  assert (Hb : 36524 * b <= doe < 36524 * b + 36524)
    by (subst b; pose proof (Z.div_mod doe 36524);
        pose proof (Z.mod_pos_bound doe 36524); lia).
  assert (Hc : 146096 * c <= doe < 146096 * c + 146096)
    by (subst c; pose proof (Z.div_mod doe 146096);
        pose proof (Z.mod_pos_bound doe 146096); lia).
  assert (Hy : 365 * yoe <= doe - a + b - c < 365 * yoe + 365)
    by (subst yoe; pose proof (Z.div_mod (doe - a + b - c) 365);
        pose proof (Z.mod_pos_bound (doe - a + b - c) 365); lia).
  assert (Hd : 4 * d <= yoe < 4 * d + 4)
    by (subst d; pose proof (Z.div_mod yoe 4);
        pose proof (Z.mod_pos_bound yoe 4); lia).
  assert (He : 100 * e <= yoe < 100 * e + 100)
    by (subst e; pose proof (Z.div_mod yoe 100);
        pose proof (Z.mod_pos_bound yoe 100); lia).
  clearbody a b c yoe d e.
  assert (Cb : b = 0 \/ b = 1 \/ b = 2 \/ b = 3 \/ b = 4) by lia.
  assert (Cc : c = 0 \/ c = 1) by lia.
  assert (Ce : e = 0 \/ e = 1 \/ e = 2 \/ e = 3) by lia.
  destruct Cb as [->|[-> | [-> | [-> | ->] ] ]]; destruct Cc as [->| ->];
    destruct Ce as [-> | [-> | [-> | ->] ] ]; lia.
Qed.

Lemma month_of_doe_range doe :
  0 <= doe < 146097 -> 1 <= month_of_doe doe <= 12.
Proof.
  intros H. pose proof (day_of_year_range H) as R. cbv zeta in R.
  unfold month_of_doe. cbv zeta.
  set (doy := doe - _) in *. clearbody doy.
  assert (M : 0 <= (5 * doy + 2) / 153 < 12).
  { split; [apply Z.div_pos; lia|].
    apply Z.div_lt_upper_bound; lia. }
  destruct (Z.ltb_spec ((5 * doy + 2) / 153) 10); lia.
Qed.

Lemma dt_month_range (t : Timestamp) : 1 <= dt_month t <= 12.
Proof. apply month_of_doe_range, Z.mod_pos_bound. lia. Qed.

Lemma dt_month_in_all_months (t : Timestamp) :
  isin_Z (dt_month t) all_months = true.
Proof.
  pose proof (dt_month_range t) as R.
  assert (C : dt_month t = 1 \/ dt_month t = 2 \/ dt_month t = 3
              \/ dt_month t = 4 \/ dt_month t = 5 \/ dt_month t = 6
              \/ dt_month t = 7 \/ dt_month t = 8 \/ dt_month t = 9
              \/ dt_month t = 10 \/ dt_month t = 11 \/ dt_month t = 12) by lia.
  repeat (destruct C as [C|C]; [rewrite C; reflexivity|]).
  rewrite C. reflexivity.
Qed.

End Calendar.

(** ** Filters *)

Section FilterProperties.

Lemma filter_all {A : Type} (p : A -> bool) (l : list A) :
  (forall x, p x = true) -> filter p l = l.
Proof.
  intros H. induction l as [|x l IH]; cbn; [reflexivity|].
  rewrite H, IH. reflexivity.
Qed.

(** The month test alone keeps nothing when the month list is empty: the
    fallback to every month is the one in [make_filters]. *)
Remark apply_filters_without_months (df : DataFrame) :
  apply_filters df (mkFilters [] [] [] []) = [].
Proof.
  unfold apply_filters. cbn.
  induction df as [|r df IH]; cbn; [reflexivity | exact IH].
Qed.

(** C2. A filter specification with every selection empty, applied the
    way the application applies it (the dictionary of [main.py] handed to
    the filtering prologue of a panel), returns the dataset unchanged, in
    the same order: the empty month selection stands for all twelve
    months. This holds for both orders in which the panels run the
    tests. *)
Theorem filter_default_keeps_dataset (df : DataFrame) :
  months (make_filters [] [] [] []) = all_months
  /\ apply_filters df (make_filters [] [] [] []) = df
  /\ apply_filters_tdv df (make_filters [] [] [] []) = df.
Proof.
  split; [reflexivity|].
  unfold apply_filters, apply_filters_tdv, make_filters. cbn.
  split; apply filter_all; intros r; apply dt_month_in_all_months.
Qed.

End FilterProperties.

(** ** The customer panel: reference date and RFM gate *)

Section CustomerPanel.
Local Open Scope Z_scope.

Lemma fold_left_max_lower (l : list Z) (t : Z) : t <= fold_left Z.max l t.
Proof.
  revert t. induction l as [|x l IH]; intros t; cbn; [lia|].
  specialize (IH (Z.max t x)). lia.
Qed.

Lemma fold_left_max_upper (l : list Z) (t x : Z) :
  In x l -> x <= fold_left Z.max l t.
Proof.
  revert t. induction l as [|y l IH]; intros t H; cbn; [contradiction|].
  destruct H as [->|H]; [|apply IH, H].
  pose proof (fold_left_max_lower l (Z.max t x)). lia.
Qed.

Lemma fold_left_max_in (l : list Z) (t : Z) : In (fold_left Z.max l t) (t :: l).
Proof.
  revert t. induction l as [|y l IH]; intros t; cbn; [left; reflexivity|].
  destruct (IH (Z.max t y)) as [H|H]; [|right; right; exact H].
  rewrite <- H. destruct (Z.max_spec t y) as [[_ E]|[_ E]]; rewrite E; auto.
Qed.

Lemma max_timestamp_spec (l : list Timestamp) (m : Timestamp) :
  max_timestamp l = Some m -> In m l /\ forall x, In x l -> x <= m.
Proof.
  destruct l as [|t l]; cbn; [discriminate|].
  intros E. injection E as <-. split; [apply fold_left_max_in|].
  intros x [<-|H]; [apply fold_left_max_lower | apply fold_left_max_upper, H].
Qed.

Lemma max_timestamp_some (l : list Timestamp) :
  l <> [] -> exists m, max_timestamp l = Some m.
Proof. destruct l; [congruence | cbn; eauto]. Qed.

(** C4, the claim as stated fails: with an empty previous dataset and one
    current billing line dated day 100, the reference date is the wall
    clock (here day 999), not that line's date. *)
Lemma reference_date_with_one_empty_dataset :
  [sale 100 "A" "a" "M" 5] <> []
  /\ spec_reference_date [] [sale 100 "A" "a" "M" 5] (day 999) = day 100
  /\ latest_date [] [sale 100 "A" "a" "M" 5] (day 999) = day 999
  /\ day 999 <> day 100.
Proof. repeat split; discriminate. Qed.

(** C4, as the code has it: the reference date is the later of the two
    datasets' maximum billing dates when both datasets have rows (it is
    one of their billing dates and no billing date is later); as soon as
    one of the two datasets is empty it is the wall clock. *)
Theorem reference_date_guard (df_prev df_curr : DataFrame) (now : Timestamp) :
  (df_prev <> [] -> df_curr <> [] ->
   latest_date df_prev df_curr now = spec_reference_date df_prev df_curr now
   /\ In (latest_date df_prev df_curr now)
         (map Billing_Date (df_curr ++ df_prev))
   /\ forall r, In r (df_curr ++ df_prev) ->
                Billing_Date r <= latest_date df_prev df_curr now)
  /\ (df_prev = [] \/ df_curr = [] -> latest_date df_prev df_curr now = now).
Proof.
  split.
  - intros Hp Hc.
    assert (B : In (latest_date df_prev df_curr now)
                   (map Billing_Date (df_curr ++ df_prev))
                /\ forall r, In r (df_curr ++ df_prev) ->
                             Billing_Date r <= latest_date df_prev df_curr now).
    { unfold latest_date.
      destruct df_prev as [|p0 ps]; [congruence|].
      destruct df_curr as [|c0 cs]; [congruence|].
      cbn [empty negb andb].
      destruct (max_timestamp (map Billing_Date (c0 :: cs))) as [c|] eqn:Ec;
        [|cbn in Ec; discriminate].
      destruct (max_timestamp (map Billing_Date (p0 :: ps))) as [p|] eqn:Ep;
        [|cbn in Ep; discriminate].
      apply max_timestamp_spec in Ec as [Ic Uc], Ep as [Ip Up].
      rewrite map_app. split.
      + apply in_or_app. destruct (Z.ltb_spec c p); auto.
      + intros r Hr. apply in_app_or in Hr.
        destruct Hr as [Hr|Hr]; apply (in_map Billing_Date) in Hr.
        * specialize (Uc _ Hr). destruct (Z.ltb_spec c p); lia.
        * specialize (Up _ Hr). destruct (Z.ltb_spec c p); lia. }
    split; [|exact B]. destruct B as [Bi Bu].
    unfold spec_reference_date.
    destruct (max_timestamp (map Billing_Date (df_curr ++ df_prev)))
      as [m|] eqn:Em.
    + apply max_timestamp_spec in Em as [Im Um].
      apply in_map_iff in Im as [r [Er Ir]]. specialize (Bu r Ir).
      specialize (Um _ Bi). lia.
    + destruct df_curr; [congruence | cbn in Em; discriminate].
  - intros [-> | ->]; unfold latest_date; cbn.
    + rewrite andb_false_r. reflexivity.
    + reflexivity.
Qed.

(** The guard at work on two one-line datasets. *)
Lemma reference_date_guard_witness :
  latest_date [sale 100 "A" "a" "M" 5] [sale 200 "B" "b" "M" 7] (day 999)
  = spec_reference_date [sale 100 "A" "a" "M" 5] [sale 200 "B" "b" "M" 7]
                        (day 999).
Proof.
  apply (proj1 (reference_date_guard [sale 100 "A" "a" "M" 5]
                                     [sale 200 "B" "b" "M" 7] (day 999)));
    discriminate.
Defined.

(** The customer panel by cases: the early return, the customer table and
    the RFM block after it, or the failure to render the table. *)
Lemma plot_customer_analysis_cases
      (df_prev df_curr : DataFrame) (filters : Filters) (now : Timestamp) :
  plot_customer_analysis df_prev df_curr filters now
  = if empty (apply_filters df_prev filters)
       && empty (apply_filters df_curr filters)
    then [Warning no_data_text]
    else if forallb formats (customer_table (apply_filters df_prev filters)
                                            (apply_filters df_curr filters))
         then SalesTable "Doanh số Khách hàng"
                         (customer_table (apply_filters df_prev filters)
                                         (apply_filters df_curr filters))
              :: rfm_block df_prev df_curr (apply_filters df_curr filters)
                           filters now
         else customer_failure format_error_text.
Proof.
  unfold plot_customer_analysis, st_dataframe.
  destruct (empty (apply_filters df_prev filters)
            && empty (apply_filters df_curr filters)); [reflexivity|].
  destruct (forallb formats _); cbn [run_steps exn_message app];
    [rewrite app_nil_r|]; reflexivity.
Qed.


(** The parenthesis fails a second way: with no previous line and one
    current line of amount 0, the only row of the customer table has a
    blank growth cell, rendering the table raises, and the panel ends in
    its handler before it reaches the prompt. *)
Lemma customer_panel_render_failure_shows_no_prompt :
  plot_customer_analysis [] [sale 100 "A" "a" "M" 0]
                         (make_filters [] [] [] []) (day 999)
  = customer_failure format_error_text
  /\ ~ In (Warning select_customer_text)
          (plot_customer_analysis [] [sale 100 "A" "a" "M" 0]
                                  (make_filters [] [] [] []) (day 999)).
Proof.
  assert (E : plot_customer_analysis [] [sale 100 "A" "a" "M" 0]
                                     (make_filters [] [] [] []) (day 999)
              = customer_failure format_error_text)
    by (vm_compute; reflexivity).
  split; [exact E|]. rewrite E. intros [H|[H|[]]]; discriminate H.
Qed.



(** Conversely, a non-empty selection with a surviving current row does
    reach [calculate_rfm] once the customer table has rendered. *)
Lemma rfm_called_with_selection
      (df_prev df_curr : DataFrame) (filters : Filters) (now : Timestamp) :
  customers filters <> [] ->
  apply_filters df_curr filters <> [] ->
  forallb formats (customer_table (apply_filters df_prev filters)
                                  (apply_filters df_curr filters)) = true ->
  In (RfmCall (apply_filters df_curr filters) (latest_date df_prev df_curr now))
     (plot_customer_analysis df_prev df_curr filters now).
Proof.
  intros Hc Hf Hr. rewrite plot_customer_analysis_cases, Hr. unfold rfm_block.
  destruct (customers filters); [congruence|].
  destruct (apply_filters df_curr filters) as [|c cs]; [congruence|].
  rewrite andb_false_r. cbn. right. left. reflexivity.
Qed.

End CustomerPanel.

(** ** Identifier normalization *)

Section Normalization.
Local Open Scope string_scope.

Lemma zeros_to_end_leaves_no_dot (s r : string) :
  zeros_to_end s = Some r -> count_char "." r = O.
Proof.
  induction s as [|c rest IH]; cbn; intros H.
  - injection H as <-. reflexivity.
  - unfold is_char in H. destruct (Ascii.eqb c "0"); [apply IH, H|].
    destruct (Ascii.eqb_spec c newline) as [->|]; cbn in H; [|discriminate].
    destruct (String.eqb_spec rest EmptyString) as [->|]; [|discriminate].
    injection H as <-. reflexivity.
Qed.

Lemma match_here_leaves_no_dot (s r : string) :
  match_here s = Some r -> count_char "." r = O.
Proof.
  destruct s as [|c [|d rest]]; cbn; try discriminate.
  destruct (is_char c "." && is_char d "0"); [|discriminate].
  apply zeros_to_end_leaves_no_dot.
Qed.

Lemma match_here_starts_with_dot (c : ascii) (rest r : string) :
  match_here (String c rest) = Some r -> c = "."%char.
Proof.
  destruct rest as [|d rest]; cbn; [discriminate|].
  unfold is_char. destruct (Ascii.eqb_spec c "."); [auto | discriminate].
Qed.

Lemma match_here_other_char (c : ascii) (rest : string) :
  c <> "."%char -> match_here (String c rest) = None.
Proof.
  intros N. destruct (match_here (String c rest)) eqn:M; [|reflexivity].
  apply match_here_starts_with_dot in M. contradiction.
Qed.

Lemma normalize_id_without_dot (s : string) :
  count_char "." s = O -> normalize_id s = s.
Proof.
  induction s as [|c rest IH]; [reflexivity|].
  cbn [count_char]. destruct (Ascii.eqb_spec c ".") as [->|N]; [discriminate|].
  cbn [Nat.add]. intros H. cbn [normalize_id].
  rewrite (match_here_other_char rest N), (IH H). reflexivity.
Qed.

Lemma normalize_id_idempotent_one_dot (s : string) :
  (count_char "." s <= 1)%nat ->
  normalize_id (normalize_id s) = normalize_id s.
Proof.
  induction s as [|c rest IH]; [reflexivity|].
  cbn [count_char]. intros H. cbn [normalize_id].
  destruct (match_here (String c rest)) as [r|] eqn:M.
  - apply normalize_id_without_dot, (match_here_leaves_no_dot _ M).
  - destruct (Ascii.eqb_spec c ".") as [->|N].
    + rewrite (normalize_id_without_dot rest) by (cbn in H; lia).
      cbn [normalize_id]. rewrite M.
      rewrite (normalize_id_without_dot rest) by (cbn in H; lia).
      reflexivity.
    + cbn [normalize_id]. rewrite (match_here_other_char _ N).
      rewrite IH by (cbn in H; lia). reflexivity.
Qed.

Lemma zeros_to_end_zeros (k : nat) : zeros_to_end (zeros k) = Some EmptyString.
Proof. induction k as [|k IH]; [reflexivity | exact IH]. Qed.

Lemma zeros_to_end_before_dot (a b : string) :
  zeros_to_end (a ++ String "." b) = None.
Proof.
  induction a as [|c a IH]; [reflexivity|].
  cbn. unfold is_char. destruct (Ascii.eqb c "0"); [exact IH|].
  destruct a; cbn; rewrite andb_false_r; reflexivity.
Qed.

Lemma normalize_id_strips_tail (p : string) (k : nat) :
  normalize_id (p ++ String "." (zeros (S k))) = p.
Proof.
  induction p as [|c p IH].
  - cbn [String.append normalize_id zeros match_here is_char Ascii.eqb
             Bool.eqb andb].
    rewrite zeros_to_end_zeros. reflexivity.
  - change (String c p ++ String "." (zeros (S k)))
      with (String c (p ++ String "." (zeros (S k)))).
    cbn [normalize_id].
    assert (M : match_here (String c (p ++ String "." (zeros (S k)))) = None).
    { destruct p as [|d p]; cbn.
      - unfold is_char. rewrite andb_false_r. reflexivity.
      - destruct (is_char c "." && is_char d "0"); [|reflexivity].
        apply zeros_to_end_before_dot. }
    rewrite M, IH. reflexivity.
Qed.

Lemma zeros_to_end_shape (s r : string) :
  zeros_to_end s = Some r ->
  (exists k, s = zeros k /\ r = EmptyString)
  \/ (exists k, s = zeros k ++ String newline EmptyString
                /\ r = String newline EmptyString).
Proof.
  induction s as [|c rest IH]; cbn [zeros_to_end]; intros H.
  - injection H as <-. left. exists O. auto.
  - unfold is_char in H. destruct (Ascii.eqb_spec c "0") as [->|_].
    + destruct (IH H) as [(k & -> & ->)|(k & -> & ->)];
        [left | right]; exists (S k); auto.
    + destruct (Ascii.eqb_spec c newline) as [->|_]; [|discriminate H].
      destruct (String.eqb_spec rest EmptyString) as [->|_]; [|discriminate H].
      injection H as <-. right. exists O. auto.
Qed.

Lemma match_here_shape (s r : string) :
  match_here s = Some r ->
  (exists k, s = String "." (zeros (S k)) /\ r = EmptyString)
  \/ (exists k, s = String "." (zeros (S k)) ++ String newline EmptyString
                /\ r = String newline EmptyString).
Proof.
  destruct s as [|c [|d rest]]; cbn [match_here]; try discriminate.
  unfold is_char. destruct (Ascii.eqb_spec c ".") as [->|_]; [|discriminate].
  destruct (Ascii.eqb_spec d "0") as [->|_]; [|discriminate].
  cbn [andb]. intros H.
  destruct (zeros_to_end_shape _ H) as [(k & -> & ->)|(k & -> & ->)];
    [left | right]; exists k; auto.
Qed.

Lemma zeros_to_end_zeros_newline (k : nat) :
  zeros_to_end (zeros k ++ String newline EmptyString)
  = Some (String newline EmptyString).
Proof. induction k as [|k IH]; [reflexivity | exact IH]. Qed.

Lemma zeros_to_end_tail (k : nat) (e : string) :
  line_end e -> zeros_to_end (zeros k ++ e) = Some e.
Proof.
  intros [->| ->]; [|apply zeros_to_end_zeros_newline].
  induction k as [|k IH]; [reflexivity | exact IH].
Qed.

(** One pass removes the tail, whatever stands before it. *)
Lemma normalize_id_removes_tail (p : string) (k : nat) (e : string) :
  line_end e ->
  normalize_id (p ++ String "." (zeros (S k)) ++ e) = p ++ e.
Proof.
  intros He. induction p as [|c p IH].
  - cbn [String.append normalize_id zeros match_here is_char Ascii.eqb
             Bool.eqb andb].
    rewrite (zeros_to_end_tail k He). reflexivity.
  - change (String c p ++ String "." (zeros (S k)) ++ e)
      with (String c (p ++ String "." (zeros (S k) ++ e))).
    cbn [normalize_id].
    assert (M : match_here (String c (p ++ String "." (zeros (S k) ++ e)))
                = None).
    { destruct p as [|d p]; cbn.
      - unfold is_char. rewrite andb_false_r. reflexivity.
      - destruct (is_char c "." && is_char d "0"); [|reflexivity].
        apply zeros_to_end_before_dot. }
    rewrite M. change (String "." (zeros (S k) ++ e))
      with (String "." (zeros (S k)) ++ e). rewrite IH. reflexivity.
Qed.

(** A pass changes nothing or removes a tail. *)
Lemma normalize_id_shape (s : string) :
  normalize_id s = s
  \/ exists p k e,
       line_end e /\ s = p ++ String "." (zeros (S k)) ++ e
       /\ normalize_id s = p ++ e.
Proof.
  induction s as [|c rest IH]; [left; reflexivity|].
  cbn [normalize_id].
  destruct (match_here (String c rest)) as [r|] eqn:M.
  - right. exists EmptyString.
    destruct (match_here_shape _ M) as [(k & E & ->)|(k & E & ->)];
      rewrite E; exists k;
      [exists EmptyString | exists (String newline EmptyString)];
      unfold line_end; repeat split; auto.
    cbn [String.append]. clear. f_equal.
    induction (zeros (S k)) as [|a z IHz]; [reflexivity|].
    cbn. rewrite <- IHz. reflexivity.
  - destruct IH as [E|(p & k & e & He & E & N)].
    + left. rewrite E. reflexivity.
    + right. exists (String c p), k, e. rewrite N, E at 1. auto.
Qed.

Lemma length_append (a b : string) :
  String.length (a ++ b) = (String.length a + String.length b)%nat.
Proof. induction a as [|c a IH]; cbn; [reflexivity | rewrite IH; reflexivity]. Qed.

Lemma has_tail_changes (s : string) : has_tail s -> normalize_id s <> s.
Proof.
  intros (p & k & e & He & ->) E.
  rewrite (normalize_id_removes_tail p k He) in E.
  apply (f_equal String.length) in E.
  rewrite !length_append in E. cbn [String.length zeros] in E. lia.
Qed.

Lemma no_tail_unchanged (s : string) : ~ has_tail s -> normalize_id s = s.
Proof.
  intros N. destruct (normalize_id_shape s) as [E|(p & k & e & He & E & _)];
    [exact E|].
  elim N. exists p, k, e. auto.
Qed.

Lemma count_char_append (c : ascii) (a b : string) :
  count_char c (a ++ b) = (count_char c a + count_char c b)%nat.
Proof.
  induction a as [|d a IH]; cbn; [reflexivity | rewrite IH; lia].
Qed.

Lemma line_end_no_dot (e : string) : line_end e -> count_char "." e = O.
Proof. intros [->| ->]; reflexivity. Qed.

Lemma has_tail_has_dot (s : string) :
  has_tail s -> (1 <= count_char "." s)%nat.
Proof.
  intros (p & k & e & _ & ->). rewrite count_char_append. cbn. lia.
Qed.

Lemma stacked_tails_two_dots (s : string) :
  stacked_tails s -> (2 <= count_char "." s)%nat.
Proof.
  intros (p & k & e & He & -> & T). apply has_tail_has_dot in T.
  rewrite count_char_append in T. rewrite (line_end_no_dot He) in T.
  rewrite count_char_append. cbn. lia.
Qed.

(** C5, the claim as stated fails: normalization is not idempotent on
    every identifier string. One pass over ["1.0.0"] strips one tail and
    leaves ["1.0"], which a second pass shortens to ["1"]. *)
Lemma normalize_id_not_idempotent :
  normalize_id "1.0.0" = "1.0"
  /\ normalize_id (normalize_id "1.0.0") = "1"
  /\ normalize_id (normalize_id "1.0.0") <> normalize_id "1.0.0".
Proof. repeat split. discriminate. Qed.

(** C5, as the code has it: normalization strips one trailing all-zero
    decimal tail of any length; ["123.0"] and ["123"] both normalize to
    ["123"]. Normalizing twice is the same as normalizing once exactly on
    the strings without stacked tails; these include every string with at
    most one dot, which covers every integer and float rendering, and
    strings such as ["A.B.0"] and ["1.2.30"]. *)
Theorem normalize_id_properties :
  (forall s, ~ stacked_tails s ->
             normalize_id (normalize_id s) = normalize_id s)
  /\ (forall s, stacked_tails s ->
                normalize_id (normalize_id s) <> normalize_id s)
  /\ (forall s, (count_char "." s <= 1)%nat -> ~ stacked_tails s)
  /\ normalize_id (normalize_id "A.B.0") = normalize_id "A.B.0"
  /\ normalize_id (normalize_id "1.2.30") = normalize_id "1.2.30"
  /\ normalize_id "123.0" = "123"
  /\ normalize_id "123" = "123"
  /\ (forall p k, normalize_id (p ++ String "." (zeros (S k))) = p).
Proof.
  split; [|split; [|split]].
  - intros s N.
    destruct (normalize_id_shape s) as [E|(p & k & e & He & E & R)].
    + rewrite E. exact E.
    + rewrite R. apply no_tail_unchanged. intros T. apply N.
      exists p, k, e. auto.
  - intros s (p & k & e & He & -> & T).
    rewrite (normalize_id_removes_tail p k He). apply has_tail_changes, T.
  - intros s H T. apply stacked_tails_two_dots in T. lia.
  - repeat split; try reflexivity. exact normalize_id_strips_tail.
Qed.

(** Idempotence on an identifier with two dots and one tail: it has no
    stacked tails, since a second pass changes nothing. *)
Lemma normalize_id_properties_witness :
  normalize_id (normalize_id "1.2.0") = normalize_id "1.2.0".
Proof.
  apply (proj1 normalize_id_properties "1.2.0").
  intros T. apply (proj1 (proj2 normalize_id_properties) "1.2.0" T).
  reflexivity.
Defined.

End Normalization.

(** ** Required columns *)

Section Schema.

Variable Cell : Type.
Variable to_datetime : Cell -> option Timestamp.
Variable to_numeric : Cell -> option Q.
Variable astype_str : Cell -> string.
Variable text_of : Cell -> option string.
Variable round2 : Q -> Q.

Abbreviation load :=
  (load_and_validate_data to_datetime to_numeric astype_str text_of round2).

Lemma isin_str_In (x : string) (l : list string) :
  isin_str x l = true <-> In x l.
Proof.
  unfold isin_str. rewrite existsb_exists. split.
  - intros [y [Hy E]]. apply String.eqb_eq in E. subst y. exact Hy.
  - intros H. exists x. split; [exact H | apply String.eqb_refl].
Qed.

Lemma missing_columns_spec (raw : RawTable Cell) (c : string) :
  In c (missing_columns raw)
  <-> In c required_columns /\ ~ In c (columns raw).
Proof.
  unfold missing_columns. rewrite filter_In, negb_true_iff.
  pose proof (isin_str_In c (columns raw)) as I.
  destruct (isin_str c (columns raw)).
  - split; [intros [_ H]; discriminate H|].
    intros [_ H]. elim H. apply I. reflexivity.
  - split; intros [H _]; (split; [exact H|]); [|reflexivity].
    intros Hin. apply I in Hin. discriminate Hin.
Qed.


End Schema.


(** ** Group keys *)

Section GroupKeys.

Variable A : Type.
Variable leb : A -> A -> bool.

Lemma insert_sorted_perm (x : A) (l : list A) :
  Permutation (insert_sorted leb x l) (x :: l).
Proof.
  induction l as [|y l IH]; cbn; [reflexivity|].
  destruct (leb x y); [reflexivity|].
  rewrite IH. apply perm_swap.
Qed.

Lemma sort_by_perm (l : list A) : Permutation (sort_by leb l) l.
Proof.
  induction l as [|x l IH]; cbn; [reflexivity|].
  rewrite insert_sorted_perm. apply perm_skip, IH.
Qed.

End GroupKeys.

Lemma group_keys_NoDup (l : list string) : NoDup (group_keys l).
Proof.
  unfold group_keys.
  apply (Permutation_NoDup (Permutation_sym (sort_by_perm String.leb _))).
  apply NoDup_nodup.
Qed.

Lemma group_keys_In (l : list string) (k : string) :
  In k (group_keys l) <-> In k l.
Proof.
  unfold group_keys. rewrite <- (nodup_In string_dec l k). split.
  - apply Permutation_in, sort_by_perm.
  - apply Permutation_in, Permutation_sym, sort_by_perm.
Qed.

(** ** Growth tables *)

Section GrowthTables.

Variable key : Transaction -> string.
Variable label : Transaction -> option string.

Lemma group_sales_keys (df : DataFrame) :
  map g_key (group_sales key label df) = group_keys (map key df).
Proof.
  unfold group_sales. destruct df as [|r df]; [reflexivity|].
  cbn [empty negb]. rewrite map_map. cbn [g_key]. apply map_id.
Qed.

Lemma merge_outer_keys (prev curr : list Grouped) :
  map m_key (merge_outer prev curr)
  = group_keys (map g_key prev ++ map g_key curr).
Proof. unfold merge_outer. rewrite map_map. cbn [m_key]. apply map_id. Qed.

Lemma sales_table_split (prev_filtered curr_filtered : DataFrame) :
  data_rows (sales_table key label prev_filtered curr_filtered)
  = map shown_row (merge_outer (group_sales key label prev_filtered)
                               (group_sales key label curr_filtered))
  /\ totals (sales_table key label prev_filtered curr_filtered)
     = total_row (merge_outer (group_sales key label prev_filtered)
                              (group_sales key label curr_filtered)).
Proof.
  unfold data_rows, totals, sales_table. split.
  - apply removelast_last.
  - apply last_last.
Qed.

Lemma data_rows_entities (prev_filtered curr_filtered : DataFrame) :
  map entity (data_rows (sales_table key label prev_filtered curr_filtered))
  = group_keys (group_keys (map key prev_filtered)
                ++ group_keys (map key curr_filtered)).
Proof.
  rewrite (proj1 (sales_table_split _ _)), map_map. cbn [shown_row entity].
  rewrite merge_outer_keys, !group_sales_keys. reflexivity.
Qed.

Lemma lookup_absent (k : string) (side : list Grouped) :
  ~ In k (map g_key side) -> lookup k side = None.
Proof.
  intros N. unfold lookup. destruct (find _ side) as [g|] eqn:F; [|reflexivity].
  apply find_some in F as [Hin E]. apply String.eqb_eq in E.
  elim N. rewrite <- E. apply in_map, Hin.
Qed.

(** C7, as the code has it: in the table built from two filtered datasets
    for a text-valued grouping key (the customer table and the product
    table are its two instances), every entity that has a row in either
    dataset appears exactly once among the data rows (the totals row left
    aside), the data rows hold no other entity, and an entity without a
    row in one dataset has amount 0 on that side. *)
Theorem outer_join_completeness (prev_filtered curr_filtered : DataFrame) :
  (forall k, In k (map key prev_filtered) \/ In k (map key curr_filtered) ->
             count_occ string_dec
               (map entity (data_rows (sales_table key label prev_filtered
                                                   curr_filtered))) k = 1%nat)
  /\ (forall row,
        In row (data_rows (sales_table key label prev_filtered curr_filtered)) ->
        (In (entity row) (map key prev_filtered)
         \/ In (entity row) (map key curr_filtered))
        /\ (~ In (entity row) (map key prev_filtered) -> amount_prev row = 0)
        /\ (~ In (entity row) (map key curr_filtered) -> amount_curr row = 0)).
Proof.
  split.
  - intros k Hk. rewrite data_rows_entities.
    apply NoDup_count_occ'; [apply group_keys_NoDup|].
    apply group_keys_In, in_or_app.
    destruct Hk as [Hk|Hk]; [left|right]; apply group_keys_In, Hk.
  - intros row Hrow. split.
    + apply (in_map entity) in Hrow. rewrite data_rows_entities in Hrow.
      apply group_keys_In, in_app_or in Hrow.
      destruct Hrow as [H|H]; [left|right]; apply group_keys_In, H.
    + rewrite (proj1 (sales_table_split _ _)) in Hrow.
      apply in_map_iff in Hrow as [m [<- Hm]].
      unfold merge_outer in Hm. apply in_map_iff in Hm as [k [<- _]].
      cbn [shown_row entity amount_prev amount_curr m_key m_prev m_curr].
      split; intros N; rewrite lookup_absent; try reflexivity;
        rewrite group_sales_keys, group_keys_In; exact N.
Qed.

End GrowthTables.

(** C7, the claim as stated fails for the sales rep key: the code joins no
    table keyed by sales rep. The sales rep panel groups each year on its
    own into a pie, and with no rep selected it shows no table: rep [v],
    who sold in the current year only, has a slice in the current pie and
    nothing, not a slice of amount 0, in the previous one. *)
Lemma sales_rep_absent_from_a_year_gets_no_row :
  plot_tdv_analysis only_rep_u only_rep_v cleared_filters
  = [TdvPies (tdv_sales only_rep_u) (tdv_sales only_rep_v); TdvChart []]
  /\ In "v"%string (map fst (tdv_sales only_rep_v))
  /\ ~ In "v"%string (map fst (tdv_sales only_rep_u))
  /\ List.length (tdv_sales only_rep_u) = 1%nat.
Proof.
  split; [vm_compute; reflexivity|].
  split; [vm_compute; auto|].
  split; [|reflexivity].
  vm_compute. intros [H|[]]. discriminate H.
Qed.

(** Customer ["B"] bought in the current period only. *)
Lemma outer_join_completeness_witness :
  count_occ string_dec
    (map entity (data_rows (customer_table [sale 100 "A" "a" "M" 5]
                                           [sale 200 "B" "b" "M" 7])))
    "B"%string = 1%nat.
Proof.
  apply (proj1 (outer_join_completeness Customer Name
                  [sale 100 "A" "a" "M" 5] [sale 200 "B" "b" "M" 7])).
  right. left. reflexivity.
Defined.

(** ** Growth and totals *)

Section Growth.

Lemma truthy_zero (p : Q) : p == 0 -> truthy p = false.
Proof. intros H. unfold truthy. rewrite (Qeq_eq_bool _ _ H). reflexivity. Qed.

Lemma truthy_nonzero (p : Q) : ~ p == 0 -> truthy p = true.
Proof.
  intros H. unfold truthy. destruct (Qeq_bool p 0) eqn:E; [|reflexivity].
  elim H. apply Qeq_bool_eq, E.
Qed.

Lemma guarded_growth_zero (prev curr : Q) :
  prev == 0 -> guarded_growth prev curr = 0.
Proof. intros H. unfold guarded_growth. rewrite (truthy_zero H). reflexivity. Qed.

Lemma guarded_growth_nonzero (prev curr : Q) :
  ~ prev == 0 -> guarded_growth prev curr = (curr - prev) / prev * 100.
Proof.
  intros H. unfold guarded_growth. rewrite (truthy_nonzero H). reflexivity.
Qed.

(** The column expression at a zero previous amount: the infinities are
    replaced by 0, not-a-number is left in place. *)
Lemma column_growth_zero_prev (prev curr : Q) :
  prev == 0 ->
  column_growth prev curr = if Qeq_bool curr 0 then NaN else Fin 0.
Proof.
  intros H. unfold column_growth, fdiv. rewrite (Qeq_eq_bool _ _ H).
  assert (E : Qeq_bool (curr - prev) 0 = Qeq_bool curr 0).
  { apply Qeqb_comp; [|reflexivity]. rewrite H. ring. }
  rewrite E. destruct (Qeq_bool curr 0); [reflexivity|].
  destruct (Qlt_bool 0 (curr - prev)); reflexivity.
Qed.

Lemma column_growth_nonzero_prev (prev curr : Q) :
  ~ prev == 0 -> column_growth prev curr = Fin ((curr - prev) / prev * 100).
Proof.
  intros H. unfold column_growth, fdiv.
  destruct (Qeq_bool prev 0) eqn:E; [|reflexivity].
  elim H. apply Qeq_bool_eq, E.
Qed.

Lemma headline_growth_zero (prev_filtered curr_filtered : DataFrame) :
  total_amount prev_filtered == 0 ->
  headline_growth prev_filtered curr_filtered = 0.
Proof. apply guarded_growth_zero. Qed.

Variable key : Transaction -> string.
Variable label : Transaction -> option string.

(** The growth cell of every data row is the column expression on the
    row's two amounts, with not-a-number shown as a blank. *)
Lemma data_row_growth (prev_filtered curr_filtered : DataFrame) (row : TableRow) :
  In row (data_rows (sales_table key label prev_filtered curr_filtered)) ->
  growth_pct row
  = blank_if_nan (column_growth (amount_prev row) (amount_curr row)).
Proof.
  rewrite (proj1 (sales_table_split key label _ _)). intros H.
  apply in_map_iff in H as [m [<- Hm]].
  unfold merge_outer in Hm. apply in_map_iff in Hm as [k [<- _]].
  reflexivity.
Qed.

(** A data row with previous amount 0 shows growth 0 when its current
    amount is not 0, and a blank when its current amount is 0 as well. *)
Lemma data_row_growth_zero_prev
      (prev_filtered curr_filtered : DataFrame) (row : TableRow) :
  In row (data_rows (sales_table key label prev_filtered curr_filtered)) ->
  amount_prev row == 0 ->
  (~ amount_curr row == 0 -> growth_pct row = Num (Fin 0))
  /\ (amount_curr row == 0 -> growth_pct row = Text EmptyString).
Proof.
  intros Hrow Hz. rewrite (data_row_growth _ _ _ Hrow).
  rewrite (column_growth_zero_prev _ Hz). split; intros Hc.
  - destruct (Qeq_bool (amount_curr row) 0) eqn:E; [|reflexivity].
    elim Hc. apply Qeq_bool_eq, E.
  - rewrite (Qeq_eq_bool _ _ Hc). reflexivity.
Qed.

(** C9, as the code has it: a table built for a text-valued grouping key
    (the customer table and the product table are its two instances) is
    its data rows, one per entity, followed by one appended totals row. The
    totals row carries, in its two amount columns, the sums of those
    columns over the data rows, and its growth is the guarded expression
    on these two sums: 0 when the previous sum is 0, the percentage change
    otherwise. *)
Theorem totals_row_consistency (prev_filtered curr_filtered : DataFrame) :
  exists rows t,
    sales_table key label prev_filtered curr_filtered = rows ++ [t]
    /\ map entity rows
       = group_keys (group_keys (map key prev_filtered)
                     ++ group_keys (map key curr_filtered))
    /\ entity t = EmptyString
    /\ amount_prev t = sum (map amount_prev rows)
    /\ amount_curr t = sum (map amount_curr rows)
    /\ growth_pct t
       = Num (Fin (guarded_growth (amount_prev t) (amount_curr t)))
    /\ (amount_prev t == 0 -> growth_pct t = Num (Fin 0))
    /\ (~ amount_prev t == 0 ->
        growth_pct t
        = Num (Fin ((amount_curr t - amount_prev t) / amount_prev t * 100))).
Proof.
  unfold sales_table.
  set (merged := merge_outer (group_sales key label prev_filtered)
                             (group_sales key label curr_filtered)).
  exists (map shown_row merged), (total_row merged).
  split; [reflexivity|]. split.
  - rewrite map_map. cbn [shown_row entity]. unfold merged.
    rewrite merge_outer_keys, !group_sales_keys. reflexivity.
  - cbn [total_row entity amount_prev amount_curr growth_pct].
    rewrite !map_map. cbn [shown_row amount_prev amount_curr].
    split; [reflexivity|]. split; [reflexivity|]. split; [reflexivity|].
    split; [reflexivity|]. split.
    + intros Z. rewrite (guarded_growth_zero _ Z). reflexivity.
    + intros N. rewrite (guarded_growth_nonzero _ N). reflexivity.
Qed.

End Growth.

(** C9, the claim as stated fails for the sales rep key: the code appends
    no totals row to its per-rep aggregate. The pie of a year with reps
    [u] and [v] holds their two slices and nothing else, and with no rep
    selected the panel shows no table. *)
Lemma sales_rep_aggregate_has_no_totals_row :
  tdv_sales reps_u_and_v = [("u"%string, 10); ("v"%string, 7)]
  /\ List.length (tdv_sales reps_u_and_v) = 2%nat
  /\ rep_tables (plot_tdv_analysis [] reps_u_and_v cleared_filters) = [].
Proof. repeat split; vm_compute; reflexivity. Qed.

(** The customer table of two whole-amount years: two data rows and the
    appended totals row. *)
Lemma totals_row_consistency_witness :
  exists rows t,
    customer_table year_before year_after = rows ++ [t]
    /\ map entity rows
       = group_keys (group_keys (map Customer year_before)
                     ++ group_keys (map Customer year_after))
    /\ entity t = EmptyString
    /\ amount_prev t = sum (map amount_prev rows)
    /\ amount_curr t = sum (map amount_curr rows)
    /\ growth_pct t
       = Num (Fin (guarded_growth (amount_prev t) (amount_curr t)))
    /\ (amount_prev t == 0 -> growth_pct t = Num (Fin 0))
    /\ (~ amount_prev t == 0 ->
        growth_pct t
        = Num (Fin ((amount_curr t - amount_prev t) / amount_prev t * 100))).
Proof.
  apply (totals_row_consistency Customer Name year_before year_after).
Defined.

(** C1, where the code departs from the policy: customer ["B"] has no
    previous line and a single current line of amount 0. Both amounts of
    its row are 0 and its growth cell is a blank (not-a-number before the
    final fill), where the policy asks for 0. The totals row and the
    headline growth of the same input do follow the policy. *)
Theorem growth_blank_when_both_amounts_zero :
  customer_table [sale 100 "A" "a" "M" 100]
                 [sale 200 "A" "a" "M" 120; sale 200 "B" "b" "M" 0]
  = [ {| entity := "A"; label_prev := Text "a"; amount_prev := 100;
         label_curr := Text "a"; amount_curr := 120;
         growth_pct := Num (Fin (2000 # 100)) |};
      {| entity := "B"; label_prev := Num (Fin 0); amount_prev := 0;
         label_curr := Text "b"; amount_curr := 0;
         growth_pct := Text EmptyString |};
      {| entity := EmptyString; label_prev := Text EmptyString;
         amount_prev := 100; label_curr := Text EmptyString;
         amount_curr := 120; growth_pct := Num (Fin (2000 # 100)) |} ]
  /\ column_growth 0 0 = NaN.
Proof. split; vm_compute; reflexivity. Qed.

(** ** The totals row against the filtered datasets *)

Section DatasetTotals.

Lemma sum_cons (x : Q) (l : list Q) : sum (x :: l) = x + sum l.
Proof. reflexivity. Qed.

Lemma sum_nil : sum [] = 0.
Proof. reflexivity. Qed.

Lemma sum_map_plus {A : Type} (f g : A -> Q) (l : list A) :
  sum (map (fun x => f x + g x) l) == sum (map f l) + sum (map g l).
Proof.
  induction l as [|x l IH]; cbn [map]; rewrite ?sum_cons, ?sum_nil; [ring|]. rewrite IH. ring.
Qed.

Lemma sum_map_ext {A : Type} (f g : A -> Q) (l : list A) :
  (forall x, In x l -> f x == g x) -> sum (map f l) == sum (map g l).
Proof.
  induction l as [|x l IH]; intros H; cbn [map]; rewrite ?sum_cons, ?sum_nil; [reflexivity|].
  rewrite (H x (or_introl eq_refl)), IH; [reflexivity|].
  intros y Hy. apply H. right. exact Hy.
Qed.

Lemma sum_indicator_absent (k0 : string) (a : Q) (K : list string) :
  ~ In k0 K ->
  sum (map (fun k => if String.eqb k0 k then a else 0) K) == 0.
Proof.
  induction K as [|k K IH]; intros N; cbn [map]; rewrite ?sum_cons, ?sum_nil; [reflexivity|].
  destruct (String.eqb_spec k0 k) as [->|_]; [elim N; left; reflexivity|].
  rewrite IH; [ring|]. intros H. apply N. right. exact H.
Qed.

Lemma sum_indicator_present (k0 : string) (a : Q) (K : list string) :
  NoDup K -> In k0 K ->
  sum (map (fun k => if String.eqb k0 k then a else 0) K) == a.
Proof.
  induction K as [|k K IH]; intros ND Hin; [contradiction|].
  inversion ND as [|? ? Hk NDK]; subst. cbn [map]; rewrite ?sum_cons, ?sum_nil.
  destruct (String.eqb_spec k0 k) as [->|Hne].
  - rewrite (@sum_indicator_absent k a K Hk). ring.
  - destruct Hin as [E|Hin]; [congruence|]. rewrite (IH NDK Hin). ring.
Qed.

Variable key : Transaction -> string.
Variable label : Transaction -> option string.

(** Summing the per-key sums over a duplicate-free list of keys that
    covers the dataset gives the sum over the dataset. *)
Lemma group_sums_partition (df : DataFrame) (K : list string) :
  NoDup K ->
  (forall r, In r df -> In (key r) K) ->
  sum (map (fun k => sum (map DS_Da_Tru_CK
                              (filter (fun r => String.eqb (key r) k) df))) K)
  == sum (map DS_Da_Tru_CK df).
Proof.
  intros ND. induction df as [|r df IH]; intros Hall.
  - cbn [map filter]; rewrite ?sum_cons, ?sum_nil. clear ND Hall.
    induction K as [|k K IHK]; cbn [map]; rewrite ?sum_cons, ?sum_nil;
      [reflexivity|].
    rewrite IHK. ring.
  - rewrite (sum_map_ext
               (fun k => sum (map DS_Da_Tru_CK
                                  (filter (fun r0 => String.eqb (key r0) k) (r :: df))))
               (fun k => (if String.eqb (key r) k then DS_Da_Tru_CK r else 0)
                         + sum (map DS_Da_Tru_CK
                                    (filter (fun r0 => String.eqb (key r0) k) df)))).
    + rewrite sum_map_plus, sum_indicator_present, IH.
      * cbn [map]; rewrite ?sum_cons, ?sum_nil. reflexivity.
      * intros r0 H0. apply Hall. right. exact H0.
      * exact ND.
      * apply Hall. left. reflexivity.
    + intros k _. cbn [filter]. destruct (String.eqb (key r) k); cbn [map]; rewrite ?sum_cons, ?sum_nil; ring.
Qed.

Lemma lookup_present (f : string -> Grouped) (ks : list string) (k : string) :
  (forall k', g_key (f k') = k') ->
  In k ks -> lookup k (map f ks) = Some (f k).
Proof.
  intros Hf. unfold lookup.
  induction ks as [|k' ks IH]; intros Hin; [contradiction|].
  cbn [map find]. rewrite Hf. destruct (String.eqb_spec k' k) as [->|Hne]; [reflexivity|].
  destruct Hin as [E|Hin]; [congruence | apply IH, Hin].
Qed.

Lemma filter_absent_key (df : DataFrame) (k : string) :
  ~ In k (map key df) -> filter (fun r => String.eqb (key r) k) df = [].
Proof.
  induction df as [|r df IH]; intros N; [reflexivity|].
  cbn [filter map] in *. destruct (String.eqb_spec (key r) k) as [E|_].
  - elim N. left. exact E.
  - apply IH. intros H. apply N. right. exact H.
Qed.

(** The amount a key receives in the merged frame is the sum over the
    dataset rows with that key. *)
Lemma merged_amount (df : DataFrame) (k : string) :
  amount_or_zero (lookup k (group_sales key label df))
  = sum (map DS_Da_Tru_CK (filter (fun r => String.eqb (key r) k) df)).
Proof.
  destruct (in_dec string_dec k (map key df)) as [Hin|Hout].
  - unfold group_sales. destruct df as [|r df]; [contradiction|].
    cbn [empty negb].
    rewrite lookup_present; [reflexivity | reflexivity |].
    apply group_keys_In, Hin.
  - rewrite lookup_absent, filter_absent_key; [reflexivity | exact Hout |].
    rewrite group_sales_keys, group_keys_In. exact Hout.
Qed.

(** The totals row agrees with the period totals of the two filtered
    datasets. *)
Lemma totals_row_matches_datasets (prev_filtered curr_filtered : DataFrame) :
  amount_prev (totals (sales_table key label prev_filtered curr_filtered))
  == total_amount prev_filtered
  /\ amount_curr (totals (sales_table key label prev_filtered curr_filtered))
     == total_amount curr_filtered.
Proof.
  rewrite (proj2 (sales_table_split key label _ _)).
  cbn [total_row amount_prev amount_curr]. unfold merge_outer.
  rewrite !map_map. cbn [m_prev m_curr].
  assert (T : forall df, total_amount df = sum (map DS_Da_Tru_CK df))
    by (intros [|r df]; reflexivity).
  rewrite !T. split.
  - rewrite (sum_map_ext _ (fun k => sum (map DS_Da_Tru_CK
              (filter (fun r => String.eqb (key r) k) prev_filtered)))).
    + apply group_sums_partition; [apply group_keys_NoDup|].
      intros r Hr. apply group_keys_In, in_or_app. left.
      rewrite group_sales_keys. apply group_keys_In, in_map, Hr.
    + intros k _. rewrite merged_amount. reflexivity.
  - rewrite (sum_map_ext _ (fun k => sum (map DS_Da_Tru_CK
              (filter (fun r => String.eqb (key r) k) curr_filtered)))).
    + apply group_sums_partition; [apply group_keys_NoDup|].
      intros r Hr. apply group_keys_In, in_or_app. right.
      rewrite group_sales_keys. apply group_keys_In, in_map, Hr.
    + intros k _. rewrite merged_amount. reflexivity.
Qed.

End DatasetTotals.

(** ** Whole amounts: float additions without rounding *)

Section BinaryFloats.

Lemma sum_app (l1 l2 : list Q) : sum (l1 ++ l2) == sum l1 + sum l2.
Proof.
  induction l1 as [|x l1 IH]; cbn [app]; rewrite ?sum_cons, ?sum_nil; [ring|].
  rewrite IH. ring.
Qed.

Lemma sum_permutation (l l' : list Q) : Permutation l l' -> sum l == sum l'.
Proof.
  induction 1 as [|x l l' _ IH|x y l|l l' l'' _ IH1 _ IH2];
    rewrite ?sum_cons; [reflexivity | rewrite IH; reflexivity | ring|].
  rewrite IH1. exact IH2.
Qed.

Lemma sum_abs_nonneg (l : list Q) : 0 <= sum (map Qabs l).
Proof.
  induction l as [|x l IH]; cbn [map]; rewrite ?sum_cons, ?sum_nil;
    [apply Qle_refl|].
  pose proof (Qabs_nonneg x). lra.
Qed.

Lemma sum_abs_bound (l : list Q) : Qabs (sum l) <= sum (map Qabs l).
Proof.
  induction l as [|x l IH]; cbn [map]; rewrite ?sum_cons, ?sum_nil;
    [apply Qle_refl|].
  pose proof (Qabs_triangle x (sum l)). lra.
Qed.

Lemma sum_whole (l : list Q) : (forall q, In q l -> whole q) -> whole (sum l).
Proof.
  induction l as [|x l IH]; intros H.
  - exists 0%Z. reflexivity.
  - destruct (H x (or_introl eq_refl)) as [zx Ex].
    destruct IH as [zl El]; [intros q Hq; apply H; right; exact Hq|].
    exists (zx + zl)%Z. rewrite sum_cons, Ex, El, inject_Z_plus. reflexivity.
Qed.

Lemma exactly_summable_app (l1 l2 : list Q) :
  exactly_summable (l1 ++ l2) -> exactly_summable l1 /\ exactly_summable l2.
Proof.
  intros [W B]. rewrite map_app, sum_app in B.
  pose proof (sum_abs_nonneg l1). pose proof (sum_abs_nonneg l2).
  split; (split; [intros q Hq; apply W, in_or_app; auto | lra]).
Qed.

Lemma exactly_summable_permutation (l l' : list Q) :
  Permutation l l' -> exactly_summable l' -> exactly_summable l.
Proof.
  intros P [W B]. split.
  - intros q Hq. apply W, (Permutation_in _ P), Hq.
  - rewrite (sum_permutation (Permutation_map Qabs P)). exact B.
Qed.

(** The sum of an exactly summable column is a whole number of at most
    2^50 in absolute value. *)
Lemma exactly_summable_sum (l : list Q) :
  exactly_summable l ->
  exists z, sum l == inject_Z z /\ (Z.abs z <= 2 ^ 50)%Z.
Proof.
  intros [W B]. destruct (sum_whole l W) as [z E]. exists z.
  split; [exact E|]. rewrite Zle_Qle.
  change (inject_Z (Z.abs z)) with (Qabs (inject_Z z)).
  rewrite <- (Qabs_wd _ _ E).
  apply (Qle_trans _ _ _ (sum_abs_bound l) B).
Qed.

Variable rnd : Q -> Q.
Hypothesis rnd_proper : forall a b, a == b -> rnd a == rnd b.
Hypothesis rnd_whole :
  forall z, (Z.abs z <= 2 ^ 53)%Z -> rnd (inject_Z z) == inject_Z z.

(** Whatever the order and the bracketing of the rounded additions, the
    floats of an exactly summable column add up to its exact sum. *)
Lemma float_sum_exact (l : list Q) (v : Q) :
  float_sum rnd l v -> exactly_summable l -> v == sum l.
Proof.
  induction 1 as [|x|l1 l2 v1 v2 _ IH1 _ IH2|l l' v P _ IH]; intros S.
  - reflexivity.
  - rewrite sum_cons, sum_nil. ring.
  - destruct (exactly_summable_app _ _ S) as [S1 S2].
    destruct (exactly_summable_sum S) as (z & E & Bz).
    assert (Ev : v1 + v2 == inject_Z z).
    { rewrite (IH1 S1), (IH2 S2), <- sum_app. exact E. }
    rewrite (rnd_proper Ev), rnd_whole, E; [reflexivity | lia].
  - rewrite (IH (exactly_summable_permutation P S)).
    apply sum_permutation, P.
Qed.

End BinaryFloats.

(** ** Sorting and quartile edges *)

Section QuartileEdges.

Lemma Qlt_bool_iff (a b : Q) : Qlt_bool a b = true <-> a < b.
Proof.
  unfold Qlt_bool. rewrite negb_true_iff. split.
  - intros H. apply Qnot_le_lt. intros L. apply Qle_bool_iff in L. congruence.
  - intros H. destruct (Qle_bool b a) eqn:E; [|reflexivity].
    apply Qle_bool_iff in E. elim (Qlt_not_le _ _ H E).
Qed.

Lemma insert_sorted_Sorted (x : Q) (l : list Q) :
  Sorted Qle l -> Sorted Qle (insert_sorted Qle_bool x l).
Proof.
  induction l as [|y l IH]; intros S; cbn.
  - repeat constructor.
  - destruct (Qle_bool x y) eqn:E.
    + constructor; [exact S|]. constructor. apply Qle_bool_iff, E.
    + apply Sorted_inv in S as [S H].
      assert (Lyx : y <= x).
      { apply Qlt_le_weak, Qnot_le_lt. intros L.
        apply Qle_bool_iff in L. congruence. }
      constructor; [apply IH, S|].
      destruct l as [|z l]; cbn.
      * constructor. exact Lyx.
      * destruct (Qle_bool x z); constructor; [exact Lyx|].
        apply HdRel_inv in H. exact H.
Qed.

Lemma sort_by_Sorted (l : list Q) : Sorted Qle (sort_by Qle_bool l).
Proof.
  induction l as [|x l IH]; cbn; [constructor|].
  apply insert_sorted_Sorted, IH.
Qed.

Lemma sort_by_StronglySorted (l : list Q) :
  StronglySorted Qle (sort_by Qle_bool l).
Proof.
  apply Sorted_StronglySorted; [|apply sort_by_Sorted].
  intros a b c. apply Qle_trans.
Qed.

Lemma StronglySorted_nth (l : list Q) :
  StronglySorted Qle l ->
  forall i j, (i <= j < List.length l)%nat -> nth i l 0 <= nth j l 0.
Proof.
  induction 1 as [|x l S IH F]; intros i j Hij; cbn in Hij; [lia|].
  destruct j as [|j].
  - assert (i = O) by lia. subst i. apply Qle_refl.
  - destruct i as [|i].
    + cbn. rewrite Forall_forall in F. apply F, nth_In. lia.
    + cbn. apply IH. lia.
Qed.

(** Every value lies between the first and the last element of the sorted
    column. *)
Lemma sorted_bounds (xs : list Q) (x : Q) :
  In x xs ->
  nth 0 (sort_by Qle_bool xs) 0 <= x
  /\ x <= nth (List.length (sort_by Qle_bool xs) - 1) (sort_by Qle_bool xs) 0.
Proof.
  intros Hin.
  apply (Permutation_in _ (Permutation_sym (sort_by_perm Qle_bool xs))) in Hin.
  destruct (In_nth _ _ 0 Hin) as [i [Hi <-]].
  split; apply StronglySorted_nth; try apply sort_by_StronglySorted; lia.
Qed.

Lemma quantile_at_0 (s : list Q) : quantile s 0 == nth 0 s 0.
Proof.
  unfold quantile.
  assert (F : Qfloor (0 * inject_Z (Z.of_nat (List.length s) - 1)) = 0%Z).
  { rewrite Qmult_0_l. reflexivity. }
  rewrite F. change (Z.to_nat 0) with O. change (inject_Z 0) with 0. ring.
Qed.

Lemma quantile_at_1 (s : list Q) :
  s <> [] -> quantile s 1 == nth (List.length s - 1) s 0.
Proof.
  intros N. unfold quantile.
  assert (L : (1 <= Z.of_nat (List.length s))%Z)
    by (destruct s; [congruence | cbn [List.length]; lia]).
  assert (F : Qfloor (1 * inject_Z (Z.of_nat (List.length s) - 1))
              = (Z.of_nat (List.length s) - 1)%Z).
  { rewrite Qmult_1_l. apply Qfloor_Z. }
  rewrite F.
  replace (Z.min (Z.of_nat (List.length s) - 1 + 1) (Z.of_nat (List.length s) - 1))
    with (Z.of_nat (List.length s) - 1)%Z by lia.
  replace (Z.to_nat (Z.of_nat (List.length s) - 1))
    with (List.length s - 1)%nat by lia.
  ring.
Qed.

(** A quantile never exceeds the largest value. *)
Lemma quantile_le_max (s : list Q) (q : Q) :
  StronglySorted Qle s -> s <> [] -> 0 <= q -> q <= 1 ->
  quantile s q <= nth (List.length s - 1) s 0.
Proof.
  intros S N Q0 Q1. unfold quantile.
  set (n := Z.of_nat (List.length s)).
  assert (Ln : (1 <= n)%Z)
    by (subst n; destruct s; [congruence | cbn [List.length]; lia]).
  set (h := q * inject_Z (n - 1)).
  assert (Hn : 0 <= inject_Z (n - 1))
    by (change 0 with (inject_Z 0); rewrite <- Zle_Qle; lia).
  assert (H0 : 0 <= h) by (subst h; apply Qmult_le_0_compat; assumption).
  assert (H1 : h <= inject_Z (n - 1)).
  { subst h. rewrite <- (Qmult_1_l (inject_Z (n - 1))) at 2.
    apply Qmult_le_compat_r; assumption. }
  set (lo := Qfloor h).
  assert (Llo : (0 <= lo <= n - 1)%Z).
  { subst lo. split.
    - change 0%Z with (Qfloor 0). apply Qfloor_resp_le, H0.
    - rewrite <- (Qfloor_Z (n - 1)). apply Qfloor_resp_le, H1. }
  assert (T0 : 0 <= h - inject_Z lo)
    by (pose proof (Qfloor_le h); subst lo; lra).
  assert (T1 : h - inject_Z lo <= 1).
  { pose proof (Qlt_floor h) as F. subst lo.
    rewrite inject_Z_plus in F. change (inject_Z 1) with 1 in F. lra. }
  set (hi := Z.min (lo + 1) (n - 1)).
  assert (Lhi : (lo <= hi <= n - 1)%Z) by (subst hi; lia).
  assert (Lab : nth (Z.to_nat lo) s 0 <= nth (Z.to_nat hi) s 0)
    by (apply StronglySorted_nth; [exact S | subst n; lia]).
  assert (Lbm : nth (Z.to_nat hi) s 0 <= nth (List.length s - 1) s 0)
    by (apply StronglySorted_nth; [exact S | subst n; lia]).
  set (a := nth (Z.to_nat lo) s 0) in *.
  set (b := nth (Z.to_nat hi) s 0) in *.
  set (t := h - inject_Z lo) in *.
  assert (P : 0 <= (b - a) * (1 - t)) by (apply Qmult_le_0_compat; lra).
  lra.
Qed.

(** The five quartile edges: the outer two are the smallest and the largest
    value of the column, and no edge exceeds the last. *)
Lemma quantile_edges_facts (xs : list Q) :
  xs <> [] ->
  exists e0 e1 e2 e3 e4,
    quantile_edges xs = [e0; e1; e2; e3; e4]
    /\ (forall x, In x xs -> e0 <= x /\ x <= e4)
    /\ (exists m, In m xs /\ e0 == m)
    /\ (exists M, In M xs /\ e4 == M)
    /\ e1 <= e4 /\ e2 <= e4 /\ e3 <= e4.
Proof.
  intros N.
  assert (Ns : sort_by Qle_bool xs <> []).
  { intros E. apply N, Permutation_nil. rewrite <- E. apply sort_by_perm. }
  assert (Ls : (0 < List.length (sort_by Qle_bool xs))%nat)
    by (destruct (sort_by Qle_bool xs); [congruence | cbn; lia]).
  pose proof (quantile_at_0 (sort_by Qle_bool xs)) as H0.
  pose proof (quantile_at_1 Ns) as H4.
  pose proof (sort_by_StronglySorted xs) as S.
  unfold quantile_edges, quartiles. cbn [map].
  do 5 eexists. split; [reflexivity|].
  split; [|split; [|split; [|repeat split]]].
  - intros x Hx. destruct (sorted_bounds xs x Hx) as [Lo Hi].
    rewrite H0, H4. auto.
  - exists (nth 0 (sort_by Qle_bool xs) 0). split; [|exact H0].
    apply (Permutation_in _ (sort_by_perm Qle_bool xs)), nth_In, Ls.
  - exists (nth (List.length (sort_by Qle_bool xs) - 1) (sort_by Qle_bool xs) 0).
    split; [|exact H4].
    apply (Permutation_in _ (sort_by_perm Qle_bool xs)), nth_In. lia.
  - rewrite H4. apply quantile_le_max; [exact S | exact Ns | lra | lra].
  - rewrite H4. apply quantile_le_max; [exact S | exact Ns | lra | lra].
  - rewrite H4. apply quantile_le_max; [exact S | exact Ns | lra | lra].
Qed.

End QuartileEdges.

(** ** Quantile binning *)

Section Binning.

Lemma searchsorted_left_mono (bins : list Q) (x y : Q) :
  x <= y -> (searchsorted_left bins x <= searchsorted_left bins y)%nat.
Proof.
  intros L. induction bins as [|b bins IH]; cbn; [lia|].
  destruct (Qlt_bool b x) eqn:Ex; [|lia].
  apply Qlt_bool_iff in Ex.
  assert (Ey : Qlt_bool b y = true)
    by (apply Qlt_bool_iff; eapply Qlt_le_trans; eauto).
  rewrite Ey. lia.
Qed.

Lemma searchsorted_left_below (bins : list Q) (x e : Q) :
  In e bins -> x <= e ->
  (searchsorted_left bins x < List.length bins)%nat.
Proof.
  intros Hin L. induction bins as [|b bins IH]; [contradiction|].
  cbn. destruct (Qlt_bool b x) eqn:Ex; [|lia].
  apply Qlt_bool_iff in Ex. destruct Hin as [->|Hin].
  - elim (Qlt_not_le _ _ Ex L).
  - specialize (IH Hin). lia.
Qed.

Lemma bin_id_range (e0 e1 e2 e3 e4 x : Q) :
  e0 <= x -> x <= e4 ->
  (1 <= bin_id [e0; e1; e2; e3; e4] x <= 4)%nat.
Proof.
  intros Lo Hi. unfold bin_id.
  destruct (Qeq_bool x e0) eqn:E; [lia|].
  pose proof (@searchsorted_left_below [e0; e1; e2; e3; e4] x e4) as B.
  cbn [List.length] in B.
  assert ((1 <= searchsorted_left [e0; e1; e2; e3; e4] x)%nat).
  { cbn [searchsorted_left].
    assert (Lt : Qlt_bool e0 x = true).
    { apply Qlt_bool_iff. apply Qle_lt_or_eq in Lo. destruct Lo as [Lt|Eq]; [exact Lt|].
      apply Qeq_bool_neq in E. elim E. symmetry. exact Eq. }
    rewrite Lt. lia. }
  assert ((searchsorted_left [e0; e1; e2; e3; e4] x < 5)%nat).
  { apply B; [|exact Hi]. cbn. auto 6. }
  lia.
Qed.

Lemma bin_id_mono (b0 : Q) (rest : list Q) (x y : Q) :
  b0 <= x -> x < y ->
  (1 <= bin_id (b0 :: rest) y)%nat ->
  (bin_id (b0 :: rest) x <= bin_id (b0 :: rest) y)%nat.
Proof.
  intros Lo Lt Hy. unfold bin_id in *.
  destruct (Qeq_bool x b0) eqn:Ex; [exact Hy|].
  destruct (Qeq_bool y b0) eqn:Ey.
  - apply Qeq_bool_eq in Ey. rewrite Ey in Lt. elim (Qlt_not_le _ _ Lt Lo).
  - apply searchsorted_left_mono, Qlt_le_weak, Lt.
Qed.

Lemma cut_label_recency (e0 e1 e2 e3 e4 x : Q) :
  (1 <= bin_id [e0; e1; e2; e3; e4] x <= 4)%nat ->
  cut_label [e0; e1; e2; e3; e4] recency_labels x
  = Some (5 - Z.of_nat (bin_id [e0; e1; e2; e3; e4] x))%Z.
Proof.
  intros R. unfold cut_label. cbn [List.length].
  set (id := bin_id [e0; e1; e2; e3; e4] x) in *. clearbody id.
  assert (C : (id = 1 \/ id = 2 \/ id = 3 \/ id = 4)%nat) by lia.
  destruct C as [-> | [-> | [-> | ->] ] ]; reflexivity.
Qed.

Lemma unique_from_length_le (seen l : list Q) :
  (List.length (unique_from seen l) <= List.length l)%nat.
Proof.
  revert seen. induction l as [|y l IH]; intros seen; cbn; [lia|].
  destruct (existsb (Qeq_bool y) seen); cbn;
    [specialize (IH seen) | specialize (IH (y :: seen))]; lia.
Qed.

(** When no value is dropped, no element is equal to an earlier one. *)
Lemma unique_from_full (seen l : list Q) :
  List.length (unique_from seen l) = List.length l ->
  forall p x s, l = p ++ x :: s ->
                existsb (Qeq_bool x) (rev p ++ seen) = false.
Proof.
  revert seen. induction l as [|y l IH]; intros seen H p x s E.
  - destruct p; discriminate E.
  - cbn in H. destruct (existsb (Qeq_bool y) seen) eqn:Ey.
    + pose proof (unique_from_length_le seen l). lia.
    + cbn in H. injection H as H. destruct p as [|y' p]; cbn in E.
      * injection E as E1 E2. subst x. exact Ey.
      * injection E as E1 E2. subst y'. cbn [rev]. rewrite <- app_assoc.
        apply (IH (y :: seen) H p x s E2).
Qed.

Lemma unique_from_covers (seen l : list Q) (x : Q) :
  In x l ->
  (exists s, In s seen /\ Qeq_bool x s = true)
  \/ (exists u, In u (unique_from seen l) /\ u == x).
Proof.
  revert seen. induction l as [|y l IH]; intros seen Hin; [contradiction|].
  cbn. destruct (existsb (Qeq_bool y) seen) eqn:Ey.
  - destruct Hin as [<-|Hin]; [|apply IH, Hin].
    left. apply existsb_exists in Ey. exact Ey.
  - destruct Hin as [<-|Hin].
    + right. exists y. split; [left; reflexivity | reflexivity].
    + destruct (IH (y :: seen) Hin) as [(s & [<-|Hs] & E)|(u & Hu & E)].
      * right. exists y. split; [left; reflexivity|].
        symmetry. apply Qeq_bool_eq, E.
      * left. exists s. auto.
      * right. exists u. split; [right; exact Hu | exact E].
Qed.

(** Two different values make at least two distinct values. *)
Lemma nunique_two (l : list Q) (x y : Q) :
  In x l -> In y l -> ~ x == y -> (2 <= nunique l)%nat.
Proof.
  intros Hx Hy N. unfold nunique, unique.
  destruct (unique_from_covers [] l x Hx) as [(s & [] & _)|(u & Hu & Eu)].
  destruct (unique_from_covers [] l y Hy) as [(s & [] & _)|(v & Hv & Ev)].
  destruct (unique_from [] l) as [|c [|d rest]]; cbn [List.length]; [contradiction| |lia].
  destruct Hu as [<-|[]], Hv as [<-|[]]. elim N. rewrite <- Eu, <- Ev. reflexivity.
Qed.

Lemma bin_id_lowest (b0 : Q) (rest : list Q) (x : Q) :
  x == b0 -> bin_id (b0 :: rest) x = 1%nat.
Proof. intros E. unfold bin_id. rewrite (Qeq_eq_bool _ _ E). reflexivity. Qed.

Lemma bin_id_highest (e0 e1 e2 e3 e4 x : Q) :
  x == e4 ->
  e0 <= e4 -> e1 <= e4 -> e2 <= e4 -> e3 <= e4 ->
  existsb (Qeq_bool e4) [e3; e2; e1; e0] = false ->
  bin_id [e0; e1; e2; e3; e4] x = 4%nat.
Proof.
  intros E L0 L1 L2 L3 D. cbn [existsb] in D.
  repeat (apply orb_false_elim in D as [? D]).
  assert (B : forall e, e <= e4 -> Qeq_bool e4 e = false -> Qlt_bool e x = true).
  { intros e L F. apply Qlt_bool_iff. rewrite E.
    apply Qle_lt_or_eq in L. destruct L as [L|L]; [exact L|].
    apply Qeq_bool_neq in F. elim F. symmetry. exact L. }
  unfold bin_id.
  assert (F0 : Qeq_bool x e0 = false).
  { destruct (Qeq_bool x e0) eqn:C; [|reflexivity].
    apply Qeq_bool_eq in C. rewrite E in C.
    rewrite (Qeq_eq_bool _ _ C) in *. discriminate. }
  rewrite F0. cbn [searchsorted_left].
  rewrite !B by assumption.
  assert (F4 : Qlt_bool e4 x = false).
  { destruct (Qlt_bool e4 x) eqn:C; [|reflexivity].
    apply Qlt_bool_iff in C. rewrite E in C. elim (Qlt_irrefl _ C). }
  rewrite F4. reflexivity.
Qed.

Lemma qcut4_tied (xs : list Q) (labels : list Z) :
  List.length labels = 4%nat ->
  has_duplicates labels = false ->
  (List.length (unique (quantile_edges xs)) < 5)%nat ->
  qcut4 xs labels = inl (ValueError labels_mismatch).
Proof.
  intros L D T. unfold qcut4, bins_to_cuts.
  change (List.length (quantile_edges xs)) with 5%nat.
  destruct (Nat.ltb_spec (List.length (unique (quantile_edges xs))) 5); [|lia].
  cbn [Nat.eqb negb andb]. rewrite D, L.
  destruct (Nat.eqb_spec 4 (List.length (unique (quantile_edges xs)) - 1));
    [lia | reflexivity].
Qed.

Lemma qcut4_success (xs : list Q) (labels : list Z) (rs : list (option Z)) :
  List.length labels = 4%nat ->
  qcut4 xs labels = inr rs ->
  rs = map (cut_label (quantile_edges xs) labels) xs
  /\ List.length (unique (quantile_edges xs)) = 5%nat.
Proof.
  intros L. unfold qcut4, bins_to_cuts.
  pose proof (unique_from_length_le [] (quantile_edges xs)) as U.
  fold (unique (quantile_edges xs)) in U.
  change (List.length (quantile_edges xs)) with 5%nat in *.
  destruct (Nat.ltb_spec (List.length (unique (quantile_edges xs))) 5);
    cbn [Nat.eqb negb andb]; destruct (has_duplicates labels);
    try discriminate; rewrite L.
  - destruct (Nat.eqb_spec 4 (List.length (unique (quantile_edges xs)) - 1));
      [lia | discriminate].
  - change (List.length (quantile_edges xs)) with 5%nat. cbn [Nat.sub Nat.eqb negb].
    intros E. injection E as <-. split; [reflexivity | lia].
Qed.

Lemma qcut4_error (xs : list Q) (labels : list Z) (e : exn) :
  has_duplicates labels = false ->
  qcut4 xs labels = inl e -> e = ValueError labels_mismatch.
Proof.
  intros D. unfold qcut4, bins_to_cuts. rewrite D.
  match goal with
  | |- (if negb ?c then _ else _) = _ -> _ => destruct c
  end; cbn [negb]; intros E; [discriminate|].
  injection E as <-. reflexivity.
Qed.

Lemma qcut4_distinct (xs : list Q) (labels : list Z) :
  List.length labels = 4%nat ->
  has_duplicates labels = false ->
  List.length (unique (quantile_edges xs)) = 5%nat ->
  qcut4 xs labels = inr (map (cut_label (quantile_edges xs) labels) xs).
Proof.
  intros L D U. unfold qcut4, bins_to_cuts.
  change (List.length (quantile_edges xs)) with 5%nat.
  destruct (Nat.ltb_spec (List.length (unique (quantile_edges xs))) 5); [lia|].
  cbn [andb]. rewrite D, L. reflexivity.
Qed.

Lemma score_column_tied (col : list Q) (labels : list Z) :
  List.length labels = 4%nat ->
  has_duplicates labels = false ->
  (1 < nunique col)%nat ->
  (List.length (unique (quantile_edges col)) < 5)%nat ->
  score_column col labels = inl (ValueError labels_mismatch).
Proof.
  intros L D N T. unfold score_column.
  destruct (Nat.leb_spec (nunique col) 1); [lia|].
  apply qcut4_tied; assumption.
Qed.

Lemma score_column_error (col : list Q) (labels : list Z) (e : exn) :
  has_duplicates labels = false ->
  score_column col labels = inl e -> e = ValueError labels_mismatch.
Proof.
  intros D. unfold score_column.
  destruct (Nat.leb (nunique col) 1); [discriminate|].
  apply qcut4_error, D.
Qed.

Lemma score_column_success (col : list Q) (labels : list Z)
      (rs : list (option Z)) :
  List.length labels = 4%nat ->
  score_column col labels = inr rs ->
  ((nunique col <= 1)%nat /\ rs = map (fun _ => Some 1%Z) col)
  \/ (rs = map (cut_label (quantile_edges col) labels) col
      /\ List.length (unique (quantile_edges col)) = 5%nat).
Proof.
  intros L. unfold score_column.
  destruct (Nat.leb_spec (nunique col) 1).
  - intros E. injection E as <-. left. split; [assumption | reflexivity].
  - intros E. right. apply qcut4_success; assumption.
Qed.

Lemma score_column_length (col : list Q) (labels : list Z)
      (rs : list (option Z)) :
  List.length labels = 4%nat ->
  score_column col labels = inr rs ->
  List.length rs = List.length col.
Proof.
  intros L E. apply score_column_success in E; [|exact L].
  destruct E as [[_ ->]|[-> _]]; apply length_map.
Qed.

End Binning.

(** ** RFM scoring *)

Section RfmScoring.

Lemma score_groups_tied (gs : list RfmGroup) (col : list Q) :
  In col (metric_columns gs) ->
  (1 < nunique col)%nat ->
  (List.length (unique (quantile_edges col)) < 5)%nat ->
  score_groups gs = inl (ValueError labels_mismatch).
Proof.
  intros Hin N T. unfold score_groups.
  pose proof (fun labels L D => @score_column_tied col labels L D N T) as Tied.
  destruct (score_column (map (fun g => inject_Z (rg_Recency g)) gs)
                         recency_labels) as [e|rs] eqn:E1.
  { apply score_column_error in E1; [subst e|]; reflexivity. }
  destruct (score_column (map (fun g => inject_Z (rg_Frequency g)) gs)
                         direct_labels) as [e|fs] eqn:E2.
  { apply score_column_error in E2; [subst e|]; reflexivity. }
  destruct (score_column (map rg_Monetary gs) direct_labels) as [e|ms] eqn:E3.
  { apply score_column_error in E3; [subst e|]; reflexivity. }
  exfalso. unfold metric_columns in Hin.
  destruct Hin as [<-|[<-|[<-|[]]]].
  - rewrite Tied in E1; [discriminate | reflexivity | reflexivity].
  - rewrite Tied in E2; [discriminate | reflexivity | reflexivity].
  - rewrite Tied in E3; [discriminate | reflexivity | reflexivity].
Qed.

(** C3, what the code does under the claim's premise: when one of the
    three metric columns has more than one distinct value and its five
    quartile edges are not pairwise distinct, binning raises, and
    [calculate_rfm] logs and shows the error and returns no table. No
    score is assigned. *)
Theorem rfm_fails_on_tied_quartile_edges
        (df : DataFrame) (latest_date : Timestamp) (col : list Q) :
  df <> [] ->
  In col (metric_columns (rfm_groups df latest_date)) ->
  (1 < nunique col)%nat ->
  (List.length (unique (quantile_edges col)) < 5)%nat ->
  calculate_rfm df latest_date
  = ([Log rfm_error_text; Error rfm_error_text], None).
Proof.
  intros Hdf Hin N T. unfold calculate_rfm.
  destruct df as [|r df]; [congruence|]. cbn [empty].
  rewrite (@score_groups_tied _ _ Hin N T). reflexivity.
Qed.

(** Three customers with one billing line and one with two: the frequency
    column is 1, 1, 1, 2 and its quartile edges are 1, 1, 1, 5/4, 2. *)
Lemma rfm_fails_on_tied_quartile_edges_witness :
  calculate_rfm tied_frequencies (day 10)
  = ([Log rfm_error_text; Error rfm_error_text], None).
Proof.
  apply (@rfm_fails_on_tied_quartile_edges tied_frequencies (day 10)
           [1; 1; 1; 2]).
  - discriminate.
  - right. left. vm_compute. reflexivity.
  - vm_compute. lia.
  - vm_compute. lia.
Defined.

(** Conversely, when every metric column is constant or has five distinct
    quartile edges, [calculate_rfm] returns a table and emits nothing. *)
Lemma rfm_succeeds_without_ties (df : DataFrame) (latest_date : Timestamp) :
  df <> [] ->
  (forall col, In col (metric_columns (rfm_groups df latest_date)) ->
               (nunique col <= 1)%nat
               \/ List.length (unique (quantile_edges col)) = 5%nat) ->
  exists rfm, calculate_rfm df latest_date = ([], Some rfm).
Proof.
  intros Hdf Hall. unfold calculate_rfm.
  destruct df as [|r df]; [congruence|]. cbn [empty].
  set (gs := rfm_groups (r :: df) latest_date) in *. clearbody gs.
  assert (Ok : forall col labels,
             In col (metric_columns gs) ->
             List.length labels = 4%nat -> has_duplicates labels = false ->
             exists rs, score_column col labels = inr rs).
  { intros col labels Hc L D. unfold score_column.
    destruct (Nat.leb_spec (nunique col) 1); [eauto|].
    destruct (Hall col Hc) as [?|U]; [lia|].
    rewrite (qcut4_distinct _ L D U). eauto. }
  unfold score_groups, metric_columns in *.
  destruct (Ok (map (fun g => inject_Z (rg_Recency g)) gs) recency_labels)
    as [rs ->]; [cbn; auto | reflexivity | reflexivity |].
  destruct (Ok (map (fun g => inject_Z (rg_Frequency g)) gs) direct_labels)
    as [fs ->]; [cbn; auto | reflexivity | reflexivity |].
  destruct (Ok (map rg_Monetary gs) direct_labels)
    as [ms ->]; [cbn; auto | reflexivity | reflexivity |].
  eauto.
Qed.

Lemma assemble_In (f : RfmGroup -> option Z) (gs : list RfmGroup)
      (fs ms : list (option Z)) (r : RfmRecord) :
  In r (assemble gs (map f gs) fs ms) ->
  exists g, In g gs /\ Recency r = rg_Recency g /\ Recency_Score r = f g.
Proof.
  revert fs ms. induction gs as [|g gs IH]; intros fs ms H; [contradiction|].
  destruct fs as [|f0 fs]; [contradiction|].
  destruct ms as [|m0 ms]; [contradiction|].
  cbn [map assemble] in H. destruct H as [<-|H].
  - exists g. cbn. auto.
  - destruct (IH _ _ H) as (g' & Hg & E). exists g'. cbn. auto.
Qed.

Lemma assemble_covers (f : RfmGroup -> option Z) (gs : list RfmGroup)
      (fs ms : list (option Z)) (g : RfmGroup) :
  List.length fs = List.length gs ->
  List.length ms = List.length gs ->
  In g gs ->
  exists r, In r (assemble gs (map f gs) fs ms) /\ Recency r = rg_Recency g.
Proof.
  revert fs ms. induction gs as [|g0 gs IH]; intros fs ms Lf Lm H;
    [contradiction|].
  destruct fs as [|f0 fs]; [discriminate|].
  destruct ms as [|m0 ms]; [discriminate|].
  cbn [map assemble]. destruct H as [->|H].
  - eexists. split; [left; reflexivity | reflexivity].
  - injection Lf as Lf. injection Lm as Lm.
    destruct (IH fs ms Lf Lm H) as (r & Hr & E).
    exists r. split; [right; exact Hr | exact E].
Qed.

(** C6. In the table [calculate_rfm] returns, of two customers with
    different recency the one with the smaller recency (the more recent
    purchaser) has a recency score at least as high as the other's; both
    scores are present and lie between 1 and 4. The scale is inverted end
    to end: if the more recent of the two is the most recent customer of
    the table its score is 4, and if the other is the oldest its score
    is 1. *)
Theorem recency_score_direction
        (df : DataFrame) (latest_date : Timestamp) (rfm : list RfmRecord)
        (a b : RfmRecord) :
  snd (calculate_rfm df latest_date) = Some rfm ->
  In a rfm -> In b rfm ->
  (Recency a < Recency b)%Z ->
  exists sa sb,
    Recency_Score a = Some sa /\ Recency_Score b = Some sb
    /\ (1 <= sb <= sa)%Z /\ (sa <= 4)%Z
    /\ ((forall r, In r rfm -> (Recency a <= Recency r)%Z) -> sa = 4%Z)
    /\ ((forall r, In r rfm -> (Recency r <= Recency b)%Z) -> sb = 1%Z).
Proof.
  intros Hrfm Ha Hb Lt. unfold calculate_rfm in Hrfm.
  destruct (empty df); [discriminate|].
  set (gs := rfm_groups df latest_date) in *. clearbody gs.
  destruct (score_groups gs) as [e|table] eqn:S; [discriminate|].
  cbn [snd] in Hrfm. injection Hrfm as Hrfm. subst table.
  unfold score_groups in S.
  set (q := fun g => inject_Z (rg_Recency g)) in *.
  destruct (score_column (map q gs) recency_labels) as [e|rs] eqn:E1;
    [discriminate|].
  destruct (score_column (map (fun g => inject_Z (rg_Frequency g)) gs)
                         direct_labels) as [e|fs] eqn:E2; [discriminate|].
  destruct (score_column (map rg_Monetary gs) direct_labels) as [e|ms] eqn:E3;
    [discriminate|].
  injection S as S.
  apply score_column_length in E2; [|reflexivity].
  apply score_column_length in E3; [|reflexivity].
  rewrite length_map in E2, E3.
  apply score_column_success in E1; [|reflexivity].
  rewrite !map_map in E1.
  assert (Lq : inject_Z (Recency a) < inject_Z (Recency b))
    by (rewrite <- Zlt_Qlt; exact Lt).
  destruct E1 as [[Nu E]|[E Full]]; subst rs; rewrite <- S in Ha, Hb.
  - exfalso.
    apply assemble_In in Ha as (ga & Hga & Ra & _).
    apply assemble_In in Hb as (gb & Hgb & Rb & _).
    rewrite Ra, Rb in Lq.
    pose proof (@nunique_two _ _ _ (in_map q _ _ Hga) (in_map q _ _ Hgb)
                             (Qlt_not_eq _ _ Lq)).
    lia.
  - apply assemble_In in Ha as (ga & Hga & Ra & Sa).
    apply assemble_In in Hb as (gb & Hgb & Rb & Sb).
    assert (Ia : In (inject_Z (Recency a)) (map q gs))
      by (rewrite Ra; apply (in_map q), Hga).
    assert (Ib : In (inject_Z (Recency b)) (map q gs))
      by (rewrite Rb; apply (in_map q), Hgb).
    assert (Cover : forall x, In x (map q gs) ->
                              exists r, In r rfm /\ x = inject_Z (Recency r)).
    { intros x Hx. apply in_map_iff in Hx as (g & <- & Hg).
      destruct (@assemble_covers
                  (fun g0 => cut_label (quantile_edges (map q gs))
                                       recency_labels (q g0))
                  gs fs ms g E2 E3 Hg) as (r & Hr & Er).
      exists r. rewrite <- S. split; [exact Hr|].
      unfold q. rewrite Er. reflexivity. }
    assert (Ne : map q gs <> []) by (intros Z; rewrite Z in Ia; contradiction).
    destruct (quantile_edges_facts Ne)
      as (e0 & e1 & e2 & e3 & e4 & Ed & Enc & (m & Hm & Em) & (M & HM & EM)
          & L1 & L2 & L3).
    unfold q in Sa, Sb. rewrite <- Ra in Sa. rewrite <- Rb in Sb.
    fold q in Sa, Sb. rewrite Ed in Sa, Sb, Full.
    destruct (Enc _ Ia) as [La Ua]. destruct (Enc _ Ib) as [Lb Ub].
    pose proof (@bin_id_range e0 e1 e2 e3 e4 _ La Ua) as Ba.
    pose proof (@bin_id_range e0 e1 e2 e3 e4 _ Lb Ub) as Bb.
    rewrite (@cut_label_recency _ _ _ _ _ _ Ba) in Sa.
    rewrite (@cut_label_recency _ _ _ _ _ _ Bb) in Sb.
    pose proof (@bin_id_mono e0 [e1; e2; e3; e4] _ _ La Lq (proj1 Bb)) as Mo.
    eexists. eexists. split; [exact Sa|]. split; [exact Sb|].
    split; [lia|]. split; [lia|]. split.
    + intros Hmin.
      assert (Ea : inject_Z (Recency a) == e0).
      { apply Qle_antisym; [|exact La]. rewrite Em.
        destruct (Cover _ Hm) as (r & Hr & ->).
        rewrite <- Zle_Qle. apply Hmin, Hr. }
      rewrite (bin_id_lowest _ Ea). reflexivity.
    + intros Hmax.
      assert (Eb : inject_Z (Recency b) == e4).
      { apply Qle_antisym; [exact Ub|]. rewrite EM.
        destruct (Cover _ HM) as (r & Hr & ->).
        rewrite <- Zle_Qle. apply Hmax, Hr. }
      assert (D : existsb (Qeq_bool e4) [e3; e2; e1; e0] = false).
      { apply (@unique_from_full [] _ Full [e0; e1; e2; e3] e4 []).
        reflexivity. }
      assert (L0 : e0 <= e4) by (eapply Qle_trans; eauto).
      rewrite (@bin_id_highest e0 e1 e2 e3 e4 _ Eb L0 L1 L2 L3 D). reflexivity.
Qed.

(** Five customers last seen on days 1 to 5, scored on day 10: the one
    seen on day 1 (recency 9) against the one seen on day 2 (recency 8). *)
Lemma recency_score_direction_witness :
  exists sa sb,
    Recency_Score (nth 1 five_customers_rfm no_record) = Some sa
    /\ Recency_Score (nth 0 five_customers_rfm no_record) = Some sb
    /\ (1 <= sb <= sa)%Z /\ (sa <= 4)%Z
    /\ ((forall r, In r five_customers_rfm ->
                   (Recency (nth 1 five_customers_rfm no_record) <= Recency r)%Z)
        -> sa = 4%Z)
    /\ ((forall r, In r five_customers_rfm ->
                   (Recency r <= Recency (nth 0 five_customers_rfm no_record))%Z)
        -> sb = 1%Z).
Proof.
  apply (@recency_score_direction five_customers (day 10) five_customers_rfm).
  - vm_compute. reflexivity.
  - vm_compute. auto.
  - vm_compute. auto.
  - vm_compute. reflexivity.
Defined.

End RfmScoring.

(* ================================================================== *)
(** * Further properties of the filters, the tables and the loader *)
(* ================================================================== *)

(** ** The filtering prologue as a single pass *)

Section FilterPasses.

Lemma filter_filter {A : Type} (p q : A -> bool) (l : list A) :
  filter q (filter p l) = filter (fun x => p x && q x) l.
Proof.
  induction l as [|x l IH]; [reflexivity|].
  cbn [filter]. destruct (p x); cbn [filter andb]; rewrite IH; reflexivity.
Qed.

Lemma filter_same {A : Type} (p q : A -> bool) (l : list A) :
  (forall x, p x = q x) -> filter p l = filter q l.
Proof.
  intros H. induction l as [|x l IH]; [reflexivity|].
  cbn [filter]. rewrite H, IH. reflexivity.
Qed.

Lemma apply_filters_single_pass (df : DataFrame) (filters : Filters) :
  apply_filters df filters = filter (keeps filters) df.
Proof.
  unfold apply_filters, keeps.
  destruct (customers filters) as [|c cs]; destruct (materials filters) as [|m ms];
    destruct (tdvs filters) as [|t ts]; cbn [empty negb orb];
    rewrite ?filter_filter; apply filter_same; intros r;
    repeat match goal with
           | |- context [isin_Z ?a ?b] => destruct (isin_Z a b)
           | |- context [isin_str ?a ?b] => destruct (isin_str a b)
           | |- context [isin_opt ?a ?b] => destruct (isin_opt a b)
           end; reflexivity.
Qed.

Lemma apply_filters_tdv_single_pass (df : DataFrame) (filters : Filters) :
  apply_filters_tdv df filters = filter (keeps filters) df.
Proof.
  unfold apply_filters_tdv, keeps.
  destruct (customers filters) as [|c cs]; destruct (materials filters) as [|m ms];
    destruct (tdvs filters) as [|t ts]; cbn [empty negb orb];
    rewrite ?filter_filter; apply filter_same; intros r;
    repeat match goal with
           | |- context [isin_Z ?a ?b] => destruct (isin_Z a b)
           | |- context [isin_str ?a ?b] => destruct (isin_str a b)
           | |- context [isin_opt ?a ?b] => destruct (isin_opt a b)
           end; reflexivity.
Qed.

Lemma isin_Z_In (x : Z) (l : list Z) : isin_Z x l = true <-> In x l.
Proof.
  unfold isin_Z. rewrite existsb_exists. split.
  - intros [y [Hy E]]. apply Z.eqb_eq in E. subst y. exact Hy.
  - intros H. exists x. split; [exact H | apply Z.eqb_refl].
Qed.

Lemma isin_opt_In (x : option string) (l : list string) :
  isin_opt x l = true <-> exists s, x = Some s /\ In s l.
Proof.
  destruct x as [s|]; cbn.
  - rewrite isin_str_In. split; [eauto|]. intros (s' & E & H).
    injection E as ->. exact H.
  - split; [discriminate|]. intros (s & E & _). discriminate E.
Qed.

Lemma empty_or_iff {A : Type} (l : list A) (b : bool) :
  empty l || b = true <-> l = [] \/ b = true.
Proof.
  destruct l; cbn; split; auto.
  - intros [H|H]; [discriminate H | exact H].
Qed.

(** X1. The four panels filter alike although the sales-rep panel runs its
    tests in another order; a row survives exactly when its month is
    selected and, for each of the customer, product and sales-rep lists,
    the list is empty or holds the row's value. Surviving rows keep their
    order. *)
Theorem filter_orders_agree (df : DataFrame) (filters : Filters) :
  apply_filters_tdv df filters = apply_filters df filters
  /\ apply_filters df filters = filter (keeps filters) df
  /\ forall r,
       In r (apply_filters df filters) <->
       In r df
       /\ In (dt_month (Billing_Date r)) (months filters)
       /\ (customers filters = [] \/ In (Customer r) (customers filters))
       /\ (materials filters = [] \/ In (Material r) (materials filters))
       /\ (tdvs filters = []
           \/ exists rep, Ten_TDV r = Some rep /\ In rep (tdvs filters)).
Proof.
  split; [rewrite apply_filters_tdv_single_pass, apply_filters_single_pass;
          reflexivity|].
  split; [apply apply_filters_single_pass|].
  intros r. rewrite apply_filters_single_pass, filter_In. unfold keeps.
  rewrite !andb_true_iff, !empty_or_iff, isin_Z_In, !isin_str_In, isin_opt_In.
  tauto.
Qed.

Lemma filter_idempotent {A : Type} (p : A -> bool) (l : list A) :
  filter p (filter p l) = filter p l.
Proof.
  rewrite filter_filter. apply filter_same. intros x. apply andb_diag.
Qed.

Lemma filter_weaker {A : Type} (p q : A -> bool) (l : list A) :
  (forall x, p x = true -> q x = true) -> filter q (filter p l) = filter p l.
Proof.
  intros H. rewrite filter_filter. apply filter_same. intros x.
  destruct (p x) eqn:E; [rewrite (H x E)|]; reflexivity.
Qed.

(** X2. Filtering is idempotent, and the second customer (or product)
    test that the customer (or product) panel runs before drawing its
    chart leaves the already filtered rows as they are. *)
Theorem refiltering_changes_nothing (df : DataFrame) (filters : Filters) :
  apply_filters (apply_filters df filters) filters = apply_filters df filters
  /\ (customers filters <> [] ->
      filter (fun r => isin_str (Customer r) (customers filters))
             (apply_filters df filters)
      = apply_filters df filters)
  /\ (materials filters <> [] ->
      filter (fun r => isin_str (Material r) (materials filters))
             (apply_filters df filters)
      = apply_filters df filters).
Proof.
  rewrite !apply_filters_single_pass. split; [apply filter_idempotent|].
  split; intros N; apply filter_weaker; intros r; unfold keeps;
    rewrite !andb_true_iff.
  - destruct (customers filters); [congruence|]. cbn [empty orb]. tauto.
  - destruct (materials filters); [congruence|]. cbn [empty orb]. tauto.
Qed.

(** The customer test repeated on one filtered line. *)
Lemma refiltering_changes_nothing_witness :
  filter (fun r => isin_str (Customer r) ["A"%string])
         (apply_filters [sale 19737 "A" "a" "M" 5; sale 19737 "B" "b" "M" 7]
                        (make_filters [] ["A"%string] [] []))
  = apply_filters [sale 19737 "A" "a" "M" 5; sale 19737 "B" "b" "M" 7]
                  (make_filters [] ["A"%string] [] []).
Proof.
  apply (proj1 (proj2 (refiltering_changes_nothing
           [sale 19737 "A" "a" "M" 5; sale 19737 "B" "b" "M" 7]
           (make_filters [] ["A"%string] [] [])))).
  discriminate.
Defined.

(** X3. A dictionary with an empty month list filters every row away, in
    every panel, whatever its other lists hold, and the overview panel
    then shows the no-data warning only; the dictionary built by the
    sidebar code never has an empty month list. *)
Theorem empty_month_list_keeps_nothing (df_prev df_curr : DataFrame)
        (filters : Filters) :
  (months filters = [] ->
   apply_filters df_curr filters = []
   /\ apply_filters_tdv df_curr filters = []
   /\ plot_overview df_prev df_curr filters = [Warning no_data_text])
  /\ forall selected_months selected_customers selected_materials selected_tdvs,
       months (make_filters selected_months selected_customers
                            selected_materials selected_tdvs) <> [].
Proof.
  split.
  - intros M.
    assert (E : forall df, apply_filters df filters = []).
    { intros df. rewrite apply_filters_single_pass. unfold keeps. rewrite M.
      induction df as [|r df IH]; [reflexivity | exact IH]. }
    split; [apply E|]. split.
    + rewrite apply_filters_tdv_single_pass, <- apply_filters_single_pass.
      apply E.
    + unfold plot_overview. rewrite !E. reflexivity.
  - intros [|m ms] sc sm st; cbn; discriminate.
Qed.

(** January lines against a dictionary without months. *)
Lemma empty_month_list_keeps_nothing_witness :
  plot_overview [sale 19737 "A" "a" "M" 5] [sale 19742 "A" "a" "M" 7]
                (mkFilters [] [] [] [])
  = [Warning no_data_text].
Proof.
  apply (proj1 (empty_month_list_keeps_nothing
                  [sale 19737 "A" "a" "M" 5] [sale 19742 "A" "a" "M" 7]
                  (mkFilters [] [] [] [])) eq_refl).
Defined.

End FilterPasses.

(** ** Growth cells, totals and the order count of the overview *)

Section OverviewFigures.

Variable key : Transaction -> string.
Variable label : Transaction -> option string.

(** X4. The growth cell of a data row, in the three cases of its two
    amounts: the percentage change when the previous amount is not 0; 0
    when the previous amount is 0 and the current one is not; a blank when
    both are 0. *)
Theorem data_row_growth_cases
        (prev_filtered curr_filtered : DataFrame) (row : TableRow) :
  In row (data_rows (sales_table key label prev_filtered curr_filtered)) ->
  (~ amount_prev row == 0 ->
   growth_pct row
   = Num (Fin ((amount_curr row - amount_prev row) / amount_prev row * 100)))
  /\ (amount_prev row == 0 -> ~ amount_curr row == 0 ->
      growth_pct row = Num (Fin 0))
  /\ (amount_prev row == 0 -> amount_curr row == 0 ->
      growth_pct row = Text EmptyString).
Proof.
  intros Hrow. rewrite (data_row_growth key label _ _ _ Hrow).
  split; [|split].
  - intros N. rewrite (column_growth_nonzero_prev _ N). reflexivity.
  - intros Z N. rewrite (column_growth_zero_prev _ Z).
    destruct (Qeq_bool (amount_curr row) 0) eqn:E; [|reflexivity].
    elim N. apply Qeq_bool_eq, E.
  - intros Z C. rewrite (column_growth_zero_prev _ Z), (Qeq_eq_bool _ _ C).
    reflexivity.
Qed.

Lemma guarded_growth_proper (p p' c c' : Q) :
  p == p' -> c == c' -> guarded_growth p c == guarded_growth p' c'.
Proof.
  intros Ep Ec. unfold guarded_growth, truthy.
  assert (B : Qeq_bool p 0 = Qeq_bool p' 0)
    by (apply Qeqb_comp; [exact Ep | reflexivity]).
  rewrite B. destruct (Qeq_bool p' 0); cbn [negb]; [reflexivity|].
  rewrite Ep, Ec. reflexivity.
Qed.

End OverviewFigures.

(** A new customer: no previous line, one current line of amount 7. *)
Lemma data_row_growth_cases_witness :
  growth_pct {| entity := "B"; label_prev := Num (Fin 0); amount_prev := 0;
                label_curr := Text "b"; amount_curr := 7;
                growth_pct := Num (Fin 0) |}
  = Num (Fin 0).
Proof.
  refine (proj1 (proj2 (data_row_growth_cases Customer Name
            [sale 100 "A" "a" "M" 5] [sale 200 "B" "b" "M" 7] _ _)) _ _).
  - vm_compute. right. left. reflexivity.
  - reflexivity.
  - discriminate.
Defined.

(** X5. For whole amounts, which floats add without rounding, what the
    overview panel computes is consistent: the totals rows of the customer
    table and of the product table both carry the period totals of the
    filtered datasets, that is the headline revenue, and their growth
    cells equal the headline growth. *)
Theorem overview_totals_agree (prev_filtered curr_filtered : DataFrame) :
  whole_amounts prev_filtered -> whole_amounts curr_filtered ->
  amount_prev (totals (customer_table prev_filtered curr_filtered))
  == total_amount prev_filtered
  /\ amount_curr (totals (customer_table prev_filtered curr_filtered))
     == total_amount curr_filtered
  /\ amount_prev (totals (product_table prev_filtered curr_filtered))
     == total_amount prev_filtered
  /\ amount_curr (totals (product_table prev_filtered curr_filtered))
     == total_amount curr_filtered
  /\ (exists g,
        growth_pct (totals (customer_table prev_filtered curr_filtered))
        = Num (Fin g)
        /\ g == headline_growth prev_filtered curr_filtered)
  /\ (exists g,
        growth_pct (totals (product_table prev_filtered curr_filtered))
        = Num (Fin g)
        /\ g == headline_growth prev_filtered curr_filtered).
Proof.
  intros _ _.
  destruct (totals_row_matches_datasets Customer Name prev_filtered
                                        curr_filtered) as [Cp Cc].
  destruct (totals_row_matches_datasets Material Item_Description
                                        prev_filtered curr_filtered) as [Pp Pc].
  repeat split; try assumption.
  - unfold customer_table in *.
    rewrite (proj2 (sales_table_split Customer Name _ _)) in *.
    eexists. split; [reflexivity|].
    apply guarded_growth_proper; assumption.
  - unfold product_table in *.
    rewrite (proj2 (sales_table_split Material Item_Description _ _)) in *.
    eexists. split; [reflexivity|].
    apply guarded_growth_proper; assumption.
Qed.

Lemma overview_totals_agree_witness :
  amount_prev (totals (customer_table year_before year_after))
  == total_amount year_before
  /\ amount_curr (totals (product_table year_before year_after))
     == total_amount year_after.
Proof.
  destruct (@overview_totals_agree year_before year_after
              ltac:(whole_amounts_by_evaluation)
              ltac:(whole_amounts_by_evaluation))
    as (Cp & _ & _ & Pc & _).
  split; [exact Cp | exact Pc].
Defined.

Section OrderCount.

Lemma nodup_length_le {A : Type} (dec : forall a b : A, {a = b} + {a <> b})
      (l : list A) :
  (List.length (nodup dec l) <= List.length l)%nat.
Proof.
  induction l as [|x l IH]; cbn; [lia|].
  destruct (in_dec dec x l); cbn; lia.
Qed.

Lemma nodup_projection_le {A B : Type}
      (decA : forall a b : A, {a = b} + {a <> b})
      (decB : forall a b : B, {a = b} + {a <> b})
      (f : A -> B) (l : list A) :
  (List.length (nodup decB (map f l)) <= List.length (nodup decA l))%nat.
Proof.
  rewrite <- (length_map f (nodup decA l)).
  apply NoDup_incl_length; [apply NoDup_nodup|].
  intros b Hb. apply nodup_In, in_map_iff in Hb as (a & <- & Ha).
  apply in_map, nodup_In, Ha.
Qed.

(** X6. The order count of a dataset lies between its number of distinct
    customers and its number of lines, and a further line of a customer on
    a day that customer already has a line adds no order. *)
Theorem order_count_bounds (df : DataFrame) :
  (List.length (nodup string_dec (map Customer df)) <= num_orders df)%nat
  /\ (num_orders df <= List.length df)%nat
  /\ forall r r',
       In r' df -> Customer r' = Customer r ->
       dt_date (Billing_Date r') = dt_date (Billing_Date r) ->
       num_orders (r :: df) = num_orders df.
Proof.
  unfold num_orders. split; [|split].
  - destruct df as [|r0 df]; [cbn; lia|]. cbn [empty negb].
    rewrite <- (map_map (fun r => (Customer r, dt_date (Billing_Date r))) fst).
    apply nodup_projection_le.
  - destruct df as [|r0 df]; [cbn; lia|]. cbn [empty negb].
    rewrite <- (length_map (fun r => (Customer r, dt_date (Billing_Date r)))
                           (r0 :: df)).
    apply nodup_length_le.
  - intros r r' Hin Ec Ed. destruct df as [|r0 df]; [contradiction|].
    cbn [empty negb]. cbn [map nodup].
    destruct (in_dec order_dec _ _) as [_|N]; [reflexivity|].
    elim N. rewrite <- Ec, <- Ed.
    apply (in_map (fun x => (Customer x, dt_date (Billing_Date x)))) in Hin.
    exact Hin.
Qed.

End OrderCount.

(** A second line of customer ["A"] on day 100. *)
Lemma order_count_bounds_witness :
  num_orders [sale 100 "A" "a" "N" 3; sale 100 "A" "a" "M" 5]
  = num_orders [sale 100 "A" "a" "M" 5].
Proof.
  apply (proj2 (proj2 (order_count_bounds [sale 100 "A" "a" "M" 5]))
           (sale 100 "A" "a" "N" 3) (sale 100 "A" "a" "M" 5));
    [left; reflexivity | reflexivity | reflexivity].
Defined.

(** ** The loader on a table that passes the schema check *)

Section LoaderRows.

Variable Cell : Type.
Variable to_datetime : Cell -> option Timestamp.
Variable to_numeric : Cell -> option Q.
Variable astype_str : Cell -> string.
Variable text_of : Cell -> option string.
Variable round2 : Q -> Q.

Abbreviation load_rows :=
  (load_and_validate_data to_datetime to_numeric astype_str text_of round2).
Abbreviation ok_date := (date_ok to_datetime).
Abbreviation ok_numeric := (numeric_ok to_numeric).

Lemma clean_row_numeric_ok (r : string -> Cell) (d : Timestamp) :
  (exists t, clean_row to_numeric astype_str text_of round2 r d = Some t
             /\ ok_numeric r = true)
  \/ (clean_row to_numeric astype_str text_of round2 r d = None
      /\ ok_numeric r = false).
Proof.
  unfold clean_row, numeric_ok.
  destruct (to_numeric (r "Số Lượng"%string));
    destruct (to_numeric (r "Đơn Giá"%string));
    destruct (to_numeric (r "DS Ðã Trừ CK"%string)); eauto.
Qed.

(** The bookkeeping of the loader on a list of indexed rows. *)
Lemma indexed_rows_shape (il : list (nat * (string -> Cell))) :
  let dated := map (fun ir => (fst ir, snd ir,
                               to_datetime (snd ir "Billing Date"%string))) il in
  let kept := flat_map (fun x => match snd x with
                                 | Some d => [(fst (fst x), snd (fst x), d)]
                                 | None => []
                                 end) dated in
  map (fun x => fst (fst x))
      (filter (fun x => match snd x with None => true | Some _ => false end)
              dated)
  = map fst (filter (fun ir => negb (ok_date (snd ir))) il)
  /\ map (fun x => fst (fst x))
         (filter (fun x => negb (ok_numeric (snd (fst x)))) kept)
     = map fst (filter (fun ir => ok_date (snd ir)
                                  && negb (ok_numeric (snd ir))) il)
  /\ flat_map (fun x => match clean_row to_numeric astype_str text_of round2
                                        (snd (fst x)) (snd x) with
                        | Some t => [t]
                        | None => []
                        end) kept
     = flat_map (cleaned to_datetime to_numeric astype_str text_of round2)
                (map snd il).
Proof.
  cbv zeta. induction il as [|[i r] il (IH1 & IH2 & IH3)];
    [repeat split|].
  cbn [map filter flat_map fst snd]. unfold date_ok, cleaned at 1.
  destruct (to_datetime (r "Billing Date"%string)) as [d|];
    cbn [negb andb map filter flat_map app fst snd].
  - destruct (clean_row_numeric_ok r d) as [(t & Ec & En)|(Ec & En)];
      rewrite Ec, En; cbn [negb map app];
      rewrite IH1, IH2, IH3; repeat split.
  - rewrite IH1, IH2, IH3. repeat split.
Qed.

Lemma combine_seq_rows {A : Type} (rows : list A) (s : nat) :
  map snd (combine (seq s (List.length rows)) rows) = rows.
Proof.
  revert s. induction rows as [|r rows IH]; intros s; [reflexivity|].
  cbn. rewrite IH. reflexivity.
Qed.

(** The loader on a table with every required column: the dataset is the
    cleaned rows in source order, and the messages are the two optional
    warnings with the positions of the rows they drop. *)
Lemma load_schema_ok (raw : RawTable Cell) (year_label : string) :
  (forall c, In c required_columns -> In c (columns raw)) ->
  load_rows (inr raw) year_label
  = (date_warning year_label
       (positions_where (fun r => negb (ok_date r)) (rows raw))
     ++ numeric_warning year_label
          (positions_where (fun r => ok_date r && negb (ok_numeric r))
                           (rows raw)),
     Some (flat_map (cleaned to_datetime to_numeric astype_str text_of round2)
                    (rows raw))).
Proof.
  intros Hall. unfold load_and_validate_data.
  assert (M : missing_columns raw = []).
  { destruct (missing_columns raw) as [|m ms] eqn:E; [reflexivity|].
    assert (Hm : In m (missing_columns raw)) by (rewrite E; left; reflexivity).
    apply missing_columns_spec in Hm as [Hr Hn]. elim Hn. apply Hall, Hr. }
  rewrite M. cbn [empty negb].
  destruct (indexed_rows_shape
              (combine (seq 0 (List.length (rows raw))) (rows raw)))
    as (S1 & S2 & S3).
  unfold with_dates, date_warning, numeric_warning, positions_where.
  rewrite <- S1, <- S2, S3, combine_seq_rows, !length_map.
  f_equal. f_equal.
  - destruct (filter _ (map _ (combine _ _))); reflexivity.
  - match goal with
    | |- (if negb (empty ?l) then _ else _) = _ => destruct l
    end; reflexivity.
Qed.

Lemma dropped_count_app (a b : list event) :
  dropped_count (a ++ b) = (dropped_count a + dropped_count b)%nat.
Proof.
  unfold dropped_count.
  induction a as [|e a IH]; cbn [app fold_right]; [reflexivity|].
  rewrite IH. destruct e as [m|m|m]; try reflexivity.
  destruct m; lia.
Qed.

Lemma dropped_count_date_warning (year_label : string) (ps : list nat) :
  dropped_count (date_warning year_label ps) = List.length ps.
Proof. destruct ps; cbn; [reflexivity | lia]. Qed.

Lemma dropped_count_numeric_warning (year_label : string) (ps : list nat) :
  dropped_count (numeric_warning year_label ps) = List.length ps.
Proof. destruct ps; cbn; [reflexivity | lia]. Qed.

Lemma row_outcomes (il : list (nat * (string -> Cell))) :
  (List.length (flat_map (cleaned to_datetime to_numeric astype_str text_of round2)
                         (map snd il))
   + List.length (filter (fun ir => negb (ok_date (snd ir))) il)
   + List.length (filter (fun ir => ok_date (snd ir)
                                    && negb (ok_numeric (snd ir))) il)
   = List.length il)%nat.
Proof.
  induction il as [|[i r] il IH]; [reflexivity|].
  cbn [map flat_map filter fst snd]. rewrite length_app.
  unfold cleaned at 1. unfold date_ok in *.
  destruct (to_datetime (r "Billing Date"%string)) as [d|];
    cbn [negb andb List.length].
  - destruct (clean_row_numeric_ok r d) as [(t & Ec & En)|(Ec & En)];
      rewrite Ec, En; cbn [negb List.length]; lia.
  - lia.
Qed.

(** X7. Row-drop conservation: when the table has every required column,
    each input row is either kept or counted in exactly one of the two
    warnings, so the rows kept plus the counts the warnings report add up
    to the rows read. *)
Theorem load_conserves_rows (raw : RawTable Cell) (year_label : string) :
  (forall c, In c required_columns -> In c (columns raw)) ->
  exists events df,
    load_rows (inr raw) year_label = (events, Some df)
    /\ (List.length df + dropped_count events = List.length (rows raw))%nat.
Proof.
  intros Hall. rewrite (load_schema_ok raw year_label Hall).
  eexists. eexists. split; [reflexivity|].
  rewrite dropped_count_app, dropped_count_date_warning,
    dropped_count_numeric_warning.
  unfold positions_where. rewrite !length_map.
  pose proof (row_outcomes (combine (seq 0 (List.length (rows raw)))
                                    (rows raw))) as R.
  rewrite combine_seq_rows, length_combine, length_seq, Nat.min_id in R. lia.
Qed.

Lemma clean_row_fields (r : string -> Cell) (d : Timestamp) (t : Transaction) :
  clean_row to_numeric astype_str text_of round2 r d = Some t ->
  Billing_Date t = d
  /\ Customer t = normalize_id (astype_str (r "Customer"%string))
  /\ Material t = normalize_id (astype_str (r "Material"%string))
  /\ exists amount, to_numeric (r "DS Ðã Trừ CK"%string) = Some amount
                    /\ DS_Da_Tru_CK t = round2 amount.
Proof.
  unfold clean_row.
  destruct (to_numeric (r "Số Lượng"%string));
    destruct (to_numeric (r "Đơn Giá"%string));
    destruct (to_numeric (r "DS Ðã Trừ CK"%string)); try discriminate.
  intros E. injection E as <-. cbn. repeat split. eauto.
Qed.

Lemma filter_all_in {A : Type} (p : A -> bool) (l : list A) :
  (forall x, In x l -> p x = true) -> filter p l = l.
Proof.
  induction l as [|x l IH]; intros H; [reflexivity|].
  cbn [filter]. rewrite (H x (or_introl eq_refl)), IH; [reflexivity|].
  intros y Hy. apply H. right. exact Hy.
Qed.

Lemma cleaned_customers (rows : list (string -> Cell)) :
  map Customer (flat_map (cleaned to_datetime to_numeric astype_str text_of round2)
                         rows)
  = map (fun r => normalize_id (astype_str (r "Customer"%string)))
        (filter (fun r => ok_date r && ok_numeric r) rows).
Proof.
  induction rows as [|r rows IH]; [reflexivity|].
  cbn [flat_map filter]. rewrite map_app, IH. unfold cleaned at 1, date_ok.
  destruct (to_datetime (r "Billing Date"%string)) as [d|]; [|reflexivity].
  destruct (clean_row_numeric_ok r d) as [(t & Ec & En)|(Ec & En)];
    rewrite Ec, En; [|reflexivity].
  apply clean_row_fields in Ec as (_ & Ecust & _).
  cbn [map app andb]. rewrite Ecust. reflexivity.
Qed.

Lemma positions_where_none (p : (string -> Cell) -> bool)
      (rows : list (string -> Cell)) :
  (forall r, In r rows -> p r = false) -> positions_where p rows = [].
Proof.
  intros H. unfold positions_where.
  set (il := combine (seq 0 (List.length rows)) rows).
  assert (Hil : forall ir, In ir il -> p (snd ir) = false).
  { intros [i r] Hir. apply in_combine_r in Hir. apply H, Hir. }
  clearbody il. induction il as [|ir il IH]; [reflexivity|].
  cbn [filter]. rewrite (Hil ir (or_introl eq_refl)).
  apply IH. intros x Hx. apply Hil. right. exact Hx.
Qed.

(** X8. When the table has every required column, the loaded dataset is
    the rows whose date and three numbers are readable, cleaned, in source
    order; its customer column holds the normalized identifiers of exactly
    those rows. A table whose rows are all readable is loaded whole and
    without any message. *)
Theorem load_keeps_readable_rows_in_order
        (raw : RawTable Cell) (year_label : string) :
  (forall c, In c required_columns -> In c (columns raw)) ->
  exists events df,
    load_rows (inr raw) year_label = (events, Some df)
    /\ df = flat_map (cleaned to_datetime to_numeric astype_str text_of round2)
                     (rows raw)
    /\ map Customer df
       = map (fun r => normalize_id (astype_str (r "Customer"%string)))
             (filter (fun r => ok_date r && ok_numeric r) (rows raw))
    /\ ((forall r, In r (rows raw) -> ok_date r = true /\ ok_numeric r = true) ->
        events = [] /\ List.length df = List.length (rows raw)).
Proof.
  intros Hall. rewrite (load_schema_ok raw year_label Hall).
  eexists. eexists. split; [reflexivity|]. split; [reflexivity|].
  split; [apply cleaned_customers|].
  intros Hok. split.
  - rewrite !positions_where_none; [reflexivity| |];
      intros r Hr; destruct (Hok r Hr) as [Hd Hn]; rewrite ?Hd, ?Hn;
      reflexivity.
  - rewrite <- (length_map Customer), cleaned_customers, length_map.
    f_equal. apply filter_all_in. intros r Hr.
    destruct (Hok r Hr) as [-> ->]. reflexivity.
Qed.

End LoaderRows.

(** ** The loader's warnings and amounts *)

Section LoaderReports.

Variable Cell : Type.
Variable to_datetime : Cell -> option Timestamp.
Variable to_numeric : Cell -> option Q.
Variable astype_str : Cell -> string.
Variable text_of : Cell -> option string.
Variable round2 : Q -> Q.

Abbreviation load_table :=
  (load_and_validate_data to_datetime to_numeric astype_str text_of round2).
Abbreviation readable_date := (date_ok to_datetime).
Abbreviation readable_numbers := (numeric_ok to_numeric).

Lemma positions_from_In (p : (string -> Cell) -> bool)
      (rows : list (string -> Cell)) (s i : nat) :
  In i (map fst (filter (fun ir => p (snd ir))
                        (combine (seq s (List.length rows)) rows)))
  <-> (s <= i)%nat
      /\ exists r, nth_error rows (i - s) = Some r /\ p r = true.
Proof.
  revert s. induction rows as [|r0 rows IH]; intros s.
  - cbn. split; [contradiction|]. intros (_ & r & E & _).
    destruct (i - s)%nat; discriminate E.
  - cbn [List.length seq combine filter snd].
    split.
    + intros H.
      assert (C : (i = s /\ p r0 = true)
                  \/ In i (map fst (filter (fun ir => p (snd ir))
                                       (combine (seq (S s) (List.length rows))
                                                rows)))).
      { destruct (p r0); [|right; exact H].
        destruct H as [E|H]; [left; cbn in E; auto | right; exact H]. }
      destruct C as [[-> P]|C].
      * split; [lia|]. exists r0. rewrite Nat.sub_diag. auto.
      * apply IH in C as (L & r & E & P). split; [lia|]. exists r.
        replace (i - s)%nat with (S (i - S s)) by lia. auto.
    + intros (L & r & E & P).
      destruct (Nat.eq_dec i s) as [->|N].
      * rewrite Nat.sub_diag in E. cbn in E. injection E as ->.
        rewrite P. left. reflexivity.
      * replace (i - s)%nat with (S (i - S s)) in E by lia. cbn in E.
        assert (C : In i (map fst (filter (fun ir => p (snd ir))
                                      (combine (seq (S s) (List.length rows))
                                               rows))))
          by (apply IH; split; [lia | eauto]).
        destruct (p r0); [right; exact C | exact C].
Qed.

Lemma positions_where_In (p : (string -> Cell) -> bool)
      (rows : list (string -> Cell)) (i : nat) :
  In i (positions_where p rows)
  <-> exists r, nth_error rows i = Some r /\ p r = true.
Proof.
  unfold positions_where. rewrite positions_from_In, Nat.sub_0_r.
  split; [intros [_ H]; exact H | intros H; split; [lia | exact H]].
Qed.

(** X9. When the table has every required column, the date warning lists
    exactly the positions of the rows whose date is unreadable, and the
    numeric warning exactly the positions of the rows with a readable date
    and an unreadable number; a row that fails both tests is reported once,
    by the date warning. Each warning is emitted only for a non-empty list
    and carries its length as the count. *)
Theorem warnings_list_dropped_positions
        (raw : RawTable Cell) (year_label : string) :
  (forall c, In c required_columns -> In c (columns raw)) ->
  exists date_positions numeric_positions,
    fst (load_table (inr raw) year_label)
    = date_warning year_label date_positions
      ++ numeric_warning year_label numeric_positions
    /\ (forall i, In i date_positions <->
                  exists r, nth_error (rows raw) i = Some r
                            /\ readable_date r = false)
    /\ (forall i, In i numeric_positions <->
                  exists r, nth_error (rows raw) i = Some r
                            /\ readable_date r = true
                            /\ readable_numbers r = false)
    /\ (forall i, In i date_positions -> ~ In i numeric_positions).
Proof.
  intros Hall.
  rewrite (load_schema_ok to_datetime to_numeric astype_str text_of round2
                          raw year_label Hall).
  cbn [fst]. eexists. eexists. split; [reflexivity|].
  assert (D : forall i,
             In i (positions_where (fun r => negb (readable_date r)) (rows raw))
             <-> exists r, nth_error (rows raw) i = Some r
                           /\ readable_date r = false).
  { intros i. rewrite positions_where_In.
    split; intros (r & E & P); exists r; (split; [exact E|]).
    - apply negb_true_iff, P.
    - apply negb_true_iff, P. }
  assert (N : forall i,
             In i (positions_where
                     (fun r => readable_date r && negb (readable_numbers r))
                     (rows raw))
             <-> exists r, nth_error (rows raw) i = Some r
                           /\ readable_date r = true
                           /\ readable_numbers r = false).
  { intros i. rewrite positions_where_In.
    split.
    - intros (r & E & P). apply andb_true_iff in P as [P1 P2].
      apply negb_true_iff in P2. eauto.
    - intros (r & E & P1 & P2). exists r. rewrite P1, P2. auto. }
  split; [exact D|]. split; [exact N|].
  intros i Hd Hn. apply D in Hd as (r & E & P). apply N in Hn as (r' & E' & P' & _).
  congruence.
Qed.

End LoaderReports.

(** The three-row sheet: one row kept, one dropped by each warning. *)
Lemma load_conserves_rows_witness :
  exists events df,
    sample_load = (events, Some df)
    /\ (List.length df + dropped_count events
        = List.length (rows sample_table))%nat.
Proof.
  apply (load_conserves_rows sample_to_datetime sample_to_numeric
                             (fun c => c) (fun c => Some c) (fun q => q)
                             sample_table "Năm Nay").
  intros c Hc. exact Hc.
Defined.

Lemma load_keeps_readable_rows_in_order_witness :
  exists events df,
    sample_load = (events, Some df)
    /\ df = flat_map (cleaned sample_to_datetime sample_to_numeric
                              (fun c => c) (fun c => Some c) (fun q => q))
                     (rows sample_table)
    /\ map Customer df
       = map (fun r => normalize_id (r "Customer"%string))
             (filter (fun r => date_ok sample_to_datetime r
                               && numeric_ok sample_to_numeric r)
                     (rows sample_table))
    /\ ((forall r, In r (rows sample_table) ->
                   date_ok sample_to_datetime r = true
                   /\ numeric_ok sample_to_numeric r = true) ->
        events = [] /\ List.length df = List.length (rows sample_table)).
Proof.
  apply (load_keeps_readable_rows_in_order sample_to_datetime sample_to_numeric
           (fun c => c) (fun c => Some c) (fun q => q) sample_table "Năm Nay").
  intros c Hc. exact Hc.
Defined.

Lemma warnings_list_dropped_positions_witness :
  exists date_positions numeric_positions,
    fst sample_load
    = date_warning "Năm Nay" date_positions
      ++ numeric_warning "Năm Nay" numeric_positions
    /\ (forall i, In i date_positions <->
                  exists r, nth_error (rows sample_table) i = Some r
                            /\ date_ok sample_to_datetime r = false)
    /\ (forall i, In i numeric_positions <->
                  exists r, nth_error (rows sample_table) i = Some r
                            /\ date_ok sample_to_datetime r = true
                            /\ numeric_ok sample_to_numeric r = false)
    /\ (forall i, In i date_positions -> ~ In i numeric_positions).
Proof.
  apply (warnings_list_dropped_positions sample_to_datetime sample_to_numeric
           (fun c => c) (fun c => Some c) (fun q => q) sample_table "Năm Nay").
  intros c Hc. exact Hc.
Defined.

(** ** What identifier normalization can change *)

Section NormalizationShape.
Local Open Scope string_scope.

Lemma zeros_to_end_length (s r : string) :
  zeros_to_end s = Some r -> (String.length r <= String.length s)%nat.
Proof.
  induction s as [|c rest IH]; cbn [zeros_to_end]; intros H.
  - injection H as <-. lia.
  - destruct (is_char c "0"); [specialize (IH H); cbn; lia|].
    destruct (is_char c newline && String.eqb rest EmptyString);
      [|discriminate H].
    injection H as <-. lia.
Qed.

(** X11. Identifier normalization changes a string only by removing a
    final dot followed by one or more zeros, before the end of the string
    or before a final newline; every other string is returned as it is.
    The result is never longer than the input. *)
Theorem normalize_id_only_strips_tail (s : string) :
  (normalize_id s = s
   \/ (exists p k, s = p ++ String "." (zeros (S k)) /\ normalize_id s = p)
   \/ (exists p k,
         s = p ++ String "." (zeros (S k)) ++ String newline EmptyString
         /\ normalize_id s = p ++ String newline EmptyString))
  /\ (String.length (normalize_id s) <= String.length s)%nat.
Proof.
  induction s as [|c rest [IH IHl]]; [split; [left; reflexivity | cbn; lia]|].
  cbn [normalize_id].
  destruct (match_here (String c rest)) as [r|] eqn:M.
  - split.
    + destruct (match_here_shape _ M) as [(k & E & ->)|(k & E & ->)];
        rewrite E; right; [left | right]; exists EmptyString, k; auto.
    + destruct rest as [|d rest]; [discriminate M|]. cbn [match_here] in M.
      destruct (is_char c "." && is_char d "0"); [|discriminate M].
      apply zeros_to_end_length in M. cbn [String.length]. lia.
  - split; [|cbn [String.length]; lia].
    destruct IH as [E|[(p & k & E & N)|(p & k & E & N)]].
    + left. rewrite E. reflexivity.
    + right. left. exists (String c p), k. rewrite N, E at 1. auto.
    + right. right. exists (String c p), k. rewrite N, E at 1. auto.
Qed.

End NormalizationShape.

(** ** The frame returned by the RFM scorer *)

Section ScoredFrame.

Lemma assemble_map (f1 f2 f3 : RfmGroup -> option Z) (gs : list RfmGroup) :
  assemble gs (map f1 gs) (map f2 gs) (map f3 gs)
  = map (fun g => scored g (f1 g) (f2 g) (f3 g)) gs.
Proof.
  induction gs as [|g gs IH]; [reflexivity|].
  cbn [map assemble]. rewrite IH. reflexivity.
Qed.

Lemma score_column_as_map (col : list Q) (labels : list Z)
      (rs : list (option Z)) :
  List.length labels = 4%nat ->
  score_column col labels = inr rs ->
  rs = map (score_of col labels) col
  /\ ((nunique col <= 1)%nat
      \/ List.length (unique (quantile_edges col)) = 5%nat).
Proof.
  intros L. unfold score_column, score_of.
  destruct (Nat.leb_spec (nunique col) 1) as [N|N]; intros E.
  - injection E as <-. auto.
  - apply qcut4_success in E as [-> U]; auto.
Qed.

(** A returned frame is the grouped frame with the three scores of each
    group beside it. *)
Lemma calculate_rfm_shape (df : DataFrame) (latest_date : Timestamp)
      (rfm : list RfmRecord) :
  snd (calculate_rfm df latest_date) = Some rfm ->
  df <> []
  /\ rfm = map (fun g =>
                  scored g
                    (score_of (recency_column (rfm_groups df latest_date))
                              recency_labels (inject_Z (rg_Recency g)))
                    (score_of (frequency_column (rfm_groups df latest_date))
                              direct_labels (inject_Z (rg_Frequency g)))
                    (score_of (monetary_column (rfm_groups df latest_date))
                              direct_labels (rg_Monetary g)))
                (rfm_groups df latest_date)
  /\ forall col, In col (metric_columns (rfm_groups df latest_date)) ->
                 (nunique col <= 1)%nat
                 \/ List.length (unique (quantile_edges col)) = 5%nat.
Proof.
  unfold calculate_rfm. destruct df as [|r0 df]; [discriminate|].
  cbn [empty]. set (gs := rfm_groups (r0 :: df) latest_date). clearbody gs.
  destruct (score_groups gs) as [e|table] eqn:S; [discriminate|].
  cbn [snd]. intros E. injection E as ->. split; [discriminate|].
  unfold score_groups in S.
  destruct (score_column (map (fun g => inject_Z (rg_Recency g)) gs)
                         recency_labels) as [e|rs] eqn:E1; [discriminate|].
  destruct (score_column (map (fun g => inject_Z (rg_Frequency g)) gs)
                         direct_labels) as [e|fs] eqn:E2; [discriminate|].
  destruct (score_column (map rg_Monetary gs) direct_labels) as [e|ms] eqn:E3;
    [discriminate|].
  injection S as <-.
  apply score_column_as_map in E1 as [-> O1]; [|reflexivity].
  apply score_column_as_map in E2 as [-> O2]; [|reflexivity].
  apply score_column_as_map in E3 as [-> O3]; [|reflexivity].
  rewrite !map_map. split.
  - apply (assemble_map
             (fun g => score_of (recency_column gs) recency_labels
                                (inject_Z (rg_Recency g)))
             (fun g => score_of (frequency_column gs) direct_labels
                                (inject_Z (rg_Frequency g)))
             (fun g => score_of (monetary_column gs) direct_labels
                                (rg_Monetary g))).
  - intros col [<-|[<-|[<-|[]]]]; assumption.
Qed.

Lemma cut_label_direct (e0 e1 e2 e3 e4 x : Q) :
  (1 <= bin_id [e0; e1; e2; e3; e4] x <= 4)%nat ->
  cut_label [e0; e1; e2; e3; e4] direct_labels x
  = Some (Z.of_nat (bin_id [e0; e1; e2; e3; e4] x)).
Proof.
  intros R. unfold cut_label. cbn [List.length].
  set (id := bin_id [e0; e1; e2; e3; e4] x) in *. clearbody id.
  assert (C : (id = 1 \/ id = 2 \/ id = 3 \/ id = 4)%nat) by lia.
  destruct C as [-> | [-> | [-> | ->] ] ]; reflexivity.
Qed.

(** The bin of a value of the column, when the column is binned. *)
Lemma score_of_binned (col : list Q) (labels : list Z) (x : Q) :
  In x col -> (1 < nunique col)%nat ->
  exists e0 e1 e2 e3 e4,
    quantile_edges col = [e0; e1; e2; e3; e4]
    /\ e0 <= x
    /\ (1 <= bin_id [e0; e1; e2; e3; e4] x <= 4)%nat
    /\ score_of col labels x = cut_label [e0; e1; e2; e3; e4] labels x.
Proof.
  intros Hx N.
  assert (Ne : col <> []) by (intros ->; contradiction).
  destruct (@quantile_edges_facts col Ne)
    as (e0 & e1 & e2 & e3 & e4 & Ed & Enc & _).
  exists e0, e1, e2, e3, e4. destruct (Enc _ Hx) as [Lo Hi].
  split; [exact Ed|]. split; [exact Lo|].
  split; [apply bin_id_range; assumption|].
  unfold score_of. destruct (Nat.leb_spec (nunique col) 1); [lia|].
  rewrite Ed. reflexivity.
Qed.

Lemma score_of_range (col : list Q) (labels : list Z) (x : Q) :
  In x col -> labels = recency_labels \/ labels = direct_labels ->
  exists s, score_of col labels x = Some s /\ (1 <= s <= 4)%Z.
Proof.
  intros Hx Hl. destruct (Nat.leb_spec (nunique col) 1) as [N|N].
  - exists 1%Z. unfold score_of.
    destruct (Nat.leb_spec (nunique col) 1); [split; [reflexivity | lia] | lia].
  - destruct (@score_of_binned col labels x Hx N)
      as (e0 & e1 & e2 & e3 & e4 & _ & _ & R & ->).
    destruct Hl as [-> | ->].
    + rewrite (@cut_label_recency _ _ _ _ _ _ R). eexists. split; [reflexivity|lia].
    + rewrite (@cut_label_direct _ _ _ _ _ _ R). eexists. split; [reflexivity|lia].
Qed.

Lemma score_of_direct_mono (col : list Q) (x y : Q) (sx sy : Z) :
  In x col -> In y col -> x < y ->
  score_of col direct_labels x = Some sx ->
  score_of col direct_labels y = Some sy ->
  (sx <= sy)%Z.
Proof.
  intros Hx Hy Lt Sx Sy.
  assert (N : (1 < nunique col)%nat)
    by (pose proof (@nunique_two _ _ _ Hx Hy (Qlt_not_eq _ _ Lt)); lia).
  destruct (@score_of_binned col direct_labels x Hx N)
    as (e0 & e1 & e2 & e3 & e4 & Ed & Lo & Rx & Ex).
  destruct (@score_of_binned col direct_labels y Hy N)
    as (e0' & e1' & e2' & e3' & e4' & Ed' & _ & Ry & Ey).
  rewrite Ed in Ed'. injection Ed' as <- <- <- <- <-.
  rewrite Ex, (@cut_label_direct _ _ _ _ _ _ Rx) in Sx.
  rewrite Ey, (@cut_label_direct _ _ _ _ _ _ Ry) in Sy.
  assert (Vx : sx = Z.of_nat (bin_id [e0; e1; e2; e3; e4] x)) by congruence.
  assert (Vy : sy = Z.of_nat (bin_id [e0; e1; e2; e3; e4] y)) by congruence.
  pose proof (@bin_id_mono e0 [e1; e2; e3; e4] _ _ Lo Lt (proj1 Ry)). lia.
Qed.

Lemma unique_from_all_seen (seen l : list Q) :
  (forall y, In y l -> existsb (Qeq_bool y) seen = true) ->
  unique_from seen l = [].
Proof.
  induction l as [|y l IH]; intros H; [reflexivity|].
  cbn [unique_from]. rewrite (H y (or_introl eq_refl)).
  apply IH. intros z Hz. apply H. right. exact Hz.
Qed.

Lemma nunique_constant (col : list Q) :
  (forall x y, In x col -> In y col -> x == y) -> (nunique col <= 1)%nat.
Proof.
  intros H. unfold nunique, unique. destruct col as [|x col]; [cbn; lia|].
  cbn [unique_from existsb]. rewrite unique_from_all_seen; [cbn; lia|].
  intros y Hy. cbn [existsb].
  rewrite (Qeq_eq_bool _ _ (H y x (or_intror Hy) (or_introl eq_refl))).
  reflexivity.
Qed.

Lemma score_of_constant (col : list Q) (labels : list Z) (x : Q) :
  (nunique col <= 1)%nat -> score_of col labels x = Some 1%Z.
Proof.
  intros N. unfold score_of.
  destruct (Nat.leb_spec (nunique col) 1); [reflexivity | lia].
Qed.

End ScoredFrame.

(** ** Scores and segments of a returned frame *)

Section ReturnedScores.

Variable df : DataFrame.
Variable latest_date : Timestamp.
Variable rfm : list RfmRecord.
Hypothesis returned : snd (calculate_rfm df latest_date) = Some rfm.

Lemma returned_record (r : RfmRecord) :
  In r rfm ->
  exists g,
    In g (rfm_groups df latest_date)
    /\ r = scored g
             (score_of (recency_column (rfm_groups df latest_date))
                       recency_labels (inject_Z (rg_Recency g)))
             (score_of (frequency_column (rfm_groups df latest_date))
                       direct_labels (inject_Z (rg_Frequency g)))
             (score_of (monetary_column (rfm_groups df latest_date))
                       direct_labels (rg_Monetary g)).
Proof.
  destruct (calculate_rfm_shape _ _ returned) as (_ & E & _).
  intros Hr. rewrite E in Hr. apply in_map_iff in Hr as (g & <- & Hg). eauto.
Qed.

Lemma returned_values (r : RfmRecord) :
  In r rfm ->
  In (inject_Z (Recency r)) (recency_column (rfm_groups df latest_date))
  /\ In (inject_Z (Frequency r)) (frequency_column (rfm_groups df latest_date))
  /\ In (Monetary r) (monetary_column (rfm_groups df latest_date)).
Proof.
  intros Hr. destruct (@returned_record _ Hr) as (g & Hg & ->). cbn.
  repeat split.
  - apply (in_map (fun g => inject_Z (rg_Recency g))), Hg.
  - apply (in_map (fun g => inject_Z (rg_Frequency g))), Hg.
  - apply (in_map rg_Monetary), Hg.
Qed.

Lemma returned_covers_groups (g : RfmGroup) :
  In g (rfm_groups df latest_date) ->
  exists r, In r rfm /\ Recency r = rg_Recency g
            /\ Frequency r = rg_Frequency g /\ Monetary r = rg_Monetary g.
Proof.
  destruct (calculate_rfm_shape _ _ returned) as (_ & E & _).
  intros Hg. eexists. split; [rewrite E; apply in_map, Hg|].
  cbn. auto.
Qed.

Lemma returned_scores_parts (r : RfmRecord) :
  In r rfm ->
  Frequency_Score r
  = score_of (frequency_column (rfm_groups df latest_date)) direct_labels
             (inject_Z (Frequency r))
  /\ Monetary_Score r
     = score_of (monetary_column (rfm_groups df latest_date)) direct_labels
                (Monetary r).
Proof.
  intros Hr. destruct (@returned_record _ Hr) as (g & _ & ->). cbn. auto.
Qed.

(** X12. In every frame [calculate_rfm] returns, each record has its three
    scores, each between 1 and 4, and its segment code is the three score
    digits in recency, frequency, monetary order: a string of exactly
    three characters. *)
Theorem returned_scores_and_segment (r : RfmRecord) :
  In r rfm ->
  exists a b c,
    Recency_Score r = Some a /\ Frequency_Score r = Some b
    /\ Monetary_Score r = Some c
    /\ (1 <= a <= 4)%Z /\ (1 <= b <= 4)%Z /\ (1 <= c <= 4)%Z
    /\ RFM_Segment r = (digit a ++ digit b ++ digit c)%string
    /\ String.length (RFM_Segment r) = 3%nat.
Proof.
  intros Hr. destruct (@returned_values _ Hr) as (Vr & Vf & Vm).
  destruct (@returned_record _ Hr) as (g & Hg & E).
  assert (Er : Recency r = rg_Recency g) by (rewrite E; reflexivity).
  assert (Ef : Frequency r = rg_Frequency g) by (rewrite E; reflexivity).
  assert (Em : Monetary r = rg_Monetary g) by (rewrite E; reflexivity).
  rewrite Er in Vr. rewrite Ef in Vf. rewrite Em in Vm.
  destruct (@score_of_range _ recency_labels _ Vr (or_introl eq_refl))
    as (a & Sa & Ra).
  destruct (@score_of_range _ direct_labels _ Vf (or_intror eq_refl))
    as (b & Sb & Rb).
  destruct (@score_of_range _ direct_labels _ Vm (or_intror eq_refl))
    as (c & Sc & Rc).
  rewrite Sa, Sb, Sc in E. subst r. cbn.
  exists a, b, c. repeat split; try lia.
  - assert (Ca : (a = 1 \/ a = 2 \/ a = 3 \/ a = 4)%Z) by lia.
    assert (Cb : (b = 1 \/ b = 2 \/ b = 3 \/ b = 4)%Z) by lia.
    assert (Cc : (c = 1 \/ c = 2 \/ c = 3 \/ c = 4)%Z) by lia.
    destruct Ca as [-> | [-> | [-> | ->] ] ]; destruct Cb as [-> | [-> | [-> | ->] ] ];
      destruct Cc as [-> | [-> | [-> | ->] ] ]; reflexivity.
  - assert (Ca : (a = 1 \/ a = 2 \/ a = 3 \/ a = 4)%Z) by lia.
    assert (Cb : (b = 1 \/ b = 2 \/ b = 3 \/ b = 4)%Z) by lia.
    assert (Cc : (c = 1 \/ c = 2 \/ c = 3 \/ c = 4)%Z) by lia.
    destruct Ca as [-> | [-> | [-> | ->] ] ]; destruct Cb as [-> | [-> | [-> | ->] ] ];
      destruct Cc as [-> | [-> | [-> | ->] ] ]; reflexivity.
Qed.

(** X13. Frequency and monetary value are scored directly: of two records
    of a returned frame, the one with the larger monetary total has a
    monetary score at least as high, and the one with the larger frequency
    has a frequency score at least as high. *)
Theorem direct_scores_follow_values (a b : RfmRecord) :
  In a rfm -> In b rfm ->
  (Monetary a < Monetary b ->
   exists sa sb, Monetary_Score a = Some sa /\ Monetary_Score b = Some sb
                 /\ (sa <= sb)%Z)
  /\ ((Frequency a < Frequency b)%Z ->
      exists sa sb, Frequency_Score a = Some sa /\ Frequency_Score b = Some sb
                    /\ (sa <= sb)%Z).
Proof.
  intros Ha Hb.
  destruct (@returned_values _ Ha) as (_ & Fa & Ma).
  destruct (@returned_values _ Hb) as (_ & Fb & Mb).
  destruct (@returned_scores_parts _ Ha) as (Pa1 & Pa2).
  destruct (@returned_scores_parts _ Hb) as (Pb1 & Pb2).
  split; intros Lt.
  - destruct (@score_of_range _ direct_labels _ Ma (or_intror eq_refl))
      as (sa & Sa & _).
    destruct (@score_of_range _ direct_labels _ Mb (or_intror eq_refl))
      as (sb & Sb & _).
    exists sa, sb. rewrite Pa2, Pb2. repeat split; try assumption.
    apply (@score_of_direct_mono _ _ _ _ _ Ma Mb Lt Sa Sb).
  - assert (Lq : inject_Z (Frequency a) < inject_Z (Frequency b))
      by (rewrite <- Zlt_Qlt; exact Lt).
    destruct (@score_of_range _ direct_labels _ Fa (or_intror eq_refl))
      as (sa & Sa & _).
    destruct (@score_of_range _ direct_labels _ Fb (or_intror eq_refl))
      as (sb & Sb & _).
    exists sa, sb. rewrite Pa1, Pb1. repeat split; try assumption.
    apply (@score_of_direct_mono _ _ _ _ _ Fa Fb Lq Sa Sb).
Qed.

End ReturnedScores.

(** X14. A metric that has the same value for every customer is not binned:
    in a returned frame every record then has score 1 for that metric. *)
Theorem constant_metric_scores_one
        (df : DataFrame) (latest_date : Timestamp) (rfm : list RfmRecord) :
  snd (calculate_rfm df latest_date) = Some rfm ->
  ((forall a b, In a rfm -> In b rfm -> Recency a = Recency b) ->
   forall r, In r rfm -> Recency_Score r = Some 1%Z)
  /\ ((forall a b, In a rfm -> In b rfm -> Frequency a = Frequency b) ->
      forall r, In r rfm -> Frequency_Score r = Some 1%Z)
  /\ ((forall a b, In a rfm -> In b rfm -> Monetary a == Monetary b) ->
      forall r, In r rfm -> Monetary_Score r = Some 1%Z).
Proof.
  intros returned.
  repeat split; intros Same r Hr;
    destruct (@returned_record _ _ _ returned _ Hr) as (g & _ & ->); cbn;
    apply score_of_constant, nunique_constant; intros x y Hx Hy.
  - apply in_map_iff in Hx as (gx & <- & Gx).
    apply in_map_iff in Hy as (gy & <- & Gy).
    destruct (@returned_covers_groups _ _ _ returned _ Gx) as (a & Ha & Ea & _).
    destruct (@returned_covers_groups _ _ _ returned _ Gy) as (b & Hb & Eb & _).
    rewrite <- Ea, <- Eb, (Same a b Ha Hb). reflexivity.
  - apply in_map_iff in Hx as (gx & <- & Gx).
    apply in_map_iff in Hy as (gy & <- & Gy).
    destruct (@returned_covers_groups _ _ _ returned _ Gx) as (a & Ha & _ & Ea & _).
    destruct (@returned_covers_groups _ _ _ returned _ Gy) as (b & Hb & _ & Eb & _).
    rewrite <- Ea, <- Eb, (Same a b Ha Hb). reflexivity.
  - apply in_map_iff in Hx as (gx & <- & Gx).
    apply in_map_iff in Hy as (gy & <- & Gy).
    destruct (@returned_covers_groups _ _ _ returned _ Gx) as (a & Ha & _ & _ & Ea).
    destruct (@returned_covers_groups _ _ _ returned _ Gy) as (b & Hb & _ & _ & Eb).
    rewrite <- Ea, <- Eb. apply Same; assumption.
Qed.


Lemma returned_scores_and_segment_witness :
  exists a b c,
    Recency_Score (nth 0 graded_customers_rfm no_record) = Some a
    /\ Frequency_Score (nth 0 graded_customers_rfm no_record) = Some b
    /\ Monetary_Score (nth 0 graded_customers_rfm no_record) = Some c
    /\ (1 <= a <= 4)%Z /\ (1 <= b <= 4)%Z /\ (1 <= c <= 4)%Z
    /\ RFM_Segment (nth 0 graded_customers_rfm no_record)
       = (digit a ++ digit b ++ digit c)%string
    /\ String.length (RFM_Segment (nth 0 graded_customers_rfm no_record))
       = 3%nat.
Proof.
  apply (@returned_scores_and_segment graded_customers (day 10)
           graded_customers_rfm).
  - vm_compute. reflexivity.
  - vm_compute. auto.
Defined.

Lemma direct_scores_follow_values_witness :
  exists sa sb,
    Monetary_Score (nth 0 graded_customers_rfm no_record) = Some sa
    /\ Monetary_Score (nth 4 graded_customers_rfm no_record) = Some sb
    /\ (sa <= sb)%Z.
Proof.
  apply (proj1 (@direct_scores_follow_values graded_customers (day 10)
                  graded_customers_rfm eq_refl
                  (nth 0 graded_customers_rfm no_record)
                  (nth 4 graded_customers_rfm no_record)
                  (or_introl eq_refl)
                  (or_intror (or_intror (or_intror (or_intror
                     (or_introl eq_refl))))))).
  vm_compute. reflexivity.
Defined.

Lemma constant_metric_scores_one_witness :
  Frequency_Score (nth 2 graded_customers_rfm no_record) = Some 1%Z.
Proof.
  apply (proj1 (proj2 (@constant_metric_scores_one graded_customers (day 10)
                         graded_customers_rfm eq_refl))).
  - intros a b Ha Hb. vm_compute in Ha, Hb.
    repeat (destruct Ha as [<- | Ha]; [| try contradiction]);
      repeat (destruct Hb as [<- | Hb]; [| try contradiction]); reflexivity.
  - vm_compute. auto.
Defined.

(** ** When the scoring succeeds *)

Section ScoringOutcome.

(** X15. On a non-empty frame of whole amounts, whose group sums floats
    compute without rounding, [calculate_rfm] returns a table exactly when
    every metric column is constant or has five distinct quartile edges;
    it then emits no message. *)
Theorem rfm_returns_exactly_without_ties
        (df : DataFrame) (latest_date : Timestamp) :
  df <> [] -> whole_amounts df ->
  ((exists rfm, snd (calculate_rfm df latest_date) = Some rfm)
   <-> (forall col, In col (metric_columns (rfm_groups df latest_date)) ->
                    (nunique col <= 1)%nat
                    \/ List.length (unique (quantile_edges col)) = 5%nat))
  /\ (forall rfm, snd (calculate_rfm df latest_date) = Some rfm ->
                  fst (calculate_rfm df latest_date) = []).
Proof.
  intros Hdf _. split; [split|].
  - intros (rfm & E). apply (calculate_rfm_shape _ _ E).
  - intros Hall.
    destruct (rfm_succeeds_without_ties latest_date Hdf Hall) as (rfm & E).
    exists rfm. rewrite E. reflexivity.
  - intros rfm E. unfold calculate_rfm in *.
    destruct (empty df); [discriminate|].
    destruct (score_groups _); [discriminate | reflexivity].
Qed.

Lemma all_equal_NoDup_length {A : Type} (l : list A) :
  NoDup l -> (forall x y, In x l -> In y l -> x = y) ->
  (List.length l <= 1)%nat.
Proof.
  intros ND Same. destruct l as [|x [|y l]]; cbn; try lia.
  inversion ND as [|? ? Hx _]; subst. elim Hx. left.
  symmetry. apply Same; cbn; auto.
Qed.

Lemma named_rows_In (df : DataFrame) (k : string * string) (r : Transaction) :
  In (k, r) (named_rows df)
  <-> In r df /\ fst k = Customer r /\ Name r = Some (snd k).
Proof.
  unfold named_rows. rewrite in_flat_map. split.
  - intros (r' & Hr' & Hin). destruct (Name r') as [n|] eqn:En; [|contradiction].
    destruct Hin as [E|[]]. injection E as <- <-. cbn. auto.
  - intros (Hr & Ec & En). exists r. split; [exact Hr|]. rewrite En.
    left. destruct k as [c n]. cbn in *. subst. reflexivity.
Qed.

Lemma group_keys2_NoDup (l : list (string * string)) : NoDup (group_keys2 l).
Proof.
  unfold group_keys2.
  apply (Permutation_NoDup (Permutation_sym (sort_by_perm pair_leb _))).
  apply NoDup_nodup.
Qed.

Lemma group_keys2_In (l : list (string * string)) (k : string * string) :
  In k (group_keys2 l) <-> In k l.
Proof.
  unfold group_keys2. rewrite <- (nodup_In pair_dec l k). split.
  - apply Permutation_in, sort_by_perm.
  - apply Permutation_in, Permutation_sym, sort_by_perm.
Qed.

Lemma one_key_one_group (df : DataFrame) (latest_date : Timestamp) :
  (forall r r', In r df -> In r' df ->
                Customer r = Customer r' /\ Name r = Name r') ->
  (List.length (rfm_groups df latest_date) <= 1)%nat.
Proof.
  intros Same. unfold rfm_groups. rewrite length_map.
  apply all_equal_NoDup_length; [apply group_keys2_NoDup|].
  intros x y Hx Hy.
  apply (proj1 (group_keys2_In _ _)) in Hx.
  apply (proj1 (group_keys2_In _ _)) in Hy.
  apply in_map_iff in Hx as ([kx rx] & <- & Hx).
  apply in_map_iff in Hy as ([ky ry] & <- & Hy).
  apply named_rows_In in Hx as (Rx & Cx & Nx).
  apply named_rows_In in Hy as (Ry & Cy & Ny).
  destruct (Same rx ry Rx Ry) as (Ec & En). cbn [fst].
  destruct kx as [cx nx], ky as [cy ny]. cbn in *.
  assert (nx = ny) by congruence. congruence.
Qed.

(** X16. When every row of a non-empty frame carries the same customer
    code and the same name, [calculate_rfm] returns without a message a
    table of at most one record, whose segment code is 111. *)
Theorem single_customer_segment (df : DataFrame) (latest_date : Timestamp) :
  df <> [] ->
  (forall r r', In r df -> In r' df ->
                Customer r = Customer r' /\ Name r = Name r') ->
  exists rfm,
    calculate_rfm df latest_date = ([], Some rfm)
    /\ (List.length rfm <= 1)%nat
    /\ forall r, In r rfm -> RFM_Segment r = "111"%string.
Proof.
  intros Hdf Same. pose proof (@one_key_one_group df latest_date Same) as L.
  unfold calculate_rfm. destruct df as [|r0 df]; [congruence|]. cbn [empty].
  destruct (rfm_groups (r0 :: df) latest_date) as [|g [|g' gs]].
  - eexists. split; [reflexivity|]. split; [cbn; lia|]. intros r [].
  - eexists. split; [reflexivity|]. split; [cbn; lia|].
    intros r [<-|[]]. reflexivity.
  - cbn in L. lia.
Qed.

Lemma rfm_returns_exactly_without_ties_witness :
  ((exists rfm, snd (calculate_rfm graded_customers (day 10)) = Some rfm)
   <-> (forall col,
          In col (metric_columns (rfm_groups graded_customers (day 10))) ->
          (nunique col <= 1)%nat
          \/ List.length (unique (quantile_edges col)) = 5%nat))
  /\ (forall rfm, snd (calculate_rfm graded_customers (day 10)) = Some rfm ->
                  fst (calculate_rfm graded_customers (day 10)) = []).
Proof.
  apply (@rfm_returns_exactly_without_ties graded_customers (day 10)).
  - discriminate.
  - whole_amounts_by_evaluation.
Defined.

Lemma single_customer_segment_witness :
  exists rfm,
    calculate_rfm one_customer (day 10) = ([], Some rfm)
    /\ (List.length rfm <= 1)%nat
    /\ forall r, In r rfm -> RFM_Segment r = "111"%string.
Proof.
  apply (@single_customer_segment one_customer (day 10)).
  - discriminate.
  - intros r r' Hr Hr'. cbn in Hr, Hr'.
    destruct Hr as [<-|[<-|[]]]; destruct Hr' as [<-|[<-|[]]];
      split; reflexivity.
Defined.

End ScoringOutcome.

(** ** The groups behind the RFM frame *)

Section RfmGroups.

Lemma pair_eqb_spec (a b : string * string) : pair_eqb a b = true <-> a = b.
Proof.
  destruct a as [a1 a2], b as [b1 b2]. unfold pair_eqb. cbn.
  rewrite andb_true_iff, !String.eqb_eq. split.
  - intros [-> ->]. reflexivity.
  - intros E. injection E as -> ->. auto.
Qed.

Lemma pair_eqb_refl (a : string * string) : pair_eqb a a = true.
Proof. apply pair_eqb_spec. reflexivity. Qed.

Lemma sumZ_cons (x : Z) (l : list Z) : sumZ (x :: l) = (x + sumZ l)%Z.
Proof. reflexivity. Qed.

Lemma sumZ_zero {A : Type} (l : list A) :
  sumZ (map (fun _ => 0%Z) l) = 0%Z.
Proof. induction l as [|x l IH]; cbn [map]; rewrite ?sumZ_cons; [reflexivity | lia]. Qed.

Lemma sum_zero {A : Type} (l : list A) : sum (map (fun _ => 0) l) == 0.
Proof.
  induction l as [|x l IH]; cbn [map]; rewrite ?sum_cons, ?sum_nil;
    [reflexivity|]. rewrite IH. ring.
Qed.

Lemma countZ_indicator (k0 : string * string) (K : list (string * string)) :
  NoDup K -> In k0 K ->
  sumZ (map (fun k => if pair_eqb k0 k then 1%Z else 0%Z) K) = 1%Z.
Proof.
  induction K as [|k K IH]; intros ND Hin; [contradiction|].
  inversion ND as [|? ? Hk NDK]; subst. cbn [map]. rewrite sumZ_cons.
  destruct (pair_eqb k0 k) eqn:E.
  - apply pair_eqb_spec in E. subst k.
    assert (Z0 : sumZ (map (fun k => if pair_eqb k0 k then 1%Z else 0%Z) K)
                 = 0%Z).
    { clear IH ND NDK Hin. induction K as [|k K IH]; [reflexivity|].
      cbn [map]. rewrite sumZ_cons.
      destruct (pair_eqb k0 k) eqn:E.
      - apply pair_eqb_spec in E. subst k. elim Hk. left. reflexivity.
      - rewrite IH; [reflexivity|]. intros H. apply Hk. right. exact H. }
    lia.
  - destruct Hin as [->|Hin]; [rewrite pair_eqb_refl in E; discriminate|].
    rewrite (IH NDK Hin). lia.
Qed.

Lemma sum_indicator2 (k0 : string * string) (a : Q)
      (K : list (string * string)) :
  NoDup K -> In k0 K ->
  sum (map (fun k => if pair_eqb k0 k then a else 0) K) == a.
Proof.
  induction K as [|k K IH]; intros ND Hin; [contradiction|].
  inversion ND as [|? ? Hk NDK]; subst. cbn [map]. rewrite sum_cons.
  destruct (pair_eqb k0 k) eqn:E.
  - apply pair_eqb_spec in E. subst k.
    assert (Z0 : sum (map (fun k => if pair_eqb k0 k then a else 0) K) == 0).
    { clear IH ND NDK Hin. induction K as [|k K IH];
        [cbn [map]; rewrite sum_nil; reflexivity|].
      cbn [map]. rewrite sum_cons.
      destruct (pair_eqb k0 k) eqn:E.
      - apply pair_eqb_spec in E. subst k. elim Hk. left. reflexivity.
      - rewrite IH; [ring|]. intros H. apply Hk. right. exact H. }
    rewrite Z0. ring.
  - destruct Hin as [->|Hin]; [rewrite pair_eqb_refl in E; discriminate|].
    rewrite (IH NDK Hin). ring.
Qed.

Variable A : Type.
Variable amount : A -> Q.

Lemma group_counts_partition (l : list (string * string * A))
      (K : list (string * string)) :
  NoDup K -> (forall x, In x l -> In (fst x) K) ->
  sumZ (map (fun k =>
               Z.of_nat (List.length
                           (map snd (filter (fun x => pair_eqb (fst x) k) l))))
            K)
  = Z.of_nat (List.length l).
Proof.
  intros ND. induction l as [|x l IH]; intros Hall.
  - cbn [filter map List.length]. apply sumZ_zero.
  - assert (Step : forall k,
               Z.of_nat (List.length
                           (map snd (filter (fun y => pair_eqb (fst y) k)
                                            (x :: l))))
               = ((if pair_eqb (fst x) k then 1 else 0)
                  + Z.of_nat (List.length
                                (map snd (filter (fun y => pair_eqb (fst y) k)
                                                 l))))%Z).
    { intros k. cbn [filter]. destruct (pair_eqb (fst x) k);
        cbn [map List.length]; lia. }
    rewrite (map_ext _ _ Step).
    assert (Split : forall (f g : string * string -> Z) (L : list (string * string)),
               sumZ (map (fun k => (f k + g k)%Z) L)
               = (sumZ (map f L) + sumZ (map g L))%Z).
    { intros f g L. induction L as [|k L IHL]; [reflexivity|].
      cbn [map]. rewrite !sumZ_cons, IHL. lia. }
    rewrite Split, IH, countZ_indicator; auto.
    + cbn [List.length]. lia.
    + apply Hall. left. reflexivity.
    + intros y Hy. apply Hall. right. exact Hy.
Qed.

Lemma group_amounts_partition (l : list (string * string * A))
      (K : list (string * string)) :
  NoDup K -> (forall x, In x l -> In (fst x) K) ->
  sum (map (fun k =>
              sum (map amount
                       (map snd (filter (fun x => pair_eqb (fst x) k) l))))
           K)
  == sum (map amount (map snd l)).
Proof.
  intros ND. induction l as [|x l IH]; intros Hall.
  - cbn [filter map]. rewrite sum_nil. apply sum_zero.
  - rewrite (sum_map_ext
               (fun k => sum (map amount
                                  (map snd (filter (fun y => pair_eqb (fst y) k)
                                                   (x :: l)))))
               (fun k => (if pair_eqb (fst x) k then amount (snd x) else 0)
                         + sum (map amount
                                    (map snd (filter
                                                (fun y => pair_eqb (fst y) k)
                                                l))))).
    + rewrite sum_map_plus, IH, sum_indicator2; auto.
      * cbn [map]. rewrite sum_cons. reflexivity.
      * apply Hall. left. reflexivity.
      * intros y Hy. apply Hall. right. exact Hy.
    + intros k _. cbn [filter]. destruct (pair_eqb (fst x) k);
        cbn [map]; rewrite ?sum_cons; ring.
Qed.

End RfmGroups.

Section RfmGroupFacts.

Variable df : DataFrame.
Variable latest_date : Timestamp.

Lemma named_rows_rows : map snd (named_rows df) = filter has_name df.
Proof.
  unfold named_rows, has_name. induction df as [|r l IH]; [reflexivity|].
  cbn [flat_map filter]. destruct (Name r); cbn; rewrite IH; reflexivity.
Qed.

Lemma rfm_groups_keys :
  map (fun g => (rg_Customer g, rg_Name g)) (rfm_groups df latest_date)
  = group_keys2 (map fst (named_rows df)).
Proof.
  unfold rfm_groups. rewrite map_map. cbn.
  rewrite (map_ext _ (fun k => k)); [apply map_id|].
  intros [c n]. reflexivity.
Qed.

Lemma rfm_groups_partition_parts :
  (forall c n,
     In (c, n) (map (fun g => (rg_Customer g, rg_Name g))
                    (rfm_groups df latest_date))
     <-> exists r, In r df /\ Customer r = c /\ Name r = Some n)
  /\ sumZ (map rg_Frequency (rfm_groups df latest_date))
     = Z.of_nat (List.length (filter has_name df))
  /\ sum (map rg_Monetary (rfm_groups df latest_date))
     == sum (map DS_Da_Tru_CK (filter has_name df)).
Proof.
  assert (Cover : forall x, In x (named_rows df) ->
                            In (fst x) (group_keys2 (map fst (named_rows df)))).
  { intros x Hx. apply group_keys2_In, in_map, Hx. }
  repeat split.
  - rewrite rfm_groups_keys. intros H.
    apply (proj1 (group_keys2_In _ _)) in H.
    apply in_map_iff in H as ([k r] & E & Hin). cbn in E. subst k.
    apply named_rows_In in Hin as (Hr & Ec & En). cbn in *. eauto.
  - rewrite rfm_groups_keys. intros (r & Hr & Ec & En).
    apply group_keys2_In.
    apply (in_map fst (named_rows df) (c, n, r)).
    apply named_rows_In. cbn. auto.
  - unfold rfm_groups. rewrite map_map. cbn [rg_Frequency].
    rewrite (@group_counts_partition Transaction (named_rows df) _
               (group_keys2_NoDup _) Cover).
    rewrite <- named_rows_rows, length_map. reflexivity.
  - unfold rfm_groups. rewrite map_map. cbn [rg_Monetary].
    rewrite (@group_amounts_partition Transaction DS_Da_Tru_CK
               (named_rows df) _ (group_keys2_NoDup _) Cover).
    rewrite named_rows_rows. reflexivity.
Qed.

Lemma named_rows_of_pair (k : string * string) :
  map snd (filter (fun x => pair_eqb (fst x) k) (named_rows df))
  = filter (fun r => String.eqb (Customer r) (fst k)
                     && opt_eqb (Name r) (Some (snd k))) df.
Proof.
  unfold named_rows. induction df as [|r l IH]; [reflexivity|].
  cbn [flat_map filter]. destruct (Name r) as [n|].
  - cbn [app filter fst snd opt_eqb]. unfold pair_eqb at 1. cbn [fst snd].
    destruct (String.eqb (Customer r) (fst k) && String.eqb n (snd k));
      cbn [map snd]; rewrite IH; reflexivity.
  - cbn [app opt_eqb]. rewrite andb_false_r. exact IH.
Qed.

(** X17. The groups [calculate_rfm] scores partition the rows that carry a
    name: one group per (customer, name) pair that occurs, no pair twice;
    the frequency of a group is the number of its rows, at least 1, and
    its monetary value their grouped sum; the frequencies add up to the
    number of named rows, so a row without a name is counted nowhere. *)
Theorem rfm_groups_partition_named_rows :
  NoDup (map (fun g => (rg_Customer g, rg_Name g)) (rfm_groups df latest_date))
  /\ (forall c n,
        In (c, n) (map (fun g => (rg_Customer g, rg_Name g))
                       (rfm_groups df latest_date))
        <-> exists r, In r df /\ Customer r = c /\ Name r = Some n)
  /\ (forall g, In g (rfm_groups df latest_date) ->
        (1 <= rg_Frequency g)%Z
        /\ rg_Frequency g
           = Z.of_nat
               (List.length
                  (filter (fun r => String.eqb (Customer r) (rg_Customer g)
                                    && opt_eqb (Name r) (Some (rg_Name g)))
                          df))
        /\ rg_Monetary g
           = sum (map DS_Da_Tru_CK
                      (filter (fun r => String.eqb (Customer r) (rg_Customer g)
                                        && opt_eqb (Name r)
                                                   (Some (rg_Name g)))
                              df)))
  /\ sumZ (map rg_Frequency (rfm_groups df latest_date))
     = Z.of_nat (List.length (filter has_name df)).
Proof.
  assert (Cover : forall x, In x (named_rows df) ->
                            In (fst x) (group_keys2 (map fst (named_rows df)))).
  { intros x Hx. apply group_keys2_In, in_map, Hx. }
  split; [|split; [|split; [|]]].
  - rewrite rfm_groups_keys. apply group_keys2_NoDup.
  - apply rfm_groups_partition_parts.
  - intros g Hg. unfold rfm_groups in Hg.
    apply in_map_iff in Hg as (k & <- & Hk).
    cbn [rg_Frequency rg_Monetary rg_Customer rg_Name].
    rewrite <- !named_rows_of_pair. split; [|split; reflexivity].
    apply (proj1 (group_keys2_In _ _)) in Hk.
    apply in_map_iff in Hk as (x & <- & Hx).
    assert (Hf : In x (filter (fun y => pair_eqb (fst y) (fst x))
                              (named_rows df))).
    { apply filter_In. split; [exact Hx | apply pair_eqb_refl]. }
    destruct (filter (fun y => pair_eqb (fst y) (fst x)) (named_rows df));
      [contradiction | cbn; lia].
  - unfold rfm_groups. rewrite map_map. cbn [rg_Frequency].
    rewrite (@group_counts_partition Transaction (named_rows df) _
               (group_keys2_NoDup _) Cover).
    rewrite <- named_rows_rows, length_map. reflexivity.
Qed.

Lemma group_recency_nonnegative (g : RfmGroup) :
  (forall r, In r df -> (Billing_Date r <= latest_date)%Z) ->
  In g (rfm_groups df latest_date) -> (0 <= rg_Recency g)%Z.
Proof.
  intros Bound Hg. unfold rfm_groups in Hg.
  apply in_map_iff in Hg as (k & <- & _). cbn [rg_Recency].
  destruct (max_timestamp _) as [m|] eqn:E; [|lia].
  apply max_timestamp_spec in E as (Hm & _).
  apply in_map_iff in Hm as (r & <- & Hr).
  apply in_map_iff in Hr as (x & <- & Hx).
  apply filter_In in Hx as (Hx & _).
  destruct x as [kx rx]. apply named_rows_In in Hx as (Hrx & _).
  cbn [snd]. unfold timedelta_days.
  apply Z.div_pos; [|reflexivity].
  specialize (Bound rx Hrx). lia.
Qed.

End RfmGroupFacts.

(** ** Recency in the customer panel *)

Section PanelRecency.

Variables df_prev df_curr : DataFrame.
Variable filters : Filters.
Variable now : Timestamp.

Lemma latest_date_upper_bound (r : Transaction) :
  df_prev <> [] -> In r df_curr ->
  (Billing_Date r <= latest_date df_prev df_curr now)%Z.
Proof.
  intros Hp Hr. unfold latest_date.
  destruct df_curr as [|c cs] eqn:Ec; [contradiction|].
  destruct df_prev as [|p ps] eqn:Ep; [congruence|]. cbn [empty negb andb].
  destruct (@max_timestamp_some (map Billing_Date (c :: cs))) as (mc & Mc);
    [discriminate|].
  destruct (@max_timestamp_some (map Billing_Date (p :: ps))) as (mp & Mp);
    [discriminate|].
  rewrite Mc, Mp. apply max_timestamp_spec in Mc as (_ & Uc).
  specialize (Uc (Billing_Date r) (in_map Billing_Date _ _ Hr)).
  destruct (Z.ltb_spec mc mp); lia.
Qed.

Lemma rfm_messages_only (df : DataFrame) (d : Timestamp) (o : output) :
  In o (fst (calculate_rfm df d)) ->
  exists text, o = Log text \/ o = Error text.
Proof.
  unfold calculate_rfm. destruct (empty df).
  - intros [<-|[]]. eauto.
  - destruct (score_groups _); cbn; [|contradiction].
    intros [<-|[<-|[]]]; eauto.
Qed.

Lemma rfm_call_arguments (df : DataFrame) (reference : Timestamp) :
  In (RfmCall df reference)
     (plot_customer_analysis df_prev df_curr filters now) ->
  df = apply_filters df_curr filters
  /\ reference = latest_date df_prev df_curr now
  /\ df <> [] /\ customers filters <> [].
Proof.
  rewrite plot_customer_analysis_cases. unfold rfm_block.
  destruct (empty (apply_filters df_prev filters)
            && empty (apply_filters df_curr filters)).
  { intros [E|[]]. discriminate. }
  destruct (forallb formats _).
  2:{ intros [E|[E|[]]]; discriminate. }
  intros [E|H]; [discriminate|].
  destruct (customers filters) as [|c cs]; cbn [empty negb] in H.
  { destruct H as [E|[]]. discriminate. }
  destruct (apply_filters df_curr filters) as [|r rs] eqn:Ef;
    cbn [empty negb] in H; [contradiction|].
  destruct H as [E|H].
  - injection E as <- <-. repeat split; discriminate.
  - apply in_app_or in H as [H|H].
    + apply rfm_messages_only in H as (text & [E|E]); discriminate.
    + destruct (snd (calculate_rfm _ _)); [|contradiction].
      destruct H as [E|[]]. discriminate.
Qed.

(** X18. When the previous dataset has a row, every frame the customer
    panel hands to [calculate_rfm] holds only billing dates up to the
    reference date, so no record of the returned table has a negative
    recency. *)
Theorem panel_recency_nonnegative (df : DataFrame) (reference : Timestamp) :
  df_prev <> [] ->
  In (RfmCall df reference)
     (plot_customer_analysis df_prev df_curr filters now) ->
  (forall r, In r df -> (Billing_Date r <= reference)%Z)
  /\ (forall rfm, snd (calculate_rfm df reference) = Some rfm ->
                  forall r, In r rfm -> (0 <= Recency r)%Z).
Proof.
  intros Hp Hcall.
  destruct (@rfm_call_arguments _ _ Hcall) as (-> & -> & _ & _).
  assert (Bound : forall r, In r (apply_filters df_curr filters) ->
                            (Billing_Date r
                             <= latest_date df_prev df_curr now)%Z).
  { intros r Hr. rewrite apply_filters_single_pass in Hr.
    apply filter_In in Hr as (Hr & _).
    apply latest_date_upper_bound; assumption. }
  split; [exact Bound|].
  intros rfm E r Hr.
  destruct (@returned_record _ _ _ E _ Hr) as (g & Hg & ->). cbn [Recency scored].
  apply (@group_recency_nonnegative _ _ g Bound Hg).
Qed.

End PanelRecency.

Lemma panel_recency_nonnegative_witness :
  (forall r, In r (apply_filters graded_customers
                     two_customers_selected) ->
             (Billing_Date r <= day 8)%Z)
  /\ (forall rfm,
        snd (calculate_rfm (apply_filters graded_customers
                              two_customers_selected)
                           (day 8)) = Some rfm ->
        forall r, In r rfm -> (0 <= Recency r)%Z).
Proof.
  apply (@panel_recency_nonnegative one_previous_sale graded_customers
           two_customers_selected (day 999)).
  - discriminate.
  - vm_compute. right. left. reflexivity.
Defined.

(** ** The displayed RFM table *)

Section Partition.

Variables K A : Type.
Variable eqb : K -> K -> bool.
Hypothesis eqb_spec : forall a b, eqb a b = true <-> a = b.
Variable key : A -> K.

Lemma indicator_sumZ (k0 : K) (a : Z) (keys : list K) :
  NoDup keys -> In k0 keys ->
  sumZ (map (fun k => if eqb k0 k then a else 0%Z) keys) = a.
Proof.
  induction keys as [|k keys IH]; intros ND Hin; [contradiction|].
  inversion ND as [|? ? Hk NDK]; subst. cbn [map]. rewrite sumZ_cons.
  destruct (eqb k0 k) eqn:E.
  - apply eqb_spec in E. subst k.
    assert (Z0 : sumZ (map (fun k => if eqb k0 k then a else 0%Z) keys) = 0%Z).
    { clear IH ND NDK Hin. induction keys as [|k keys IH]; [reflexivity|].
      cbn [map]. rewrite sumZ_cons.
      destruct (eqb k0 k) eqn:E.
      - apply eqb_spec in E. subst k. elim Hk. left. reflexivity.
      - rewrite IH; [reflexivity|]. intros H. apply Hk. right. exact H. }
    lia.
  - destruct Hin as [->|Hin].
    + assert (T : eqb k0 k0 = true) by (apply eqb_spec; reflexivity).
      congruence.
    + rewrite (IH NDK Hin). lia.
Qed.

Lemma indicator_sum (k0 : K) (a : Q) (keys : list K) :
  NoDup keys -> In k0 keys ->
  sum (map (fun k => if eqb k0 k then a else 0) keys) == a.
Proof.
  induction keys as [|k keys IH]; intros ND Hin; [contradiction|].
  inversion ND as [|? ? Hk NDK]; subst. cbn [map]. rewrite sum_cons.
  destruct (eqb k0 k) eqn:E.
  - apply eqb_spec in E. subst k.
    assert (Z0 : sum (map (fun k => if eqb k0 k then a else 0) keys) == 0).
    { clear IH ND NDK Hin. induction keys as [|k keys IH];
        [cbn [map]; rewrite sum_nil; reflexivity|].
      cbn [map]. rewrite sum_cons.
      destruct (eqb k0 k) eqn:E.
      - apply eqb_spec in E. subst k. elim Hk. left. reflexivity.
      - rewrite IH; [ring|]. intros H. apply Hk. right. exact H. }
    rewrite Z0. ring.
  - destruct Hin as [->|Hin].
    + assert (T : eqb k0 k0 = true) by (apply eqb_spec; reflexivity).
      congruence.
    + rewrite (IH NDK Hin). ring.
Qed.

Lemma sumZ_map_plus (f g : K -> Z) (keys : list K) :
  sumZ (map (fun k => (f k + g k)%Z) keys)
  = (sumZ (map f keys) + sumZ (map g keys))%Z.
Proof.
  induction keys as [|k keys IH]; [reflexivity|].
  cbn [map]. rewrite !sumZ_cons, IH. lia.
Qed.

Lemma partition_sumZ (h : A -> Z) (l : list A) (keys : list K) :
  NoDup keys -> (forall x, In x l -> In (key x) keys) ->
  sumZ (map (fun k => sumZ (map h (filter (fun x => eqb (key x) k) l))) keys)
  = sumZ (map h l).
Proof.
  intros ND. induction l as [|x l IH]; intros Hall.
  - cbn [filter map]. apply sumZ_zero.
  - rewrite (map_ext
               (fun k => sumZ (map h (filter (fun y => eqb (key y) k) (x :: l))))
               (fun k => ((if eqb (key x) k then h x else 0)
                          + sumZ (map h (filter (fun y => eqb (key y) k) l)))%Z)).
    + rewrite sumZ_map_plus, IH, indicator_sumZ; auto.
      * apply Hall. left. reflexivity.
      * intros y Hy. apply Hall. right. exact Hy.
    + intros k. cbn [filter]. destruct (eqb (key x) k); reflexivity.
Qed.

Lemma partition_sum (h : A -> Q) (l : list A) (keys : list K) :
  NoDup keys -> (forall x, In x l -> In (key x) keys) ->
  sum (map (fun k => sum (map h (filter (fun x => eqb (key x) k) l))) keys)
  == sum (map h l).
Proof.
  intros ND. induction l as [|x l IH]; intros Hall.
  - cbn [filter map]. rewrite sum_nil. apply sum_zero.
  - rewrite (sum_map_ext
               (fun k => sum (map h (filter (fun y => eqb (key y) k) (x :: l))))
               (fun k => (if eqb (key x) k then h x else 0)
                         + sum (map h (filter (fun y => eqb (key y) k) l)))).
    + rewrite sum_map_plus, IH, indicator_sum; auto.
      * cbn [map]. rewrite sum_cons. reflexivity.
      * apply Hall. left. reflexivity.
      * intros y Hy. apply Hall. right. exact Hy.
    + intros k _. cbn [filter]. destruct (eqb (key x) k);
        cbn [map]; rewrite ?sum_cons; ring.
Qed.

End Partition.

Section RfmTable.

Lemma rfm_table_split (rfm : list RfmRecord) :
  exists body total,
    rfm_table rfm = body ++ [total]
    /\ map row_customer body = group_keys (map r_Customer rfm)
    /\ row_frequency total = sumZ (map Frequency rfm)
    /\ row_monetary total == sum (map Monetary rfm)
    /\ row_monetary total = sum (map row_monetary body).
Proof.
  unfold rfm_table. eexists. eexists. split; [reflexivity|].
  assert (Cover : forall r, In r rfm ->
                            In (r_Customer r) (group_keys (map r_Customer rfm))).
  { intros r Hr. apply group_keys_In, in_map, Hr. }
  split; [|split; [|split; [|]]].
  - rewrite map_map. cbn. apply map_id.
  - unfold row_frequency. cbn [fst snd]. rewrite map_map. cbn [fst snd].
    apply (@partition_sumZ string RfmRecord String.eqb String.eqb_eq r_Customer
             Frequency rfm _ (group_keys_NoDup _) Cover).
  - unfold row_monetary. cbn [fst snd]. rewrite map_map. cbn [fst snd].
    apply (@partition_sum string RfmRecord String.eqb String.eqb_eq r_Customer
             Monetary rfm _ (group_keys_NoDup _) Cover).
  - reflexivity.
Qed.

Variables df_prev df_curr : DataFrame.
Variable filters : Filters.
Variable now : Timestamp.

Lemma rfm_table_arguments (t : list rfm_row) :
  In (RfmTable t) (plot_customer_analysis df_prev df_curr filters now) ->
  exists rfm,
    snd (calculate_rfm (apply_filters df_curr filters)
                       (latest_date df_prev df_curr now)) = Some rfm
    /\ t = rfm_table rfm.
Proof.
  rewrite plot_customer_analysis_cases. unfold rfm_block.
  destruct (empty (apply_filters df_prev filters)
            && empty (apply_filters df_curr filters)).
  { intros [E|[]]. discriminate. }
  destruct (forallb formats _).
  2:{ intros [E|[E|[]]]; discriminate. }
  intros [E|H]; [discriminate|].
  destruct (customers filters) as [|c cs]; cbn [empty negb] in H.
  { destruct H as [E|[]]. discriminate. }
  destruct (apply_filters df_curr filters) as [|r rs] eqn:Ef;
    cbn [empty negb] in H; [contradiction|].
  destruct H as [E|H]; [discriminate|].
  apply in_app_or in H as [H|H].
  - apply rfm_messages_only in H as (text & [E|E]); discriminate.
  - destruct (snd (calculate_rfm _ _)) as [rfm|]; [|contradiction].
    destruct H as [E|[]]. injection E as <-. eauto.
Qed.

(** X19. Every RFM table the customer panel displays ends with a totals row
    whose frequency is the number of rows of the filtered current dataset
    that carry a name and whose monetary value is the sum of the monetary
    column above it; the rows above it list distinct customers, exactly
    the customers of the rows that carry a name. *)
Theorem rfm_table_totals (t : list rfm_row) :
  In (RfmTable t) (plot_customer_analysis df_prev df_curr filters now) ->
  exists body total,
    t = body ++ [total]
    /\ NoDup (map row_customer body)
    /\ (forall c, In c (map row_customer body) <->
                  exists r, In r (apply_filters df_curr filters)
                            /\ has_name r = true /\ Customer r = c)
    /\ row_frequency total
       = Z.of_nat (List.length (filter has_name
                                       (apply_filters df_curr filters)))
    /\ row_monetary total = sum (map row_monetary body).
Proof.
  intros Ht. destruct (@rfm_table_arguments _ Ht) as (rfm & E & ->).
  destruct (rfm_table_split rfm) as (body & total & -> & Hb & Hf & Hm & Hs).
  exists body, total. split; [reflexivity|].
  destruct (calculate_rfm_shape _ _ E) as (_ & Shape & _).
  set (df := apply_filters df_curr filters) in *.
  set (d := latest_date df_prev df_curr now) in *.
  destruct (rfm_groups_partition_parts df d) as (Keys & Freq & Mon).
  assert (Ecust : map r_Customer rfm = map rg_Customer (rfm_groups df d)).
  { rewrite Shape, map_map. reflexivity. }
  assert (Efreq : map Frequency rfm = map rg_Frequency (rfm_groups df d)).
  { rewrite Shape, map_map. reflexivity. }
  assert (Emon : map Monetary rfm = map rg_Monetary (rfm_groups df d)).
  { rewrite Shape, map_map. reflexivity. }
  repeat split.
  - rewrite Hb. apply group_keys_NoDup.
  - rewrite Hb. intros Hc. apply (proj1 (group_keys_In _ _)) in Hc.
    rewrite Ecust in Hc. apply in_map_iff in Hc as (g & <- & Hg).
    destruct (proj1 (Keys (rg_Customer g) (rg_Name g))) as (r & Hr & Ec & En).
    { apply (in_map (fun g => (rg_Customer g, rg_Name g))), Hg. }
    exists r. unfold has_name. rewrite En. auto.
  - rewrite Hb. intros (r & Hr & Hn & Ec). apply group_keys_In.
    rewrite Ecust. unfold has_name in Hn.
    destruct (Name r) as [n|] eqn:En; [|discriminate].
    assert (Hk : In (c, n) (map (fun g => (rg_Customer g, rg_Name g))
                              (rfm_groups df d))).
    { apply Keys. eauto. }
    apply in_map_iff in Hk as (g & Eg & Hg). injection Eg as <- _.
    apply in_map, Hg.
  - rewrite Hf, Efreq. exact Freq.
  - exact Hs.
Qed.

(** X30. For whole amounts, which floats add without rounding, the
    monetary values of the groups [calculate_rfm] scores add up to the
    summed amount of the rows that carry a name, and so does the monetary
    cell of the totals row of the RFM table built from a returned frame. *)
Theorem rfm_monetary_adds_up (df : DataFrame) (latest_date : Timestamp) :
  whole_amounts df ->
  sum (map rg_Monetary (rfm_groups df latest_date))
  == sum (map DS_Da_Tru_CK (filter has_name df))
  /\ forall rfm,
       snd (calculate_rfm df latest_date) = Some rfm ->
       exists body total,
         rfm_table rfm = body ++ [total]
         /\ row_monetary total
            == sum (map DS_Da_Tru_CK (filter has_name df)).
Proof.
  intros _. destruct (rfm_groups_partition_parts df latest_date)
    as (_ & _ & Mon).
  split; [exact Mon|]. intros rfm E.
  destruct (rfm_table_split rfm) as (body & total & -> & _ & _ & Hm & _).
  exists body, total. split; [reflexivity|].
  destruct (calculate_rfm_shape _ _ E) as (_ & Shape & _).
  rewrite Hm, <- Mon. rewrite Shape at 1. rewrite map_map. reflexivity.
Qed.

End RfmTable.

Lemma rfm_table_totals_witness :
  exists body total,
    two_customers_table = body ++ [total]
    /\ NoDup (map row_customer body)
    /\ (forall c, In c (map row_customer body) <->
                  exists r, In r (apply_filters graded_customers
                                                two_customers_selected)
                            /\ has_name r = true /\ Customer r = c)
    /\ row_frequency total
       = Z.of_nat (List.length
                     (filter has_name
                             (apply_filters graded_customers
                                            two_customers_selected)))
    /\ row_monetary total = sum (map row_monetary body).
Proof.
  apply (@rfm_table_totals one_previous_sale graded_customers
           two_customers_selected (day 999) two_customers_table).
  vm_compute. right. right. left. reflexivity.
Defined.

Lemma rfm_monetary_adds_up_witness :
  sum (map rg_Monetary (rfm_groups graded_customers (day 10)))
  == sum (map DS_Da_Tru_CK (filter has_name graded_customers)).
Proof.
  apply (proj1 (@rfm_monetary_adds_up graded_customers (day 10)
                  ltac:(whole_amounts_by_evaluation))).
Defined.

(* ================================================================== *)
(** * The charts, the summary, the sales rep panel and the sidebar *)
(* ================================================================== *)

(** ** The overview trend chart *)

Section MonthBars.

Lemma group_months_NoDup (l : list Z) : NoDup (group_months l).
Proof.
  unfold group_months.
  apply (Permutation_NoDup (Permutation_sym (sort_by_perm Z.leb _))).
  apply NoDup_nodup.
Qed.

Lemma group_months_In (l : list Z) (m : Z) :
  In m (group_months l) <-> In m l.
Proof.
  unfold group_months. rewrite <- (nodup_In Z.eq_dec l m). split.
  - apply Permutation_in, sort_by_perm.
  - apply Permutation_in, Permutation_sym, sort_by_perm.
Qed.

Lemma insert_sorted_Zle (x : Z) (l : list Z) :
  Sorted Z.le l -> Sorted Z.le (insert_sorted Z.leb x l).
Proof.
  induction l as [|y l IH]; intros S; cbn.
  - repeat constructor.
  - destruct (Z.leb_spec x y) as [L|L].
    + constructor; [exact S|]. constructor. exact L.
    + apply Sorted_inv in S as [S H].
      constructor; [apply IH, S|].
      destruct l as [|z l]; cbn.
      * constructor. lia.
      * destruct (Z.leb x z); constructor; [lia|].
        apply HdRel_inv in H. exact H.
Qed.

Lemma strictly_sorted (l : list Z) :
  StronglySorted Z.le l -> NoDup l -> StronglySorted Z.lt l.
Proof.
  induction 1 as [|a l S IH F]; intros ND; [constructor|].
  inversion ND as [|? ? Ha NDl]; subst.
  constructor; [apply IH, NDl|].
  rewrite Forall_forall in *. intros x Hx.
  specialize (F x Hx).
  assert (a <> x) by (intros ->; contradiction). lia.
Qed.

Lemma group_months_ascending (l : list Z) :
  StronglySorted Z.lt (group_months l).
Proof.
  apply strictly_sorted; [|apply group_months_NoDup].
  apply Sorted_StronglySorted; [intros a b c; apply Z.le_trans|].
  unfold group_months. induction (nodup Z.eq_dec l) as [|x k IH]; cbn;
    [constructor | apply insert_sorted_Zle, IH].
Qed.

Lemma trend_by_month_months (df : DataFrame) :
  map fst (trend_by_month df)
  = group_months (map (fun r => dt_month (Billing_Date r)) df).
Proof.
  unfold trend_by_month. destruct df as [|r df]; [reflexivity|].
  cbn [empty negb]. rewrite map_map. cbn [fst]. apply map_id.
Qed.

Lemma total_amount_sum (df : DataFrame) :
  total_amount df = sum (map DS_Da_Tru_CK df).
Proof. destruct df; reflexivity. Qed.

Lemma total_amount_sum_eq (df : DataFrame) :
  total_amount df == sum (map DS_Da_Tru_CK df).
Proof. rewrite total_amount_sum. reflexivity. Qed.

Lemma trend_by_month_sum (df : DataFrame) :
  sum (map snd (trend_by_month df)) == total_amount df.
Proof.
  rewrite total_amount_sum.
  unfold trend_by_month. destruct df as [|r df]; [reflexivity|].
  cbn [empty negb]. rewrite map_map. cbn [snd]. unfold in_month.
  apply (@partition_sum Z Transaction Z.eqb Z.eqb_eq
           (fun r => dt_month (Billing_Date r)) DS_Da_Tru_CK (r :: df) _
           (group_months_NoDup _)).
  intros x Hx. apply group_months_In.
  apply (in_map (fun r => dt_month (Billing_Date r))), Hx.
Qed.

Lemma trend_by_month_nonempty (df : DataFrame) :
  df <> [] -> trend_by_month df <> [].
Proof.
  intros Hdf E. apply (f_equal (map fst)) in E.
  rewrite trend_by_month_months in E. destruct df as [|r df]; [congruence|].
  assert (H : In (dt_month (Billing_Date r))
                 (group_months (map (fun r => dt_month (Billing_Date r))
                                    (r :: df)))).
  { apply group_months_In. left. reflexivity. }
  rewrite E in H. exact H.
Qed.

Lemma filtered_month_selected (df : DataFrame) (filters : Filters) (m : Z) :
  In m (map (fun r => dt_month (Billing_Date r)) (apply_filters df filters)) ->
  In m (months filters).
Proof.
  intros H. apply in_map_iff in H as (r & <- & Hr).
  rewrite apply_filters_single_pass in Hr. apply filter_In in Hr as (_ & K).
  unfold keeps in K. apply andb_true_iff in K as (K & _).
  apply andb_true_iff in K as (K & _). apply andb_true_iff in K as (K & _).
  apply isin_Z_In, K.
Qed.

Variables df_prev df_curr : DataFrame.
Variable filters : Filters.

Lemma trend_by_month_bar (df : DataFrame) (m : Z) (v : Q) :
  In (m, v) (trend_by_month df) ->
  v = sum (map DS_Da_Tru_CK (filter (in_month m) df)).
Proof.
  unfold trend_by_month. destruct (negb (empty df)); [|contradiction].
  intros H. apply in_map_iff in H as (m' & E & _).
  injection E as -> <-. reflexivity.
Qed.

Lemma overview_chart_cases :
  overview_chart df_prev df_curr filters
  = if empty (apply_filters df_prev filters)
       && empty (apply_filters df_curr filters)
    then None
    else if forallb formats (customer_table (apply_filters df_prev filters)
                                            (apply_filters df_curr filters))
            && forallb formats (product_table (apply_filters df_prev filters)
                                              (apply_filters df_curr filters))
    then Some ((if negb (empty (trend_by_month
                                  (apply_filters df_prev filters)))
                then [mkTrace prev_year_name
                              (trend_by_month (apply_filters df_prev filters))]
                else [])
               ++ (if negb (empty (trend_by_month
                                     (apply_filters df_curr filters)))
                   then [mkTrace curr_year_name
                                 (trend_by_month
                                    (apply_filters df_curr filters))]
                   else []))
    else None.
Proof. reflexivity. Qed.

Lemma overview_traces (traces : list Trace) :
  overview_chart df_prev df_curr filters = Some traces ->
  traces
  = (if negb (empty (trend_by_month (apply_filters df_prev filters)))
     then [mkTrace prev_year_name
                   (trend_by_month (apply_filters df_prev filters))]
     else [])
    ++ (if negb (empty (trend_by_month (apply_filters df_curr filters)))
        then [mkTrace curr_year_name
                      (trend_by_month (apply_filters df_curr filters))]
        else []).
Proof.
  rewrite overview_chart_cases.
  destruct (empty (apply_filters df_prev filters)
            && empty (apply_filters df_curr filters)); [discriminate|].
  destruct (forallb formats _ && forallb formats _); [|discriminate].
  intros E. injection E as <-. reflexivity.
Qed.

Lemma overview_trace_cases (traces : list Trace) (t : Trace) :
  overview_chart df_prev df_curr filters = Some traces ->
  In t traces ->
  (t = mkTrace prev_year_name (trend_by_month (apply_filters df_prev filters))
   /\ trend_by_month (apply_filters df_prev filters) <> [])
  \/ (t = mkTrace curr_year_name
                  (trend_by_month (apply_filters df_curr filters))
      /\ trend_by_month (apply_filters df_curr filters) <> []).
Proof.
  intros E Ht. rewrite (overview_traces E) in Ht.
  apply in_app_or in Ht as [Ht|Ht].
  - destruct (trend_by_month (apply_filters df_prev filters)) eqn:Ep;
      cbn in Ht; [contradiction|].
    destruct Ht as [<-|[]]. left. split; [reflexivity | discriminate].
  - destruct (trend_by_month (apply_filters df_curr filters)) eqn:Ec;
      cbn in Ht; [contradiction|].
    destruct Ht as [<-|[]]. right. split; [reflexivity | discriminate].
Qed.

(** X20. The trend chart of the overview panel is drawn exactly when a
    filtered dataset has a row and both tables above it render. It then has
    one trace per year whose filtered dataset has a row. The bars of a
    trace are in strictly ascending month order, every bar stands for a
    selected month, and its height is the grouped sum of the amounts of
    that year's filtered rows billed in that month. *)
Theorem overview_chart_bars :
  (overview_chart df_prev df_curr filters = None
   <-> (apply_filters df_prev filters = []
        /\ apply_filters df_curr filters = [])
       \/ forallb formats (customer_table (apply_filters df_prev filters)
                                          (apply_filters df_curr filters))
          = false
       \/ forallb formats (product_table (apply_filters df_prev filters)
                                         (apply_filters df_curr filters))
          = false)
  /\ forall traces,
      overview_chart df_prev df_curr filters = Some traces ->
      (forall t, In t traces ->
                 bars t <> []
                 /\ StronglySorted Z.lt (map fst (bars t))
                 /\ (forall m, In m (map fst (bars t)) ->
                               In m (months filters)))
      /\ (forall t m v,
            In t traces -> In (m, v) (bars t) ->
            (trace_name t = prev_year_name ->
             v = sum (map DS_Da_Tru_CK
                          (filter (in_month m)
                                  (apply_filters df_prev filters))))
            /\ (trace_name t = curr_year_name ->
                v = sum (map DS_Da_Tru_CK
                             (filter (in_month m)
                                     (apply_filters df_curr filters)))))
      /\ (apply_filters df_prev filters <> [] ->
          exists t, In t traces /\ trace_name t = prev_year_name)
      /\ (apply_filters df_curr filters <> [] ->
          exists t, In t traces /\ trace_name t = curr_year_name).
Proof.
  split.
  - rewrite overview_chart_cases.
    destruct (apply_filters df_prev filters) as [|rp fp] eqn:Ep;
      destruct (apply_filters df_curr filters) as [|rc fc] eqn:Ec;
      cbn [empty andb];
      try (split; [intros _; left; split; reflexivity | reflexivity]);
      (destruct (forallb formats (customer_table _ _)) eqn:Fc;
       destruct (forallb formats (product_table _ _)) eqn:Fp;
       cbn [andb];
       (split;
        [ intros H; try discriminate H; auto
        | intros [[H1 H2]|[H|H]]; congruence ])).
  - intros traces E.
    set (fp := apply_filters df_prev filters) in *.
    set (fc := apply_filters df_curr filters) in *.
    split; [|split; [|split]].
    + intros t Ht. split; [|split].
      * destruct (overview_trace_cases _ E Ht) as [[-> N]|[-> N]]; exact N.
      * destruct (overview_trace_cases _ E Ht) as [[-> _]|[-> _]];
          cbn [bars]; rewrite trend_by_month_months;
          apply group_months_ascending.
      * intros m Hm.
        destruct (overview_trace_cases _ E Ht) as [[-> _]|[-> _]];
          cbn [bars] in Hm; rewrite trend_by_month_months in Hm;
          apply (proj1 (group_months_In _ _)) in Hm;
          apply (@filtered_month_selected _ _ _ Hm).
    + intros t m v Ht Hb.
      destruct (overview_trace_cases _ E Ht) as [[-> _]|[-> _]];
        cbn [bars trace_name] in *; split; intros Hn;
        try discriminate Hn; apply trend_by_month_bar, Hb.
    + intros Hp. exists (mkTrace prev_year_name (trend_by_month fp)).
      split; [|reflexivity]. rewrite (overview_traces E).
      apply in_or_app. left.
      pose proof (trend_by_month_nonempty Hp) as N. fold fp.
      destruct (trend_by_month fp); [congruence|]. left. reflexivity.
    + intros Hc. exists (mkTrace curr_year_name (trend_by_month fc)).
      split; [|reflexivity]. rewrite (overview_traces E).
      apply in_or_app. right.
      pose proof (trend_by_month_nonempty Hc) as N. fold fc.
      destruct (trend_by_month fc); [congruence|]. left. reflexivity.
Qed.

(** In exact arithmetic the bars of a year's trace of the overview trend
    chart add up to that year's headline total. *)
Lemma overview_bars_add_up (traces : list Trace) (t : Trace) :
  overview_chart df_prev df_curr filters = Some traces ->
  In t traces ->
  (trace_name t = prev_year_name ->
   sum (map snd (bars t)) == total_amount (apply_filters df_prev filters))
  /\ (trace_name t = curr_year_name ->
      sum (map snd (bars t)) == total_amount (apply_filters df_curr filters)).
Proof.
  intros E Ht.
  destruct (overview_trace_cases _ E Ht) as [[-> _]|[-> _]];
    cbn [bars trace_name]; split; intros Hn; try discriminate Hn;
    apply trend_by_month_sum.
Qed.

End MonthBars.

Lemma overview_chart_bars_witness :
  (forall t, In t two_customers_chart ->
             bars t <> []
             /\ StronglySorted Z.lt (map fst (bars t))
             /\ (forall m, In m (map fst (bars t)) ->
                           In m (months two_customers_selected)))
  /\ (apply_filters one_previous_sale two_customers_selected <> [] ->
      exists t, In t two_customers_chart /\ trace_name t = prev_year_name).
Proof.
  destruct (proj2 (@overview_chart_bars one_previous_sale graded_customers
                     two_customers_selected) two_customers_chart)
    as (Shape & _ & Prev & _).
  - vm_compute. reflexivity.
  - split; [exact Shape | exact Prev].
Defined.

(** ** The per-key charts *)

Section KeyedBars.

Lemma filter_map_comm {A B : Type} (f : A -> B) (p : B -> bool) (l : list A) :
  filter p (map f l) = map f (filter (fun x => p (f x)) l).
Proof.
  induction l as [|x l IH]; [reflexivity|].
  cbn [map filter]. destruct (p (f x)); cbn [map]; rewrite IH; reflexivity.
Qed.

Lemma month_key_eqb_spec (a b : Z * string) :
  month_key_eqb a b = true <-> a = b.
Proof.
  destruct a as [a1 a2], b as [b1 b2]. unfold month_key_eqb. cbn.
  rewrite andb_true_iff, Z.eqb_eq, String.eqb_eq. split.
  - intros [-> ->]. reflexivity.
  - intros E. injection E as -> ->. auto.
Qed.

Lemma group_month_keys_NoDup (l : list (Z * string)) :
  NoDup (group_month_keys l).
Proof.
  unfold group_month_keys.
  apply (Permutation_NoDup (Permutation_sym (sort_by_perm month_key_leb _))).
  apply NoDup_nodup.
Qed.

Lemma group_month_keys_In (l : list (Z * string)) (k : Z * string) :
  In k (group_month_keys l) <-> In k l.
Proof.
  unfold group_month_keys. rewrite <- (nodup_In month_key_dec l k). split.
  - apply Permutation_in, sort_by_perm.
  - apply Permutation_in, Permutation_sym, sort_by_perm.
Qed.

Lemma month_key_leb_months (a b : Z * string) :
  (month_key_leb a b = true -> (fst a <= fst b)%Z)
  /\ (month_key_leb a b = false -> (fst b <= fst a)%Z).
Proof.
  unfold month_key_leb.
  destruct (Z.ltb_spec (fst a) (fst b)); [split; [lia | discriminate]|].
  destruct (Z.eqb_spec (fst a) (fst b)); split; intros; lia.
Qed.

Lemma insert_sorted_months (x : Z * string) (l : list (Z * string)) :
  Sorted (fun a b => (fst a <= fst b)%Z) l ->
  Sorted (fun a b => (fst a <= fst b)%Z) (insert_sorted month_key_leb x l).
Proof.
  induction l as [|y l IH]; intros S; cbn.
  - repeat constructor.
  - destruct (month_key_leb x y) eqn:L.
    + constructor; [exact S|]. constructor.
      apply (proj1 (month_key_leb_months x y) L).
    + apply Sorted_inv in S as [S H].
      pose proof (proj2 (month_key_leb_months x y) L) as Lyx.
      constructor; [apply IH, S|].
      destruct l as [|z l]; cbn.
      * constructor. exact Lyx.
      * destruct (month_key_leb x z); constructor; [exact Lyx|].
        apply HdRel_inv in H. exact H.
Qed.

Lemma group_month_keys_by_month (l : list (Z * string)) :
  StronglySorted (fun a b => (fst a <= fst b)%Z) (group_month_keys l).
Proof.
  apply Sorted_StronglySorted.
  { intros a b c H1 H2. lia. }
  unfold group_month_keys. induction (nodup month_key_dec l) as [|x k IH];
    cbn; [constructor | apply insert_sorted_months, IH].
Qed.

Lemma StronglySorted_filter {A : Type} (R : A -> A -> Prop) (p : A -> bool)
      (l : list A) :
  StronglySorted R l -> StronglySorted R (filter p l).
Proof.
  induction 1 as [|a l S IH F]; cbn; [constructor|].
  destruct (p a); [|exact IH]. constructor; [exact IH|].
  rewrite Forall_forall in *. intros x Hx. apply F.
  apply filter_In in Hx. tauto.
Qed.

Lemma StronglySorted_map {A B : Type} (R : B -> B -> Prop) (f : A -> B)
      (l : list A) :
  StronglySorted (fun a b => R (f a) (f b)) l -> StronglySorted R (map f l).
Proof.
  induction 1 as [|a l S IH F]; cbn; [constructor|].
  constructor; [exact IH|].
  rewrite Forall_forall in *. intros y Hy.
  apply in_map_iff in Hy as (x & <- & Hx). apply F, Hx.
Qed.

Lemma NoDup_map_injective {A B : Type} (f : A -> B) (l : list A) :
  NoDup l -> (forall x y, In x l -> In y l -> f x = f y -> x = y) ->
  NoDup (map f l).
Proof.
  induction 1 as [|a l Ha ND IH]; intros Inj; cbn; constructor.
  - intros H. apply in_map_iff in H as (x & E & Hx).
    assert (x = a) by (apply Inj; cbn; auto). subst x. contradiction.
  - apply IH. intros x y Hx Hy. apply Inj; cbn; auto.
Qed.

Variable key : Transaction -> option string.

Lemma keyed_rows_In (df : DataFrame) (m : Z) (k : string) (r : Transaction) :
  In (m, k, r) (keyed_rows key df)
  <-> In r df /\ key r = Some k /\ m = dt_month (Billing_Date r).
Proof.
  unfold keyed_rows. rewrite in_flat_map. split.
  - intros (r' & Hr' & Hin). destruct (key r') as [k'|] eqn:Ek; [|contradiction].
    destruct Hin as [E|[]]. injection E as <- <- <-. auto.
  - intros (Hr & Ek & ->). exists r. split; [exact Hr|]. rewrite Ek.
    left. reflexivity.
Qed.

Lemma keyed_rows_with_key (df : DataFrame) (k : string) :
  map snd (filter (fun x => String.eqb (snd (fst x)) k) (keyed_rows key df))
  = filter (key_is key k) df.
Proof.
  unfold keyed_rows, key_is. induction df as [|r df IH]; [reflexivity|].
  cbn [flat_map filter]. destruct (key r) as [t|]; [|exact IH].
  cbn [app filter fst snd]. destruct (String.eqb t k); cbn [map snd];
    rewrite IH; reflexivity.
Qed.

Lemma trend_by_month_and_unfold (df : DataFrame) :
  trend_by_month_and key df
  = map (fun k =>
           (k, sum (map DS_Da_Tru_CK
                        (map snd (filter (fun x => month_key_eqb (fst x) k)
                                         (keyed_rows key df))))))
        (group_month_keys (map fst (keyed_rows key df))).
Proof. unfold trend_by_month_and. destruct df; reflexivity. Qed.

Lemma bars_of_unfold (df : DataFrame) (k : string) :
  bars_of k (trend_by_month_and key df)
  = map (fun mk =>
           (fst mk,
            sum (map DS_Da_Tru_CK
                     (map snd (filter (fun x => month_key_eqb (fst x) mk)
                                      (keyed_rows key df))))))
        (filter (fun mk => String.eqb (snd mk) k)
                (group_month_keys (map fst (keyed_rows key df)))).
Proof.
  unfold bars_of. rewrite trend_by_month_and_unfold, filter_map_comm, map_map.
  reflexivity.
Qed.

Lemma bars_months (df : DataFrame) (k : string) (m : Z) :
  In m (map fst (bars_of k (trend_by_month_and key df)))
  <-> exists r, In r df /\ key_is key k r = true
                /\ dt_month (Billing_Date r) = m.
Proof.
  rewrite bars_of_unfold, map_map. cbn [fst]. rewrite in_map_iff. split.
  - intros ([m' k'] & E & H). cbn in E. subst m'.
    apply filter_In in H as (H & Ek). cbn in Ek.
    apply String.eqb_eq in Ek. subst k'.
    apply (proj1 (group_month_keys_In _ _)) in H.
    apply in_map_iff in H as ([[m' k'] r] & E & Hr). cbn in E.
    injection E as -> ->. apply keyed_rows_In in Hr as (Hr & Ek & ->).
    exists r. unfold key_is. rewrite Ek, String.eqb_refl. auto.
  - intros (r & Hr & Hk & <-). unfold key_is in Hk.
    destruct (key r) as [t|] eqn:Ek; [|discriminate].
    apply String.eqb_eq in Hk. subst t.
    exists (dt_month (Billing_Date r), k). split; [reflexivity|].
    apply filter_In. split; [|apply String.eqb_refl].
    apply group_month_keys_In.
    apply (in_map fst _ (dt_month (Billing_Date r), k, r)).
    apply keyed_rows_In. auto.
Qed.

Lemma bars_ascending (df : DataFrame) (k : string) :
  StronglySorted Z.lt (map fst (bars_of k (trend_by_month_and key df))).
Proof.
  rewrite bars_of_unfold, map_map. cbn [fst].
  apply strictly_sorted.
  - apply StronglySorted_map.
    apply StronglySorted_filter, group_month_keys_by_month.
  - apply NoDup_map_injective.
    + apply NoDup_filter, group_month_keys_NoDup.
    + intros [m1 k1] [m2 k2] H1 H2 E. cbn in E. subst m2.
      apply filter_In in H1 as (_ & E1). apply filter_In in H2 as (_ & E2).
      cbn in E1, E2. apply String.eqb_eq in E1, E2. congruence.
Qed.

Lemma bars_sum (df : DataFrame) (k : string) :
  sum (map snd (bars_of k (trend_by_month_and key df)))
  == sum (map DS_Da_Tru_CK (filter (key_is key k) df)).
Proof.
  rewrite bars_of_unfold, map_map. cbn [snd].
  rewrite <- keyed_rows_with_key.
  set (rows := keyed_rows key df).
  set (keys := filter (fun mk => String.eqb (snd mk) k)
                      (group_month_keys (map fst rows))).
  set (mine := filter (fun x => String.eqb (snd (fst x)) k) rows).
  rewrite (sum_map_ext
             (fun mk => sum (map DS_Da_Tru_CK
                                 (map snd (filter (fun x => month_key_eqb
                                                              (fst x) mk)
                                                  rows))))
             (fun mk => sum (map (fun x => DS_Da_Tru_CK (snd x))
                                 (filter (fun x => month_key_eqb (fst x) mk)
                                         mine)))).
  - rewrite (@partition_sum (Z * string) (Z * string * Transaction)
               month_key_eqb month_key_eqb_spec fst
               (fun x => DS_Da_Tru_CK (snd x)) mine keys).
    + rewrite map_map. reflexivity.
    + apply NoDup_filter, group_month_keys_NoDup.
    + intros x Hx. apply filter_In in Hx as (Hx & Ek).
      apply filter_In. split; [|exact Ek].
      apply group_month_keys_In, in_map, Hx.
  - intros mk Hmk. apply filter_In in Hmk as (_ & Ek).
    apply String.eqb_eq in Ek. rewrite map_map.
    unfold mine. rewrite filter_filter.
    rewrite (filter_same
               (fun x => String.eqb (snd (fst x)) k
                         && month_key_eqb (fst x) mk)
               (fun x => month_key_eqb (fst x) mk)); [reflexivity|].
    intros x. destruct (month_key_eqb (fst x) mk) eqn:E;
      [|apply andb_false_r].
    apply month_key_eqb_spec in E. rewrite E, Ek, String.eqb_refl.
    reflexivity.
Qed.

Lemma bars_nonempty (df : DataFrame) (k : string) :
  bars_of k (trend_by_month_and key df) <> []
  <-> filter (key_is key k) df <> [].
Proof.
  split.
  - intros N E. destruct (bars_of k (trend_by_month_and key df)) as [|b bs] eqn:B;
      [congruence|].
    assert (H : In (fst b) (map fst (bars_of k (trend_by_month_and key df)))).
    { rewrite B. left. reflexivity. }
    apply bars_months in H as (r & Hr & Hk & _).
    assert (Hin : In r (filter (key_is key k) df))
      by (apply filter_In; auto).
    rewrite E in Hin. exact Hin.
  - intros N E. destruct (filter (key_is key k) df) as [|r rs] eqn:F;
      [congruence|].
    assert (Hin : In r (filter (key_is key k) df)) by (rewrite F; left; reflexivity).
    apply filter_In in Hin as (Hr & Hk).
    assert (H : In (dt_month (Billing_Date r))
                   (map fst (bars_of k (trend_by_month_and key df)))).
    { apply bars_months. eauto. }
    rewrite E in H. exact H.
Qed.

Lemma keyed_rows_of_month_key (df : DataFrame) (m : Z) (k : string) :
  map snd (filter (fun x => month_key_eqb (fst x) (m, k)) (keyed_rows key df))
  = filter (fun r => key_is key k r && in_month m r) df.
Proof.
  unfold keyed_rows, key_is, in_month.
  induction df as [|r df IH]; [reflexivity|].
  cbn [flat_map filter]. destruct (key r) as [t|]; [|exact IH].
  cbn [app filter fst snd]. unfold month_key_eqb at 1. cbn [fst snd].
  rewrite (andb_comm (String.eqb t k)).
  destruct (Z.eqb (dt_month (Billing_Date r)) m && String.eqb t k);
    cbn [map snd]; rewrite IH; reflexivity.
Qed.

Lemma bars_bar (df : DataFrame) (k : string) (m : Z) (v : Q) :
  In (m, v) (bars_of k (trend_by_month_and key df)) ->
  v = sum (map DS_Da_Tru_CK
               (filter (fun r => key_is key k r && in_month m r) df)).
Proof.
  rewrite bars_of_unfold. intros H.
  apply in_map_iff in H as ([m' k'] & E & Hk). cbn [fst] in E.
  apply filter_In in Hk as (_ & Ek). cbn [snd] in Ek.
  apply String.eqb_eq in Ek. subst k'. injection E as -> <-.
  rewrite keyed_rows_of_month_key. reflexivity.
Qed.

Lemma bars_trace (df : DataFrame) (k name : string) :
  filter (key_is key k) df <> [] ->
  trace_for name (key_is key k) df
            (mkTrace name (bars_of k (trend_by_month_and key df))).
Proof.
  intros N. unfold trace_for. cbn [trace_name bars].
  split; [reflexivity|]. split; [apply bars_nonempty, N|].
  split; [apply bars_ascending|]. split; [apply bars_months|].
  intros m v. apply bars_bar.
Qed.

Variable name_of : string -> string.

Lemma key_traces_In (selection : list string) (prev_f curr_f : DataFrame)
      (t : Trace) :
  In t (key_traces name_of selection (trend_by_month_and key prev_f)
                   (trend_by_month_and key curr_f))
  <-> exists k,
        In k selection
        /\ ((t = mkTrace (name_of k ++ prev_year_suffix)
                         (bars_of k (trend_by_month_and key prev_f))
             /\ filter (key_is key k) prev_f <> [])
            \/ (t = mkTrace (name_of k ++ curr_year_suffix)
                            (bars_of k (trend_by_month_and key curr_f))
                /\ filter (key_is key k) curr_f <> [])).
Proof.
  unfold key_traces. rewrite in_flat_map. split.
  - intros (k & Hk & H). exists k. split; [exact Hk|].
    apply in_app_or in H as [H|H].
    + destruct (bars_of k (trend_by_month_and key prev_f)) eqn:B;
        cbn in H; [contradiction|].
      destruct H as [<-|[]]. left. split; [reflexivity|].
      apply bars_nonempty. rewrite B. discriminate.
    + destruct (bars_of k (trend_by_month_and key curr_f)) eqn:B;
        cbn in H; [contradiction|].
      destruct H as [<-|[]]. right. split; [reflexivity|].
      apply bars_nonempty. rewrite B. discriminate.
  - intros (k & Hk & [[-> N]|[-> N]]); exists k; (split; [exact Hk|]);
      apply in_or_app; [left | right]; apply bars_nonempty in N.
    + destruct (bars_of k (trend_by_month_and key prev_f));
        [congruence | left; reflexivity].
    + destruct (bars_of k (trend_by_month_and key curr_f));
        [congruence | left; reflexivity].
Qed.

Lemma key_traces_sound (selection : list string) (prev_f curr_f : DataFrame)
      (t : Trace) :
  In t (key_traces name_of selection (trend_by_month_and key prev_f)
                   (trend_by_month_and key curr_f)) ->
  exists k,
    In k selection
    /\ (trace_for (name_of k ++ prev_year_suffix) (key_is key k) prev_f t
        \/ trace_for (name_of k ++ curr_year_suffix) (key_is key k) curr_f t).
Proof.
  intros H. apply key_traces_In in H as (k & Hk & [[-> N]|[-> N]]);
    exists k; (split; [exact Hk|]); [left | right]; apply bars_trace, N.
Qed.

Lemma key_traces_complete (selection : list string) (prev_f curr_f : DataFrame)
      (k : string) :
  In k selection ->
  (filter (key_is key k) prev_f <> [] ->
   exists t,
     In t (key_traces name_of selection (trend_by_month_and key prev_f)
                      (trend_by_month_and key curr_f))
     /\ trace_for (name_of k ++ prev_year_suffix) (key_is key k) prev_f t)
  /\ (filter (key_is key k) curr_f <> [] ->
      exists t,
        In t (key_traces name_of selection (trend_by_month_and key prev_f)
                         (trend_by_month_and key curr_f))
        /\ trace_for (name_of k ++ curr_year_suffix) (key_is key k) curr_f t).
Proof.
  intros Hk. split; intros N.
  - exists (mkTrace (name_of k ++ prev_year_suffix)
                    (bars_of k (trend_by_month_and key prev_f))).
    split; [|apply bars_trace, N].
    apply key_traces_In. exists k. split; [exact Hk|]. left. auto.
  - exists (mkTrace (name_of k ++ curr_year_suffix)
                    (bars_of k (trend_by_month_and key curr_f))).
    split; [|apply bars_trace, N].
    apply key_traces_In. exists k. split; [exact Hk|]. right. auto.
Qed.

Lemma key_traces_sums (selection : list string) (prev_f curr_f : DataFrame)
      (t : Trace) :
  In t (key_traces name_of selection (trend_by_month_and key prev_f)
                   (trend_by_month_and key curr_f)) ->
  exists k,
    In k selection
    /\ ((trace_name t = (name_of k ++ prev_year_suffix)%string
         /\ sum (map snd (bars t))
            == sum (map DS_Da_Tru_CK (filter (key_is key k) prev_f)))
        \/ (trace_name t = (name_of k ++ curr_year_suffix)%string
            /\ sum (map snd (bars t))
               == sum (map DS_Da_Tru_CK (filter (key_is key k) curr_f)))).
Proof.
  intros H. apply key_traces_In in H as (k & Hk & [[-> _]|[-> _]]);
    exists k; (split; [exact Hk|]); [left | right];
    cbn [trace_name bars]; (split; [reflexivity | apply bars_sum]).
Qed.

End KeyedBars.

(** ** The customer chart and the product chart *)

Section TableAmounts.

Variable key : Transaction -> string.
Variable label : Transaction -> option string.

Lemma data_row_amounts (prev_f curr_f : DataFrame) (row : TableRow) :
  In row (data_rows (sales_table key label prev_f curr_f)) ->
  amount_prev row
  = sum (map DS_Da_Tru_CK
             (filter (fun r => String.eqb (key r) (entity row)) prev_f))
  /\ amount_curr row
     = sum (map DS_Da_Tru_CK
                (filter (fun r => String.eqb (key r) (entity row)) curr_f)).
Proof.
  rewrite (proj1 (sales_table_split key label _ _)). intros H.
  apply in_map_iff in H as (m & <- & Hm). unfold merge_outer in Hm.
  apply in_map_iff in Hm as (k & <- & _).
  cbn [shown_row amount_prev amount_curr entity m_key m_prev m_curr].
  rewrite !merged_amount. auto.
Qed.

End TableAmounts.

Section SelectionCharts.

Variables df_prev df_curr : DataFrame.
Variable filters : Filters.

Lemma kept_customer_selected (df : DataFrame) :
  customers filters <> [] ->
  filter (fun r => isin_str (Customer r) (customers filters))
         (apply_filters df filters)
  = apply_filters df filters.
Proof.
  intros N. rewrite apply_filters_single_pass. apply filter_weaker.
  intros r K. unfold keeps in K.
  apply andb_true_iff in K as (K & _). apply andb_true_iff in K as (K & _).
  apply andb_true_iff in K as (_ & K).
  destruct (customers filters); [congruence | exact K].
Qed.

Lemma kept_material_selected (df : DataFrame) :
  materials filters <> [] ->
  filter (fun r => isin_str (Material r) (materials filters))
         (apply_filters df filters)
  = apply_filters df filters.
Proof.
  intros N. rewrite apply_filters_single_pass. apply filter_weaker.
  intros r K. unfold keeps in K.
  apply andb_true_iff in K as (K & _). apply andb_true_iff in K as (_ & K).
  destruct (materials filters); [congruence | exact K].
Qed.

Lemma nonempty_filter_iff (p : Transaction -> bool) (df : DataFrame) :
  filter p df <> [] <-> exists r, In r df /\ p r = true.
Proof.
  split.
  - intros N. destruct (filter p df) as [|r rs] eqn:F; [congruence|].
    exists r. apply filter_In. rewrite F. left. reflexivity.
  - intros (r & Hr & Hp) E.
    assert (H : In r (filter p df)) by (apply filter_In; auto).
    rewrite E in H. exact H.
Qed.

Lemma customer_chart_cases :
  customer_chart df_prev df_curr filters
  = if empty (apply_filters df_prev filters)
       && empty (apply_filters df_curr filters)
    then None
    else if negb (forallb formats
                          (customer_table (apply_filters df_prev filters)
                                     (apply_filters df_curr filters)))
    then None
    else if negb (empty (customers filters))
         then Some (key_traces (display_name Customer Name df_curr)
                               (customers filters)
                               (trend_by_month_and
                                  (fun r => Some (Customer r))
                                  (apply_filters df_prev filters))
                               (trend_by_month_and
                                  (fun r => Some (Customer r))
                                  (apply_filters df_curr filters)))
         else None.
Proof.
  unfold customer_chart.
  destruct (empty (apply_filters df_prev filters)
            && empty (apply_filters df_curr filters)) eqn:Both;
    [reflexivity|].
  destruct (negb (forallb formats _)); [reflexivity|].
  destruct (customers filters) as [|s0 ss] eqn:Es; [reflexivity|].
  cbn [empty negb]. rewrite <- Es.
  assert (Ns : customers filters <> []) by (rewrite Es; discriminate).
  rewrite !(kept_customer_selected _ Ns).
  destruct (apply_filters df_prev filters);
    destruct (apply_filters df_curr filters);
    [discriminate Both | reflexivity | reflexivity | reflexivity].
Qed.

Lemma customer_chart_traces_of (traces : list Trace) :
  customer_chart df_prev df_curr filters = Some traces ->
  traces = key_traces (display_name Customer Name df_curr)
                      (customers filters)
                      (trend_by_month_and (fun r => Some (Customer r))
                                          (apply_filters df_prev filters))
                      (trend_by_month_and (fun r => Some (Customer r))
                                          (apply_filters df_curr filters)).
Proof.
  rewrite customer_chart_cases.
  destruct (empty (apply_filters df_prev filters)
            && empty (apply_filters df_curr filters)); [discriminate|].
  destruct (negb (forallb formats _)); [discriminate|].
  destruct (negb (empty (customers filters))); [|discriminate].
  intros E. injection E as <-. reflexivity.
Qed.

(** X21. The chart that ends the customer panel is drawn exactly when a
    customer is selected, a filtered dataset has a row and the customer
    table above it renders. Every trace is then the trace of a selected
    customer and a year: its bars are the months with a filtered row of
    that customer, ascending, each as high as the grouped sum of the
    amounts of that customer's filtered rows of the month; every selected
    customer with a filtered row in a year has such a trace. The amounts
    of a row of the table above are the grouped sums of the same rows over
    the whole year. *)
Theorem customer_chart_traces :
  (customer_chart df_prev df_curr filters = None
   <-> customers filters = []
       \/ (apply_filters df_prev filters = []
           /\ apply_filters df_curr filters = [])
       \/ forallb formats (customer_table (apply_filters df_prev filters)
                                     (apply_filters df_curr filters))
          = false)
  /\ (forall traces,
        customer_chart df_prev df_curr filters = Some traces ->
        (forall t, In t traces ->
           exists k,
             In k (customers filters)
             /\ (trace_for (display_name Customer Name df_curr k
                            ++ prev_year_suffix)
                           (fun r => String.eqb (Customer r) k)
                           (apply_filters df_prev filters) t
                 \/ trace_for (display_name Customer Name df_curr k
                               ++ curr_year_suffix)
                              (fun r => String.eqb (Customer r) k)
                              (apply_filters df_curr filters) t))
        /\ (forall k r, In k (customers filters) -> Customer r = k ->
              (In r (apply_filters df_prev filters) ->
               exists t, In t traces
                         /\ trace_for (display_name Customer Name
                                                    df_curr k
                                       ++ prev_year_suffix)
                                      (fun r => String.eqb (Customer r) k)
                                      (apply_filters df_prev filters) t)
              /\ (In r (apply_filters df_curr filters) ->
                  exists t, In t traces
                            /\ trace_for (display_name Customer Name
                                                       df_curr k
                                          ++ curr_year_suffix)
                                         (fun r => String.eqb (Customer r) k)
                                         (apply_filters df_curr filters) t))
        /\ (forall row,
              In row (data_rows (customer_table (apply_filters df_prev filters)
                                           (apply_filters df_curr filters))) ->
              amount_prev row
              = sum (map DS_Da_Tru_CK
                         (filter (fun r => String.eqb (Customer r) (entity row))
                                 (apply_filters df_prev filters)))
              /\ amount_curr row
                 = sum (map DS_Da_Tru_CK
                            (filter (fun r => String.eqb (Customer r)
                                                         (entity row))
                                    (apply_filters df_curr filters))))).
Proof.
  split.
  - rewrite customer_chart_cases.
    destruct (forallb formats _) eqn:Fmt;
      destruct (apply_filters df_prev filters) as [|p ps];
      destruct (apply_filters df_curr filters) as [|c cs];
      destruct (customers filters) as [|s0 ss]; cbn [empty negb andb];
      (split;
       [ intros H; try discriminate H; auto
       | intros [E|[[E1 E2]|E]]; congruence ]).
  - intros traces E. rewrite (customer_chart_traces_of E).
    split; [|split].
    + intros t Ht.
      apply (@key_traces_sound (fun r => Some (Customer r)) _ _ _ _ t Ht).
    + intros k r Hk Er.
      destruct (@key_traces_complete (fun r => Some (Customer r))
                  (display_name Customer Name df_curr)
                  (customers filters)
                  (apply_filters df_prev filters)
                  (apply_filters df_curr filters) k Hk) as (Cp & Cc).
      split; intros Hr; [apply Cp | apply Cc];
        apply nonempty_filter_iff; exists r; (split; [exact Hr|]);
        unfold key_is; rewrite Er; apply String.eqb_refl.
    + intros row Hrow.
      apply (@data_row_amounts Customer Name _ _ row Hrow).
Qed.

Lemma product_chart_cases :
  product_chart df_prev df_curr filters
  = if empty (apply_filters df_prev filters)
       && empty (apply_filters df_curr filters)
    then None
    else if negb (forallb formats
                          (product_table (apply_filters df_prev filters)
                                     (apply_filters df_curr filters)))
    then None
    else if negb (empty (materials filters))
         then Some (key_traces (display_name Material Item_Description df_curr)
                               (materials filters)
                               (trend_by_month_and
                                  (fun r => Some (Material r))
                                  (apply_filters df_prev filters))
                               (trend_by_month_and
                                  (fun r => Some (Material r))
                                  (apply_filters df_curr filters)))
         else None.
Proof.
  unfold product_chart.
  destruct (empty (apply_filters df_prev filters)
            && empty (apply_filters df_curr filters)) eqn:Both;
    [reflexivity|].
  destruct (negb (forallb formats _)); [reflexivity|].
  destruct (materials filters) as [|s0 ss] eqn:Es; [reflexivity|].
  cbn [empty negb]. rewrite <- Es.
  assert (Ns : materials filters <> []) by (rewrite Es; discriminate).
  rewrite !(kept_material_selected _ Ns).
  destruct (apply_filters df_prev filters);
    destruct (apply_filters df_curr filters);
    [discriminate Both | reflexivity | reflexivity | reflexivity].
Qed.

Lemma product_chart_traces_of (traces : list Trace) :
  product_chart df_prev df_curr filters = Some traces ->
  traces = key_traces (display_name Material Item_Description df_curr)
                      (materials filters)
                      (trend_by_month_and (fun r => Some (Material r))
                                          (apply_filters df_prev filters))
                      (trend_by_month_and (fun r => Some (Material r))
                                          (apply_filters df_curr filters)).
Proof.
  rewrite product_chart_cases.
  destruct (empty (apply_filters df_prev filters)
            && empty (apply_filters df_curr filters)); [discriminate|].
  destruct (negb (forallb formats _)); [discriminate|].
  destruct (negb (empty (materials filters))); [|discriminate].
  intros E. injection E as <-. reflexivity.
Qed.

(** X22. The chart that ends the product panel is drawn exactly when a
    product is selected, a filtered dataset has a row and the product
    table above it renders. Every trace is then the trace of a selected
    product and a year: its bars are the months with a filtered row of
    that product, ascending, each as high as the grouped sum of the
    amounts of that product's filtered rows of the month; every selected
    product with a filtered row in a year has such a trace. The amounts
    of a row of the table above are the grouped sums of the same rows over
    the whole year. *)
Theorem product_chart_traces :
  (product_chart df_prev df_curr filters = None
   <-> materials filters = []
       \/ (apply_filters df_prev filters = []
           /\ apply_filters df_curr filters = [])
       \/ forallb formats (product_table (apply_filters df_prev filters)
                                     (apply_filters df_curr filters))
          = false)
  /\ (forall traces,
        product_chart df_prev df_curr filters = Some traces ->
        (forall t, In t traces ->
           exists k,
             In k (materials filters)
             /\ (trace_for (display_name Material Item_Description df_curr k
                            ++ prev_year_suffix)
                           (fun r => String.eqb (Material r) k)
                           (apply_filters df_prev filters) t
                 \/ trace_for (display_name Material Item_Description df_curr k
                               ++ curr_year_suffix)
                              (fun r => String.eqb (Material r) k)
                              (apply_filters df_curr filters) t))
        /\ (forall k r, In k (materials filters) -> Material r = k ->
              (In r (apply_filters df_prev filters) ->
               exists t, In t traces
                         /\ trace_for (display_name Material Item_Description
                                                    df_curr k
                                       ++ prev_year_suffix)
                                      (fun r => String.eqb (Material r) k)
                                      (apply_filters df_prev filters) t)
              /\ (In r (apply_filters df_curr filters) ->
                  exists t, In t traces
                            /\ trace_for (display_name Material Item_Description
                                                       df_curr k
                                          ++ curr_year_suffix)
                                         (fun r => String.eqb (Material r) k)
                                         (apply_filters df_curr filters) t))
        /\ (forall row,
              In row (data_rows (product_table (apply_filters df_prev filters)
                                           (apply_filters df_curr filters))) ->
              amount_prev row
              = sum (map DS_Da_Tru_CK
                         (filter (fun r => String.eqb (Material r) (entity row))
                                 (apply_filters df_prev filters)))
              /\ amount_curr row
                 = sum (map DS_Da_Tru_CK
                            (filter (fun r => String.eqb (Material r)
                                                         (entity row))
                                    (apply_filters df_curr filters))))).
Proof.
  split.
  - rewrite product_chart_cases.
    destruct (forallb formats _) eqn:Fmt;
      destruct (apply_filters df_prev filters) as [|p ps];
      destruct (apply_filters df_curr filters) as [|c cs];
      destruct (materials filters) as [|s0 ss]; cbn [empty negb andb];
      (split;
       [ intros H; try discriminate H; auto
       | intros [E|[[E1 E2]|E]]; congruence ]).
  - intros traces E. rewrite (product_chart_traces_of E).
    split; [|split].
    + intros t Ht.
      apply (@key_traces_sound (fun r => Some (Material r)) _ _ _ _ t Ht).
    + intros k r Hk Er.
      destruct (@key_traces_complete (fun r => Some (Material r))
                  (display_name Material Item_Description df_curr)
                  (materials filters)
                  (apply_filters df_prev filters)
                  (apply_filters df_curr filters) k Hk) as (Cp & Cc).
      split; intros Hr; [apply Cp | apply Cc];
        apply nonempty_filter_iff; exists r; (split; [exact Hr|]);
        unfold key_is; rewrite Er; apply String.eqb_refl.
    + intros row Hrow.
      apply (@data_row_amounts Material Item_Description _ _ row Hrow).
Qed.

(** X29. For whole amounts, which floats add without rounding, the bars
    of a chart add up: those of a year's trace of the overview trend chart
    to that year's headline total, and those of a trace of the customer
    chart or of the product chart to the summed amount of the filtered
    rows of its customer or product in its year, the amount the table
    above the chart shows for it. *)
Theorem chart_bars_add_up :
  whole_amounts (apply_filters df_prev filters) ->
  whole_amounts (apply_filters df_curr filters) ->
  (forall traces t,
     overview_chart df_prev df_curr filters = Some traces ->
     In t traces ->
     (trace_name t = prev_year_name ->
      sum (map snd (bars t)) == total_amount (apply_filters df_prev filters))
     /\ (trace_name t = curr_year_name ->
         sum (map snd (bars t))
         == total_amount (apply_filters df_curr filters)))
  /\ (forall traces t,
        customer_chart df_prev df_curr filters = Some traces ->
        In t traces ->
        exists k,
          In k (customers filters)
          /\ ((trace_name t
               = (display_name Customer Name df_curr k
                  ++ prev_year_suffix)%string
               /\ sum (map snd (bars t))
                  == sum (map DS_Da_Tru_CK
                              (filter (fun r => String.eqb (Customer r) k)
                                      (apply_filters df_prev filters))))
              \/ (trace_name t
                  = (display_name Customer Name df_curr k
                     ++ curr_year_suffix)%string
                  /\ sum (map snd (bars t))
                     == sum (map DS_Da_Tru_CK
                                 (filter (fun r => String.eqb (Customer r) k)
                                         (apply_filters df_curr filters))))))
  /\ (forall traces t,
        product_chart df_prev df_curr filters = Some traces ->
        In t traces ->
        exists k,
          In k (materials filters)
          /\ ((trace_name t
               = (display_name Material Item_Description df_curr k
                  ++ prev_year_suffix)%string
               /\ sum (map snd (bars t))
                  == sum (map DS_Da_Tru_CK
                              (filter (fun r => String.eqb (Material r) k)
                                      (apply_filters df_prev filters))))
              \/ (trace_name t
                  = (display_name Material Item_Description df_curr k
                     ++ curr_year_suffix)%string
                  /\ sum (map snd (bars t))
                     == sum (map DS_Da_Tru_CK
                                 (filter (fun r => String.eqb (Material r) k)
                                         (apply_filters df_curr filters)))))).
Proof.
  intros _ _. split; [|split].
  - intros traces t E Ht. apply (@overview_bars_add_up _ _ _ _ _ E Ht).
  - intros traces t E Ht. rewrite (customer_chart_traces_of E) in Ht.
    apply (@key_traces_sums (fun r => Some (Customer r)) _ _ _ _ t Ht).
  - intros traces t E Ht. rewrite (product_chart_traces_of E) in Ht.
    apply (@key_traces_sums (fun r => Some (Material r)) _ _ _ _ t Ht).
Qed.

End SelectionCharts.

Lemma chart_bars_add_up_witness :
  sum (map snd (bars (nth 0 two_customers_chart no_trace)))
  == total_amount (apply_filters graded_customers two_customers_selected).
Proof.
  refine (proj2 (proj1 (@chart_bars_add_up
                          one_previous_sale graded_customers
                          two_customers_selected _ _)
                       two_customers_chart
                       (nth 0 two_customers_chart no_trace) _ _) _).
  - whole_amounts_by_evaluation.
  - whole_amounts_by_evaluation.
  - vm_compute. reflexivity.
  - vm_compute. left. reflexivity.
  - vm_compute. reflexivity.
Defined.

(** ** The sales rep panel *)

Section RepPanel.

Lemma opt_eqb_spec (a b : option string) : opt_eqb a b = true <-> a = b.
Proof.
  destruct a as [x|], b as [y|]; cbn; try (split; congruence).
  rewrite String.eqb_eq. split; congruence.
Qed.

Lemma dropna_In {A : Type} (l : list (option A)) (a : A) :
  In a (dropna l) <-> In (Some a) l.
Proof.
  unfold dropna. rewrite in_flat_map. split.
  - intros ([x|] & Hx & H); [|contradiction].
    destruct H as [<-|[]]. exact Hx.
  - intros H. exists (Some a). split; [exact H | left; reflexivity].
Qed.

Lemma rep_is_opt_eqb (tdv : string) (r : Transaction) :
  rep_is tdv r = opt_eqb (Ten_TDV r) (Some tdv).
Proof. unfold rep_is. destruct (Ten_TDV r); reflexivity. Qed.

Lemma rep_sums_partition (df : DataFrame) (reps : list string) :
  NoDup reps ->
  (forall r, In r df -> exists t, Ten_TDV r = Some t /\ In t reps) ->
  sum (map (fun k => sum (map DS_Da_Tru_CK (filter (rep_is k) df))) reps)
  == sum (map DS_Da_Tru_CK df).
Proof.
  intros ND Cover.
  rewrite <- (@partition_sum (option string) Transaction opt_eqb opt_eqb_spec
                Ten_TDV DS_Da_Tru_CK df (map Some reps)).
  - rewrite map_map. apply sum_map_ext. intros k _.
    rewrite (filter_same (rep_is k) (fun x => opt_eqb (Ten_TDV x) (Some k)));
      [reflexivity|]. intros r. apply rep_is_opt_eqb.
  - apply NoDup_map_injective; [exact ND|]. intros x y _ _ E. congruence.
  - intros r Hr. destruct (Cover r Hr) as (t & -> & Ht). apply in_map, Ht.
Qed.

Lemma rep_is_has_rep (df : DataFrame) (k : string) :
  filter (rep_is k) (filter has_rep df) = filter (rep_is k) df.
Proof.
  rewrite filter_filter. apply filter_same. intros r.
  unfold has_rep, rep_is. destruct (Ten_TDV r); reflexivity.
Qed.

Lemma tdv_sales_labels (df : DataFrame) :
  map fst (tdv_sales df) = group_keys (dropna (map Ten_TDV df)).
Proof.
  unfold tdv_sales. destruct df as [|r df]; [reflexivity|].
  cbn [empty negb]. rewrite map_map. cbn [fst]. apply map_id.
Qed.

Lemma tdv_sales_total (df : DataFrame) :
  sum (map snd (tdv_sales df))
  == sum (map DS_Da_Tru_CK (filter has_rep df)).
Proof.
  unfold tdv_sales. destruct df as [|r0 df]; [reflexivity|].
  cbn [empty negb]. rewrite map_map. cbn [snd].
  set (d := r0 :: df).
  rewrite (sum_map_ext
             (fun k => sum (map DS_Da_Tru_CK (filter (rep_is k) d)))
             (fun k => sum (map DS_Da_Tru_CK
                                (filter (rep_is k) (filter has_rep d))))).
  - apply rep_sums_partition; [apply group_keys_NoDup|].
    intros r Hr. apply filter_In in Hr as (Hr & Hh). unfold has_rep in Hh.
    destruct (Ten_TDV r) as [t|] eqn:Et; [|discriminate].
    exists t. split; [reflexivity|].
    apply group_keys_In, dropna_In. rewrite <- Et. apply in_map, Hr.
  - intros k _. rewrite rep_is_has_rep. reflexivity.
Qed.

Lemma tdv_sales_slice (df : DataFrame) (k : string) (v : Q) :
  In (k, v) (tdv_sales df) ->
  (exists r, In r df /\ Ten_TDV r = Some k)
  /\ v = sum (map DS_Da_Tru_CK (filter (rep_is k) df)).
Proof.
  unfold tdv_sales. destruct df as [|r0 df]; [contradiction|].
  cbn [empty negb]. intros H. apply in_map_iff in H as (k' & E & Hk).
  injection E as -> <-. split; [|reflexivity].
  apply (proj1 (group_keys_In _ _)) in Hk. apply dropna_In in Hk.
  apply in_map_iff in Hk as (r & Er & Hr). eauto.
Qed.

Variables df_prev df_curr : DataFrame.
Variable filters : Filters.

Lemma selected_rows_have_rep (df : DataFrame) (r : Transaction) :
  tdvs filters <> [] -> In r (apply_filters_tdv df filters) ->
  exists t, Ten_TDV r = Some t /\ In t (tdvs filters).
Proof.
  intros N Hr. rewrite apply_filters_tdv_single_pass in Hr.
  apply filter_In in Hr as (_ & K). unfold keeps in K.
  apply andb_true_iff in K as (_ & K).
  destruct (tdvs filters); [congruence|]. cbn [empty orb] in K.
  apply isin_opt_In, K.
Qed.

Lemma selected_rows_all_have_rep (df : DataFrame) :
  tdvs filters <> [] ->
  filter has_rep (apply_filters_tdv df filters) = apply_filters_tdv df filters.
Proof.
  intros N. apply filter_all_in. intros r Hr.
  destruct (selected_rows_have_rep _ _ N Hr) as (t & E & _).
  unfold has_rep. rewrite E. reflexivity.
Qed.

Lemma rep_customer_table_eq (tdv : string) (fp fc : DataFrame) :
  rep_customer_table tdv fp fc
  = customer_table (filter (rep_is tdv) fp) (filter (rep_is tdv) fc).
Proof.
  unfold rep_customer_table, customer_table, sales_table.
  destruct fp; destruct fc; reflexivity.
Qed.

Lemma take_while_all {A : Type} (p : A -> bool) (l : list A) :
  forallb p l = true -> take_while p l = l.
Proof.
  induction l as [|x l IH]; [reflexivity|]. cbn [forallb take_while].
  destruct (p x); [|discriminate]. intros H. rewrite (IH H). reflexivity.
Qed.

Lemma run_rep_tables (f : string -> list TableRow) (l : list string) :
  run_steps tdv_failure
            (map (fun tdv => st_dataframe (f tdv) (TdvTable tdv (f tdv))) l)
  = map (fun tdv => TdvTable tdv (f tdv))
        (take_while (fun tdv => forallb formats (f tdv)) l)
    ++ (if forallb (fun tdv => forallb formats (f tdv)) l then []
        else tdv_failure format_error_text).
Proof.
  induction l as [|x l IH]; [reflexivity|].
  cbn [map run_steps take_while forallb]. unfold st_dataframe at 1.
  destruct (forallb formats (f x)); [|reflexivity].
  cbn [run_steps andb map app]. rewrite IH. reflexivity.
Qed.

Lemma plot_tdv_analysis_cases :
  plot_tdv_analysis df_prev df_curr filters
  = if empty (apply_filters_tdv df_prev filters)
       && empty (apply_filters_tdv df_curr filters)
    then [TdvWarning no_data_text]
    else
      TdvPies (tdv_sales (apply_filters_tdv df_prev filters))
              (tdv_sales (apply_filters_tdv df_curr filters))
      :: TdvChart (key_traces (fun tdv => tdv)
                              (if negb (empty df_curr) then tdvs filters
                               else [])
                              (trend_by_month_and
                                 Ten_TDV (apply_filters_tdv df_prev filters))
                              (trend_by_month_and
                                 Ten_TDV (apply_filters_tdv df_curr filters)))
      :: map (fun tdv =>
                TdvTable tdv (rep_customer_table
                                tdv (apply_filters_tdv df_prev filters)
                                (apply_filters_tdv df_curr filters)))
             (take_while (rep_table_renders df_prev df_curr filters)
                         (tdvs filters))
         ++ (if forallb (rep_table_renders df_prev df_curr filters)
                        (tdvs filters)
             then [] else tdv_failure format_error_text).
Proof.
  unfold plot_tdv_analysis.
  destruct (empty (apply_filters_tdv df_prev filters)
            && empty (apply_filters_tdv df_curr filters)); [reflexivity|].
  cbn [run_steps app]. f_equal. f_equal.
  destruct (tdvs filters) as [|t ts] eqn:Et; [reflexivity|].
  cbn [empty negb].
  apply (run_rep_tables
           (fun tdv => rep_customer_table
                         tdv (apply_filters_tdv df_prev filters)
                         (apply_filters_tdv df_curr filters))).
Qed.

Lemma tdv_failure_rest (o : tdv_output) (l : list string)
      (f : string -> list TableRow) (failed : bool) :
  In o (map (fun tdv => TdvTable tdv (f tdv)) l
        ++ (if failed then [] else tdv_failure format_error_text)) ->
  (exists tdv, o = TdvTable tdv (f tdv))
  \/ (exists text, o = TdvLog text) \/ (exists text, o = TdvError text).
Proof.
  intros H. apply in_app_or in H as [H|H].
  - apply in_map_iff in H as (tdv & <- & _). left. eauto.
  - destruct failed; [contradiction|].
    destruct H as [<-|[<-|[]]]; right; [left | right]; eauto.
Qed.

Lemma tdv_pies_in (sp sc : list (string * Q)) :
  In (TdvPies sp sc) (plot_tdv_analysis df_prev df_curr filters) ->
  sp = tdv_sales (apply_filters_tdv df_prev filters)
  /\ sc = tdv_sales (apply_filters_tdv df_curr filters).
Proof.
  rewrite plot_tdv_analysis_cases.
  destruct (empty (apply_filters_tdv df_prev filters)
            && empty (apply_filters_tdv df_curr filters)).
  { intros [E|[]]. discriminate. }
  intros [E|[E|H]]; [injection E as <- <-; auto | discriminate |].
  apply tdv_failure_rest in H as [(x & E)|[(x & E)|(x & E)]]; discriminate.
Qed.

Lemma tdv_chart_in (traces : list Trace) :
  In (TdvChart traces) (plot_tdv_analysis df_prev df_curr filters) ->
  traces = key_traces (fun tdv => tdv)
                      (if negb (empty df_curr) then tdvs filters else [])
                      (trend_by_month_and
                         Ten_TDV (apply_filters_tdv df_prev filters))
                      (trend_by_month_and
                         Ten_TDV (apply_filters_tdv df_curr filters)).
Proof.
  rewrite plot_tdv_analysis_cases.
  destruct (empty (apply_filters_tdv df_prev filters)
            && empty (apply_filters_tdv df_curr filters)).
  { intros [E|[]]. discriminate. }
  intros [E|[E|H]]; [discriminate | injection E as <-; reflexivity |].
  apply tdv_failure_rest in H as [(x & E)|[(x & E)|(x & E)]]; discriminate.
Qed.

Lemma rep_tables_map (f : string -> list TableRow) (l : list string) :
  rep_tables (map (fun tdv => TdvTable tdv (f tdv)) l)
  = map (fun tdv => (tdv, f tdv)) l.
Proof.
  unfold rep_tables. induction l as [|x l IH]; [reflexivity|].
  cbn [map flat_map app]. cbn in IH. rewrite IH. reflexivity.
Qed.

Lemma rep_tables_shown :
  ~ (apply_filters_tdv df_prev filters = []
     /\ apply_filters_tdv df_curr filters = []) ->
  rep_tables (plot_tdv_analysis df_prev df_curr filters)
  = map (fun tdv =>
           (tdv, customer_table
                   (filter (rep_is tdv) (apply_filters_tdv df_prev filters))
                   (filter (rep_is tdv) (apply_filters_tdv df_curr filters))))
        (take_while (rep_table_renders df_prev df_curr filters)
                    (tdvs filters)).
Proof.
  intros Shown. rewrite plot_tdv_analysis_cases.
  assert (B : empty (apply_filters_tdv df_prev filters)
              && empty (apply_filters_tdv df_curr filters) = false).
  { destruct (apply_filters_tdv df_prev filters);
      destruct (apply_filters_tdv df_curr filters); try reflexivity.
    elim Shown. auto. }
  rewrite B.
  change (rep_tables (?a :: ?b :: ?l)) with (rep_tables l).
  unfold rep_tables at 1. rewrite flat_map_app. fold (rep_tables).
  replace (flat_map _ (if forallb _ _ then [] else _))
    with (@nil (string * list TableRow))
    by (destruct (forallb _ (tdvs filters)); reflexivity).
  rewrite app_nil_r.
  rewrite (rep_tables_map
             (fun tdv => rep_customer_table
                           tdv (apply_filters_tdv df_prev filters)
                           (apply_filters_tdv df_curr filters))).
  apply map_ext. intros tdv. rewrite rep_customer_table_eq. reflexivity.
Qed.

(** X23. Each pie of the sales rep panel has one slice per sales rep that
    occurs in the filtered dataset of its year, no rep twice, and a slice
    holds the grouped sum of the amounts of that rep's filtered rows; a
    row without a rep is in no slice. *)
Theorem tdv_pie_slices (slices_prev slices_curr : list (string * Q)) :
  In (TdvPies slices_prev slices_curr)
     (plot_tdv_analysis df_prev df_curr filters) ->
  forall df slices,
    (df = df_prev /\ slices = slices_prev)
    \/ (df = df_curr /\ slices = slices_curr) ->
    NoDup (map fst slices)
    /\ (forall k, In k (map fst slices)
                  <-> exists r, In r (apply_filters_tdv df filters)
                                /\ Ten_TDV r = Some k)
    /\ (forall k v, In (k, v) slices ->
          v = sum (map DS_Da_Tru_CK
                       (filter (rep_is k) (apply_filters_tdv df filters)))).
Proof.
  intros H df slices Which.
  destruct (tdv_pies_in _ _ H) as (Ep & Ec).
  assert (E : slices = tdv_sales (apply_filters_tdv df filters)).
  { destruct Which as [[-> ->]|[-> ->]]; assumption. }
  rewrite E. split; [|split].
  - rewrite tdv_sales_labels. apply group_keys_NoDup.
  - intros k. rewrite tdv_sales_labels. split.
    + intros Hk. apply (proj1 (group_keys_In _ _)) in Hk.
      apply dropna_In in Hk. apply in_map_iff in Hk as (r & Er & Hr). eauto.
    + intros (r & Hr & Er). apply group_keys_In, dropna_In.
      rewrite <- Er. apply in_map, Hr.
  - intros k v Hk. apply (tdv_sales_slice _ _ _ Hk).
Qed.

(** X24. When the sales rep panel is shown it draws the customer tables of
    the selected reps in selection order, each built like the customer
    table of the customer panel from that rep's filtered rows, up to the
    first table that fails to render: when every table renders there is
    one table per selected rep and no error message; otherwise the panel
    ends with the logged and displayed format error. Without a selected
    rep there is no such table. *)
Theorem rep_tables_cover_selection :
  ~ (apply_filters_tdv df_prev filters = []
     /\ apply_filters_tdv df_curr filters = []) ->
  rep_tables (plot_tdv_analysis df_prev df_curr filters)
  = map (fun tdv =>
           (tdv, customer_table
                   (filter (rep_is tdv) (apply_filters_tdv df_prev filters))
                   (filter (rep_is tdv) (apply_filters_tdv df_curr filters))))
        (take_while (rep_table_renders df_prev df_curr filters)
                    (tdvs filters))
  /\ (forallb (rep_table_renders df_prev df_curr filters) (tdvs filters)
      = true ->
      map fst (rep_tables (plot_tdv_analysis df_prev df_curr filters))
      = tdvs filters
      /\ forall text,
           ~ In (TdvError text) (plot_tdv_analysis df_prev df_curr filters))
  /\ (forallb (rep_table_renders df_prev df_curr filters) (tdvs filters)
      = false ->
      exists shown,
        plot_tdv_analysis df_prev df_curr filters
        = shown ++ tdv_failure format_error_text)
  /\ (tdvs filters = [] ->
      rep_tables (plot_tdv_analysis df_prev df_curr filters) = []).
Proof.
  intros Shown.
  assert (B : empty (apply_filters_tdv df_prev filters)
              && empty (apply_filters_tdv df_curr filters) = false).
  { destruct (apply_filters_tdv df_prev filters);
      destruct (apply_filters_tdv df_curr filters); try reflexivity.
    elim Shown. auto. }
  split; [apply rep_tables_shown, Shown|]. split; [|split].
  - intros All. split.
    + rewrite (rep_tables_shown Shown), map_map. cbn [fst].
      rewrite map_id. apply take_while_all, All.
    + intros text. rewrite plot_tdv_analysis_cases, B, All.
      intros [E|[E|H]]; [discriminate | discriminate |].
      apply in_app_or in H as [H|[]].
      apply in_map_iff in H as (tdv & E & _). discriminate.
  - intros Some_fails. rewrite plot_tdv_analysis_cases, B, Some_fails.
    eexists (_ :: _ :: _). reflexivity.
  - intros None_selected. rewrite (rep_tables_shown Shown), None_selected.
    reflexivity.
Qed.

(** X31. For whole amounts, which floats add without rounding, the slices
    of each pie of the sales rep panel add up to the amount of the
    filtered rows that carry a rep, which is the whole filtered total as
    soon as a rep is selected; and when no rep is selected twice and every
    table renders, the totals rows of the per-rep customer tables add up
    to the filtered totals of the two years. *)
Theorem rep_amounts_add_up :
  whole_amounts (apply_filters_tdv df_prev filters) ->
  whole_amounts (apply_filters_tdv df_curr filters) ->
  ~ (apply_filters_tdv df_prev filters = []
     /\ apply_filters_tdv df_curr filters = []) ->
  (forall slices_prev slices_curr,
     In (TdvPies slices_prev slices_curr)
        (plot_tdv_analysis df_prev df_curr filters) ->
     sum (map snd slices_prev)
     == sum (map DS_Da_Tru_CK
                 (filter has_rep (apply_filters_tdv df_prev filters)))
     /\ sum (map snd slices_curr)
        == sum (map DS_Da_Tru_CK
                    (filter has_rep (apply_filters_tdv df_curr filters)))
     /\ (tdvs filters <> [] ->
         sum (map snd slices_prev)
         == total_amount (apply_filters_tdv df_prev filters)
         /\ sum (map snd slices_curr)
            == total_amount (apply_filters_tdv df_curr filters)))
  /\ (NoDup (tdvs filters) -> tdvs filters <> [] ->
      forallb (rep_table_renders df_prev df_curr filters) (tdvs filters)
      = true ->
      sum (map (fun x => amount_prev (totals (snd x)))
               (rep_tables (plot_tdv_analysis df_prev df_curr filters)))
      == total_amount (apply_filters_tdv df_prev filters)
      /\ sum (map (fun x => amount_curr (totals (snd x)))
                  (rep_tables (plot_tdv_analysis df_prev df_curr filters)))
         == total_amount (apply_filters_tdv df_curr filters)).
Proof.
  intros _ _ Shown. split.
  - intros sp sc H. destruct (tdv_pies_in _ _ H) as (-> & ->).
    split; [apply tdv_sales_total|]. split; [apply tdv_sales_total|].
    intros N. rewrite !tdv_sales_total, !(selected_rows_all_have_rep _ N).
    rewrite !total_amount_sum. split; reflexivity.
  - intros ND N All. rewrite (rep_tables_shown Shown).
    rewrite (take_while_all _ _ All), !map_map. cbn [snd]. split.
    + rewrite (sum_map_ext _
                 (fun k => sum (map DS_Da_Tru_CK
                                    (filter (rep_is k)
                                            (apply_filters_tdv df_prev
                                                               filters))))).
      * rewrite total_amount_sum. apply rep_sums_partition; [exact ND|].
        intros r Hr. apply (selected_rows_have_rep _ _ N Hr).
      * intros k _. unfold customer_table.
        rewrite (proj1 (totals_row_matches_datasets Customer Name _ _)).
        apply total_amount_sum_eq.
    + rewrite (sum_map_ext _
                 (fun k => sum (map DS_Da_Tru_CK
                                    (filter (rep_is k)
                                            (apply_filters_tdv df_curr
                                                               filters))))).
      * rewrite total_amount_sum. apply rep_sums_partition; [exact ND|].
        intros r Hr. apply (selected_rows_have_rep _ _ N Hr).
      * intros k _. unfold customer_table.
        rewrite (proj2 (totals_row_matches_datasets Customer Name _ _)).
        apply total_amount_sum_eq.
Qed.

(** X25. The monthly chart of the sales rep panel loops over the selected
    reps only when the unfiltered current dataset has a row: with an empty
    current dataset, or with no rep selected, the chart has no trace at
    all. Otherwise every trace is the trace of a selected rep and a year,
    and every selected rep with a filtered row in a year has one. *)
Theorem tdv_chart_traces (traces : list Trace) :
  In (TdvChart traces) (plot_tdv_analysis df_prev df_curr filters) ->
  (df_curr = [] \/ tdvs filters = [] -> traces = [])
  /\ (forall t, In t traces ->
        exists tdv,
          In tdv (tdvs filters)
          /\ (trace_for (tdv ++ prev_year_suffix) (rep_is tdv)
                        (apply_filters_tdv df_prev filters) t
              \/ trace_for (tdv ++ curr_year_suffix) (rep_is tdv)
                           (apply_filters_tdv df_curr filters) t))
  /\ (df_curr <> [] ->
      forall tdv r, In tdv (tdvs filters) -> Ten_TDV r = Some tdv ->
        (In r (apply_filters_tdv df_prev filters) ->
         exists t, In t traces
                   /\ trace_for (tdv ++ prev_year_suffix) (rep_is tdv)
                                (apply_filters_tdv df_prev filters) t)
        /\ (In r (apply_filters_tdv df_curr filters) ->
            exists t, In t traces
                      /\ trace_for (tdv ++ curr_year_suffix) (rep_is tdv)
                                   (apply_filters_tdv df_curr filters) t)).
Proof.
  intros H. rewrite (tdv_chart_in _ H). split; [|split].
  - intros [->| ->]; [reflexivity|]. destruct (negb (empty df_curr)); reflexivity.
  - intros t Ht.
    destruct (@key_traces_sound Ten_TDV (fun tdv => tdv) _ _ _ t Ht)
      as (k & Hk & Hor).
    exists k. split; [|exact Hor].
    destruct (negb (empty df_curr)); [exact Hk | contradiction].
  - intros Nc tdv r Hk Er.
    assert (Sel : (if negb (empty df_curr) then tdvs filters else [])
                  = tdvs filters).
    { destruct df_curr; [congruence | reflexivity]. }
    rewrite Sel.
    destruct (@key_traces_complete Ten_TDV (fun tdv => tdv) (tdvs filters)
                (apply_filters_tdv df_prev filters)
                (apply_filters_tdv df_curr filters) tdv Hk) as (Cp & Cc).
    split; intros Hr; [apply Cp | apply Cc];
      apply nonempty_filter_iff; exists r; (split; [exact Hr|]);
      unfold key_is; rewrite Er; apply String.eqb_refl.
Qed.

End RepPanel.

Lemma tdv_pie_slices_witness :
  NoDup (map fst (tdv_sales (apply_filters_tdv mixed_reps two_reps_selected)))
  /\ (forall k,
        In k (map fst (tdv_sales (apply_filters_tdv mixed_reps
                                                    two_reps_selected)))
        <-> exists r, In r (apply_filters_tdv mixed_reps two_reps_selected)
                      /\ Ten_TDV r = Some k)
  /\ (forall k v,
        In (k, v) (tdv_sales (apply_filters_tdv mixed_reps two_reps_selected)) ->
        v = sum (map DS_Da_Tru_CK
                     (filter (rep_is k)
                             (apply_filters_tdv mixed_reps
                                                two_reps_selected)))).
Proof.
  apply (@tdv_pie_slices one_previous_sale mixed_reps two_reps_selected
           (tdv_sales (apply_filters_tdv one_previous_sale two_reps_selected))
           (tdv_sales (apply_filters_tdv mixed_reps two_reps_selected))).
  - vm_compute. left. reflexivity.
  - right. split; reflexivity.
Defined.

Lemma rep_tables_cover_selection_witness :
  map fst (rep_tables (plot_tdv_analysis one_previous_sale mixed_reps
                                         two_reps_selected))
  = tdvs two_reps_selected.
Proof.
  refine (proj1 (proj1 (proj2 (@rep_tables_cover_selection
                                 one_previous_sale mixed_reps
                                 two_reps_selected _)) _)).
  - intros [_ E]. vm_compute in E. discriminate E.
  - vm_compute. reflexivity.
Defined.

Lemma rep_amounts_add_up_witness :
  sum (map (fun x => amount_curr (totals (snd x)))
           (rep_tables (plot_tdv_analysis one_previous_sale mixed_reps
                                          two_reps_selected)))
  == total_amount (apply_filters_tdv mixed_reps two_reps_selected).
Proof.
  refine (proj2 (proj2 (@rep_amounts_add_up
                          one_previous_sale mixed_reps two_reps_selected
                          _ _ _) _ _ _)).
  - whole_amounts_by_evaluation.
  - whole_amounts_by_evaluation.
  - intros [_ E]. vm_compute in E. discriminate E.
  - vm_compute. apply NoDup_cons; [intros [E|[]]; discriminate E|].
    apply NoDup_cons; [intros []|apply NoDup_nil].
  - vm_compute. discriminate.
  - vm_compute. reflexivity.
Defined.

Lemma tdv_chart_traces_witness :
  (two_years = [] \/ tdvs two_reps_selected = [] ->
   key_traces (fun tdv => tdv) (tdvs two_reps_selected)
              (trend_by_month_and
                 Ten_TDV (apply_filters_tdv mixed_reps two_reps_selected))
              (trend_by_month_and
                 Ten_TDV (apply_filters_tdv two_years two_reps_selected))
   = [])
  /\ (forall t,
        In t (key_traces (fun tdv => tdv) (tdvs two_reps_selected)
                (trend_by_month_and
                   Ten_TDV (apply_filters_tdv mixed_reps two_reps_selected))
                (trend_by_month_and
                   Ten_TDV (apply_filters_tdv two_years two_reps_selected))) ->
        exists tdv,
          In tdv (tdvs two_reps_selected)
          /\ (trace_for (tdv ++ prev_year_suffix) (rep_is tdv)
                        (apply_filters_tdv mixed_reps two_reps_selected) t
              \/ trace_for (tdv ++ curr_year_suffix) (rep_is tdv)
                           (apply_filters_tdv two_years two_reps_selected) t))
  /\ (two_years <> [] ->
      forall tdv r, In tdv (tdvs two_reps_selected) -> Ten_TDV r = Some tdv ->
        (In r (apply_filters_tdv mixed_reps two_reps_selected) ->
         exists t,
           In t (key_traces (fun tdv => tdv) (tdvs two_reps_selected)
                   (trend_by_month_and
                      Ten_TDV (apply_filters_tdv mixed_reps two_reps_selected))
                   (trend_by_month_and
                      Ten_TDV (apply_filters_tdv two_years two_reps_selected)))
           /\ trace_for (tdv ++ prev_year_suffix) (rep_is tdv)
                        (apply_filters_tdv mixed_reps two_reps_selected) t)
        /\ (In r (apply_filters_tdv two_years two_reps_selected) ->
            exists t,
              In t (key_traces (fun tdv => tdv) (tdvs two_reps_selected)
                      (trend_by_month_and
                         Ten_TDV (apply_filters_tdv mixed_reps
                                                    two_reps_selected))
                      (trend_by_month_and
                         Ten_TDV (apply_filters_tdv two_years
                                                    two_reps_selected)))
              /\ trace_for (tdv ++ curr_year_suffix) (rep_is tdv)
                           (apply_filters_tdv two_years two_reps_selected) t)).
Proof.
  apply (@tdv_chart_traces mixed_reps two_years two_reps_selected).
  vm_compute. right. left. reflexivity.
Defined.

(** ** The summary frame *)

Section Summary.

Lemma nodup_nonempty {A B : Type} (dec : forall a b : B, {a = b} + {a <> b})
      (f : A -> B) (l : list A) :
  l <> [] -> (1 <= List.length (nodup dec (map f l)))%nat.
Proof.
  destruct l as [|x l]; [congruence|]. intros _.
  assert (H : In (f x) (nodup dec (map f (x :: l)))).
  { apply nodup_In. left. reflexivity. }
  destruct (nodup dec (map f (x :: l))); [contradiction | cbn; lia].
Qed.

Lemma nodup_map_length_le {A B : Type}
      (dec : forall a b : B, {a = b} + {a <> b}) (f : A -> B) (l : list A) :
  (List.length (nodup dec (map f l)) <= List.length l)%nat.
Proof.
  rewrite <- (length_map f l). apply nodup_length_le.
Qed.

Lemma dropna_length_le {A : Type} (l : list (option A)) :
  (List.length (dropna l) <= List.length l)%nat.
Proof.
  unfold dropna. induction l as [|[a|] l IH];
    cbn [flat_map app List.length]; lia.
Qed.

Lemma cleared_filters_keep (df : DataFrame) :
  apply_filters df cleared_filters = df.
Proof.
  unfold apply_filters, cleared_filters, make_filters. cbn.
  apply filter_all. intros r. apply dt_month_in_all_months.
Qed.

Lemma trend_length_le_periods (df : DataFrame) :
  (List.length (trend_by_month df)
   <= List.length (nodup period_dec
                         (map (fun r => to_period_M (Billing_Date r)) df)))%nat.
Proof.
  rewrite <- (length_map fst (trend_by_month df)), trend_by_month_months.
  unfold group_months.
  rewrite (Permutation_length (sort_by_perm Z.leb _)).
  rewrite <- (map_map (fun r => to_period_M (Billing_Date r)) snd).
  apply nodup_projection_le.
Qed.

Variables df_prev df_curr : DataFrame.

(** X26. [get_summary_info] returns nothing, and logs one message, exactly
    when one of the two datasets is empty. Otherwise it is silent and each
    of its two columns counts its own dataset: at least one month, one
    customer and one product and at most as many as there are rows; at
    least as many months as the overview trend has bars; as many sales
    reps as a pie has slices, none exactly when no row carries a rep; and
    the total that the overview shows once every selection is cleared. *)
Theorem summary_figures :
  (snd (get_summary_info df_prev df_curr) = None
   <-> df_prev = [] \/ df_curr = [])
  /\ (snd (get_summary_info df_prev df_curr) = None ->
      fst (get_summary_info df_prev df_curr) = [Log summary_error_text])
  /\ (forall prev curr,
        snd (get_summary_info df_prev df_curr) = Some (prev, curr) ->
        fst (get_summary_info df_prev df_curr) = []
        /\ forall df c,
             (df = df_prev /\ c = prev) \/ (df = df_curr /\ c = curr) ->
             So_dong c = List.length df
             /\ (1 <= So_thang c <= So_dong c)%nat
             /\ (List.length (trend_by_month df) <= So_thang c)%nat
             /\ (1 <= So_KH c <= So_dong c)%nat
             /\ (1 <= So_san_pham c <= So_dong c)%nat
             /\ (So_TDV c <= So_dong c)%nat
             /\ (So_TDV c = 0%nat <-> forall r, In r df -> Ten_TDV r = None)
             /\ So_TDV c = List.length (tdv_sales df)
             /\ Tong_doanh_so c
                == total_amount (apply_filters df cleared_filters)).
Proof.
  unfold get_summary_info. split; [|split].
  - destruct df_prev, df_curr; cbn; split; auto; try discriminate;
      intros [E|E]; discriminate.
  - destruct (empty df_prev || empty df_curr); [reflexivity | discriminate].
  - intros prev curr E.
    destruct (empty df_prev || empty df_curr) eqn:B; [discriminate|].
    apply orb_false_iff in B as (Bp & Bc).
    injection E as <- <-. split; [reflexivity|].
    intros df c Which.
    assert (Hc : c = summary_column df /\ df <> []).
    { destruct Which as [[-> ->]|[-> ->]]; (split; [reflexivity|]);
        intros ->; discriminate. }
    destruct Hc as (-> & Ndf). clear Which.
    unfold summary_column.
    cbn [So_dong So_thang So_KH So_san_pham So_TDV Tong_doanh_so].
    split; [reflexivity|].
    split; [split; [apply nodup_nonempty, Ndf | apply nodup_map_length_le]|].
    split; [apply trend_length_le_periods|].
    split; [split; [apply nodup_nonempty, Ndf | apply nodup_map_length_le]|].
    split; [split; [apply nodup_nonempty, Ndf | apply nodup_map_length_le]|].
    split.
    { etransitivity; [apply nodup_length_le|].
      etransitivity; [apply dropna_length_le|]. rewrite length_map. lia. }
    split.
    { split.
      - intros Z0 r Hr. destruct (Ten_TDV r) as [t|] eqn:Et; [|reflexivity].
        assert (H : In t (nodup string_dec (dropna (map Ten_TDV df)))).
        { apply nodup_In, dropna_In. rewrite <- Et. apply in_map, Hr. }
        destruct (nodup string_dec (dropna (map Ten_TDV df)));
          [contradiction | discriminate Z0].
      - intros Hall.
        destruct (nodup string_dec (dropna (map Ten_TDV df))) as [|t ts] eqn:En;
          [reflexivity|].
        assert (H : In t (nodup string_dec (dropna (map Ten_TDV df))))
          by (rewrite En; left; reflexivity).
        apply nodup_In, dropna_In, in_map_iff in H as (r & Er & Hr).
        rewrite (Hall r Hr) in Er. discriminate Er. }
    split.
    { rewrite <- (length_map fst (tdv_sales df)), tdv_sales_labels.
      unfold group_keys.
      rewrite (Permutation_length (sort_by_perm String.leb _)). reflexivity. }
    rewrite cleared_filters_keep, total_amount_sum. reflexivity.
Qed.

End Summary.

(** ** The sidebar options *)

Section FirstOccurrences.

Variables A K : Type.
Variable eqb : K -> K -> bool.
Hypothesis eqb_spec : forall a b, eqb a b = true <-> a = b.
Variable key : A -> K.

Lemma seen_In (k : K) (seen : list K) :
  existsb (eqb k) seen = true <-> In k seen.
Proof.
  rewrite existsb_exists. split.
  - intros (y & Hy & E). apply eqb_spec in E. subst y. exact Hy.
  - intros H. exists k. split; [exact H | apply eqb_spec; reflexivity].
Qed.

Lemma drop_duplicates_from_In (seen : list K) (l : list A) (x : A) :
  In x (drop_duplicates_from eqb key seen l) ->
  In x l /\ ~ In (key x) seen.
Proof.
  revert seen. induction l as [|y l IH]; intros seen; cbn; [contradiction|].
  destruct (existsb (eqb (key y)) seen) eqn:E.
  - intros H. destruct (IH _ H). auto.
  - intros [<-|H].
    + split; [auto|]. intros Hin. apply seen_In in Hin. congruence.
    + destruct (IH _ H) as (Hl & Hs). split; [auto|].
      intros Hin. apply Hs. right. exact Hin.
Qed.

Lemma drop_duplicates_from_keys (seen : list K) (l : list A) (k : K) :
  In k (map key (drop_duplicates_from eqb key seen l))
  <-> In k (map key l) /\ ~ In k seen.
Proof.
  revert seen. induction l as [|y l IH]; intros seen; cbn [map drop_duplicates_from].
  - cbn. tauto.
  - destruct (existsb (eqb (key y)) seen) eqn:E.
    + rewrite IH. apply seen_In in E. cbn. split.
      * intros (H & N). auto.
      * intros ([<-|H] & N); [contradiction | auto].
    + assert (Ny : ~ In (key y) seen).
      { intros Hin. apply seen_In in Hin. congruence. }
      cbn [map In]. rewrite IH. cbn [In]. split.
      * intros [<-|(H & N)]; [auto|]. split; [auto|].
        intros Hin. apply N. right. exact Hin.
      * intros ([E'|H] & N); [auto|].
        destruct (existsb (eqb k) [key y]) eqn:Ek.
        -- apply seen_In in Ek. destruct Ek as [Ek|[]]. left. exact Ek.
        -- assert (Nk : ~ In k [key y]).
           { intros Hin. apply seen_In in Hin. congruence. }
           right. split; [exact H|]. intros [Eq|Hin]; [|contradiction].
           apply Nk. left. exact Eq.
Qed.

Lemma drop_duplicates_from_NoDup (seen : list K) (l : list A) :
  NoDup (map key (drop_duplicates_from eqb key seen l)).
Proof.
  revert seen. induction l as [|y l IH]; intros seen;
    cbn [map drop_duplicates_from]; [constructor|].
  destruct (existsb (eqb (key y)) seen); [apply IH|].
  cbn [map]. constructor; [|apply IH].
  intros H. apply drop_duplicates_from_keys in H as (_ & N).
  apply N. left. reflexivity.
Qed.

End FirstOccurrences.

Section Sidebar.

Variables df_prev df_curr : DataFrame.

Lemma option_rows_keys (key : Transaction -> string) (k : string) :
  In k (map key (option_rows key df_prev df_curr))
  <-> In k (map key (df_prev ++ df_curr)).
Proof.
  unfold option_rows, drop_duplicates.
  rewrite (drop_duplicates_from_keys String.eqb String.eqb_eq). cbn. tauto.
Qed.

Lemma option_rows_NoDup (key : Transaction -> string) :
  NoDup (map key (option_rows key df_prev df_curr)).
Proof.
  apply (drop_duplicates_from_NoDup String.eqb String.eqb_eq).
Qed.

Lemma NoDup_map_filter {A B : Type} (key : A -> B) (keep : A -> bool)
      (rows : list A) :
  NoDup (map key rows) -> NoDup (map key (filter keep rows)).
Proof.
  intros ND. induction rows as [|x rows IH]; cbn [map filter] in *; [exact ND|].
  inversion ND as [|? ? Hx NDl]; subst.
  destruct (keep x); [|apply IH, NDl]. cbn [map]. constructor; [|apply IH, NDl].
  intros H. apply Hx. apply in_map_iff in H as (y & E & Hy).
  apply filter_In in Hy as (Hy & _). rewrite <- E. apply in_map, Hy.
Qed.

Lemma every_option_selected (key : Transaction -> string)
      (label : Transaction -> option string) (placeholder : string) :
  map key
      (filter (fun r =>
                 isin_str (option_label key label placeholder r)
                          (map (option_label key label placeholder)
                               (option_rows key df_prev df_curr)))
              (option_rows key df_prev df_curr))
  = map key (option_rows key df_prev df_curr).
Proof.
  rewrite filter_all_in; [reflexivity|].
  intros r Hr. apply isin_str_In, in_map, Hr.
Qed.

Lemma dropna_NoDup {A : Type} (l : list (option A)) :
  NoDup l -> NoDup (dropna l).
Proof.
  unfold dropna. induction l as [|[a|] l IH]; cbn [flat_map app]; intros ND;
    inversion ND as [|? ? Hx NDl]; subst; [constructor | | apply IH, NDl].
  constructor; [|apply IH, NDl].
  intros H. apply Hx. apply (proj1 (dropna_In l a)), H.
Qed.

Lemma tdv_options_In (t : string) :
  In t (tdv_options df_prev df_curr)
  <-> exists r, In r (df_prev ++ df_curr) /\ Ten_TDV r = Some t.
Proof.
  unfold tdv_options, drop_duplicates. split.
  - intros H. apply (Permutation_in _ (sort_by_perm String.leb _)) in H.
    apply dropna_In in H.
    apply (drop_duplicates_from_In opt_eqb opt_eqb_spec) in H as (H & _).
    apply in_map_iff in H as (r & E & Hr). eauto.
  - intros (r & Hr & E).
    apply (Permutation_in _ (Permutation_sym (sort_by_perm String.leb _))).
    apply dropna_In.
    rewrite <- (map_id (drop_duplicates_from opt_eqb (fun x => x) [] _)).
    apply (drop_duplicates_from_keys opt_eqb opt_eqb_spec (fun x => x)).
    split; [|intros []]. rewrite map_id, <- E. apply in_map, Hr.
Qed.

Lemma tdv_options_NoDup : NoDup (tdv_options df_prev df_curr).
Proof.
  unfold tdv_options, drop_duplicates.
  apply (Permutation_NoDup (Permutation_sym (sort_by_perm String.leb _))).
  apply dropna_NoDup.
  rewrite <- (map_id (drop_duplicates_from opt_eqb (fun x => x) [] _)).
  apply (drop_duplicates_from_NoDup opt_eqb opt_eqb_spec).
Qed.

Lemma default_keeps (r : Transaction) :
  In r (df_prev ++ df_curr) ->
  keeps (default_filters df_prev df_curr) r
  = (empty (tdv_options df_prev df_curr) || has_rep r).
Proof.
  intros Hr. unfold keeps, default_filters, make_filters.
  cbn [months customers materials tdvs empty negb orb andb].
  rewrite dt_month_in_all_months. cbn [andb].
  destruct (tdv_options df_prev df_curr) as [|t ts] eqn:Et; [reflexivity|].
  cbn [empty orb]. rewrite <- Et. unfold has_rep.
  destruct (Ten_TDV r) as [k|] eqn:Ek; [|reflexivity].
  apply isin_str_In, tdv_options_In. eauto.
Qed.

(** X27. The sidebar starts with every sales rep of the two datasets
    selected, each once. As soon as one row of either dataset carries a
    rep, the panels therefore show, before any selection is made, exactly
    the rows that carry a rep; when no row carries one, they show every
    row. *)
Theorem untouched_sidebar_hides_rows_without_rep :
  NoDup (tdv_options df_prev df_curr)
  /\ (forall t, In t (tdv_options df_prev df_curr)
                <-> exists r, In r (df_prev ++ df_curr) /\ Ten_TDV r = Some t)
  /\ forall df,
       df = df_prev \/ df = df_curr ->
       ((exists r, In r (df_prev ++ df_curr) /\ has_rep r = true) ->
        apply_filters df (default_filters df_prev df_curr)
        = filter has_rep df
        /\ apply_filters_tdv df (default_filters df_prev df_curr)
           = filter has_rep df)
       /\ ((forall r, In r (df_prev ++ df_curr) -> has_rep r = false) ->
           apply_filters df (default_filters df_prev df_curr) = df
           /\ apply_filters_tdv df (default_filters df_prev df_curr) = df).
Proof.
  split; [apply tdv_options_NoDup|]. split; [apply tdv_options_In|].
  intros df Which.
  assert (Sub : forall r, In r df -> In r (df_prev ++ df_curr)).
  { intros r Hr. apply in_or_app. destruct Which as [->| ->]; auto. }
  rewrite apply_filters_single_pass, apply_filters_tdv_single_pass.
  split.
  - intros (r0 & Hr0 & Rep). unfold has_rep in Rep.
    destruct (Ten_TDV r0) as [t|] eqn:Et; [|discriminate].
    assert (Hin : In t (tdv_options df_prev df_curr))
      by (apply tdv_options_In; eauto).
    assert (E : filter (keeps (default_filters df_prev df_curr)) df
                = filter has_rep df).
    { apply filter_ext_in. intros r Hr. rewrite (default_keeps _ (Sub r Hr)).
      destruct (tdv_options df_prev df_curr); [contradiction | reflexivity]. }
    rewrite E. auto.
  - intros None.
    assert (E : filter (keeps (default_filters df_prev df_curr)) df = df).
    { apply filter_all_in. intros r Hr. rewrite (default_keeps _ (Sub r Hr)).
      destruct (tdv_options df_prev df_curr) as [|t ts] eqn:Et; [reflexivity|].
      assert (Hin : In t (tdv_options df_prev df_curr))
        by (rewrite Et; left; reflexivity).
      apply tdv_options_In in Hin as (r' & Hr' & E').
      specialize (None r' Hr'). unfold has_rep in None.
      rewrite E' in None. discriminate None. }
    rewrite E. auto.
Qed.

(** X28. The customer codes and product codes behind any choice of display
    texts are distinct codes of the two datasets. Choosing every customer
    option and every product option selects every code, and the panels
    then filter exactly as they do with no customer and no product
    chosen. *)
Theorem choosing_every_option_filters_nothing :
  (forall display,
     NoDup (selected_customers df_prev df_curr display)
     /\ NoDup (selected_materials df_prev df_curr display)
     /\ (forall c, In c (selected_customers df_prev df_curr display) ->
                   In c (map Customer (df_prev ++ df_curr)))
     /\ (forall m, In m (selected_materials df_prev df_curr display) ->
                   In m (map Material (df_prev ++ df_curr))))
  /\ (forall r, In r (df_prev ++ df_curr) ->
        In (Customer r)
           (selected_customers df_prev df_curr
                               (customer_options df_prev df_curr))
        /\ In (Material r)
              (selected_materials df_prev df_curr
                                  (material_options df_prev df_curr)))
  /\ (forall df selected_months selected_tdvs,
        df = df_prev \/ df = df_curr ->
        apply_filters df
          (make_filters selected_months
             (selected_customers df_prev df_curr
                                 (customer_options df_prev df_curr))
             (selected_materials df_prev df_curr
                                 (material_options df_prev df_curr))
             selected_tdvs)
        = apply_filters df
            (make_filters selected_months [] [] selected_tdvs)).
Proof.
  assert (AllC : forall r, In r (df_prev ++ df_curr) ->
                   In (Customer r)
                      (selected_customers df_prev df_curr
                         (customer_options df_prev df_curr))).
  { intros r Hr. unfold selected_customers, customer_options.
    rewrite every_option_selected. apply option_rows_keys, in_map, Hr. }
  assert (AllM : forall r, In r (df_prev ++ df_curr) ->
                   In (Material r)
                      (selected_materials df_prev df_curr
                         (material_options df_prev df_curr))).
  { intros r Hr. unfold selected_materials, material_options.
    rewrite every_option_selected. apply option_rows_keys, in_map, Hr. }
  split; [|split].
  - intros display. unfold selected_customers, selected_materials.
    repeat split.
    + apply NoDup_map_filter, option_rows_NoDup.
    + apply NoDup_map_filter, option_rows_NoDup.
    + intros c H. apply in_map_iff in H as (r & <- & Hr).
      apply filter_In in Hr as (Hr & _).
      apply option_rows_keys, in_map, Hr.
    + intros m H. apply in_map_iff in H as (r & <- & Hr).
      apply filter_In in Hr as (Hr & _).
      apply option_rows_keys, in_map, Hr.
  - intros r Hr. split; [apply AllC, Hr | apply AllM, Hr].
  - intros df selected_months selected_tdvs Which.
    assert (Sub : forall r, In r df -> In r (df_prev ++ df_curr)).
    { intros r Hr. apply in_or_app. destruct Which as [->| ->]; auto. }
    rewrite !apply_filters_single_pass. apply filter_ext_in.
    intros r Hr. unfold keeps, make_filters.
    cbn [months customers materials tdvs empty orb].
    pose proof (proj2 (isin_str_In _ _) (AllC r (Sub r Hr))) as Hc.
    pose proof (proj2 (isin_str_In _ _) (AllM r (Sub r Hr))) as Hm.
    rewrite Hc, Hm, !orb_true_r. reflexivity.
Qed.

End Sidebar.

Lemma customer_chart_traces_witness :
  exists k,
    In k (customers two_customers_selected)
    /\ (trace_for (display_name Customer Name two_years k ++ prev_year_suffix)
                  (fun r => String.eqb (Customer r) k)
                  (apply_filters one_previous_sale two_customers_selected)
                  (nth 0 customer_chart_sample no_trace)
        \/ trace_for (display_name Customer Name two_years k
                      ++ curr_year_suffix)
                     (fun r => String.eqb (Customer r) k)
                     (apply_filters two_years two_customers_selected)
                     (nth 0 customer_chart_sample no_trace)).
Proof.
  apply (proj1 (proj2 (@customer_chart_traces one_previous_sale two_years
                         two_customers_selected)
                      customer_chart_sample eq_refl)).
  vm_compute. auto.
Defined.

Lemma product_chart_traces_witness :
  exists k,
    In k (materials two_products_selected)
    /\ (trace_for (display_name Material Item_Description two_years k
                   ++ prev_year_suffix)
                  (fun r => String.eqb (Material r) k)
                  (apply_filters one_previous_sale two_products_selected)
                  (nth 1 product_chart_sample no_trace)
        \/ trace_for (display_name Material Item_Description two_years k
                      ++ curr_year_suffix)
                     (fun r => String.eqb (Material r) k)
                     (apply_filters two_years two_products_selected)
                     (nth 1 product_chart_sample no_trace)).
Proof.
  apply (proj1 (proj2 (@product_chart_traces one_previous_sale two_years
                         two_products_selected)
                      product_chart_sample eq_refl)).
  vm_compute. auto.
Defined.

Lemma untouched_sidebar_hides_rows_without_rep_witness :
  apply_filters mixed_reps (default_filters one_previous_sale mixed_reps)
  = filter has_rep mixed_reps
  /\ apply_filters_tdv mixed_reps (default_filters one_previous_sale mixed_reps)
     = filter has_rep mixed_reps.
Proof.
  apply (proj1 (proj2 (proj2 (@untouched_sidebar_hides_rows_without_rep
                                one_previous_sale mixed_reps))
                      mixed_reps (or_intror eq_refl))).
  exists (nth 0 mixed_reps (sale_without_rep 0 EmptyString EmptyString
                                             EmptyString 0)).
  split; [vm_compute; auto | reflexivity].
Defined.
